(** * The sales-analytics engine of desktop_sabore

    A shallow embedding of [data_processor.py] (class [DataProcessor]) and
    [analytics.py] (class [SaboreAnalytics]), and the properties of the
    aggregation engine stated over it.

    Conventions of the embedding.
    - Python numbers that carry money are exact rationals ([Qc]); the
      rounding error of binary64 arithmetic is not modelled.  Quantities and
      counters are integers ([Z]).
    - A Python [dict] is an association list in insertion order.
    - [try ... except Exception: continue] is a computation in the [result]
      monad whose [Raise] outcome makes the loop keep its accumulator.
    - [datetime.now()] reads a clock that is threaded through the calls
      that consult it ([IO]).
    - The library functions [datetime.fromisoformat] and the square root
      used by [statistics.stdev] are members of the class [Lib]; the
      theorems hold for every instance. *)

From Stdlib Require Import ZArith QArith Qcanon Qround Bool List String Ascii.
From Stdlib Require Import Lia Permutation Sorted DecimalString.
Import ListNotations.

Local Open Scope Z_scope.

(** ** Python values and builtins *)

Module Py.

(** Numbers. *)
Definition of_Z (z : Z) : Qc := Q2Qc (inject_Z z).
Definition of_nat (n : nat) : Qc := of_Z (Z.of_nat n).

Definition Qc_ltb (x y : Qc) : bool :=
  match (x ?= y)%Qc with Lt => true | _ => false end.
Definition Qc_leb (x y : Qc) : bool :=
  match (x ?= y)%Qc with Gt => false | _ => true end.
Definition Qc_eqb (x y : Qc) : bool := Qc_eq_bool x y.

(** [round(x)] on an exact value: to the nearest integer, ties to even. *)
Definition round_half_even (q : Qc) : Z :=
  let f := Qfloor q in
  match ((q - of_Z f) ?= Q2Qc (1 # 2))%Qc with
  | Lt => f
  | Gt => f + 1
  | Eq => if Z.even f then f else f + 1
  end.

(** [round(x, 2)] on an exact value.  Python rounds the binary64 value
    it has computed, which can lie on the other side of a tie than the
    exact value does. *)
Definition round2 (q : Qc) : Qc :=
  (of_Z (round_half_even (q * of_Z 100)) / of_Z 100)%Qc.

(** [sum(xs)]: a left fold starting at 0. *)
Definition sum (xs : list Qc) : Qc := fold_left Qcplus xs (Q2Qc 0).

(** Exceptions that the modelled code can meet, and the outcome of a
    computation that may raise. *)
Inductive exn : Type :=
| ValueError | TypeError | AttributeError | OverflowError.

Inductive result (A : Type) : Type :=
| Ok (a : A)
| Raise (e : exn).
Arguments Ok {A} a.
Arguments Raise {A} e.

Definition bind {A B} (m : result A) (k : A -> result B) : result B :=
  match m with Ok a => k a | Raise e => Raise e end.

(** Dictionaries keep insertion order; assigning to a present key keeps
    its position, assigning to a new key appends it. *)
Section Dict.
Context {K V : Type} (eqb : K -> K -> bool).

Definition dict := list (K * V).

Fixpoint dict_in (k : K) (d : dict) : bool :=
  match d with
  | [] => false
  | (k', _) :: r => if eqb k k' then true else dict_in k r
  end.

Fixpoint dict_get (k : K) (d : dict) : option V :=
  match d with
  | [] => None
  | (k', v) :: r => if eqb k k' then Some v else dict_get k r
  end.

(** [d[k] = v] *)
Fixpoint dict_set (k : K) (v : V) (d : dict) : dict :=
  match d with
  | [] => [(k, v)]
  | (k', v') :: r =>
      if eqb k k' then (k', v) :: r else (k', v') :: dict_set k v r
  end.

(** [d[k] = f(d[k])] for a key that is present (as in [d[k] += x]
    right after [if k not in d: d[k] = ...]). *)
Fixpoint dict_adjust (k : K) (f : V -> V) (d : dict) : dict :=
  match d with
  | [] => []
  | (k', v') :: r =>
      if eqb k k' then (k', f v') :: r else (k', v') :: dict_adjust k f r
  end.

(** The idiom
    [if k not in d: d[k] = zero] followed by [d[k] = f(d[k])]. *)
Definition dict_accum (k : K) (zero : V) (f : V -> V) (d : dict) : dict :=
  let d1 := if dict_in k d then d else dict_set k zero d in
  dict_adjust k f d1.

Definition keys (d : dict) : list K := map fst d.
Definition values (d : dict) : list V := map snd d.
End Dict.

(** [sorted(xs)]: Python's sort is stable and compares with [<] only.
    [lt a b] is that comparison; an element is inserted behind the elements
    that are smaller than it and in front of the first one that is not, so
    elements that compare equal keep their order. *)
Section Sorted.
Context {A : Type} (lt : A -> A -> bool).

Fixpoint insert (x : A) (l : list A) : list A :=
  match l with
  | [] => [x]
  | y :: r => if lt y x then y :: insert x r else x :: y :: r
  end.

Fixpoint sorted (l : list A) : list A :=
  match l with
  | [] => []
  | x :: r => insert x (sorted r)
  end.

(** In a sorted list no element is smaller than one in front of it. *)
Definition ordered (a b : A) : Prop := lt b a = false.
End Sorted.

(** Slices [l[:n]] and [l[-n:]] for an integer [n], with Python's
    treatment of negative and out-of-range bounds. *)
Definition slice_to {A} (l : list A) (n : Z) : list A :=
  if n <? 0 then firstn (Z.to_nat (Z.of_nat (List.length l) + n)) l
  else firstn (Z.to_nat n) l.

Definition slice_last {A} (l : list A) (n : nat) : list A :=
  skipn (List.length l - n) l.

(** [[x] * n] *)
Definition replicate {A} (x : A) (n : Z) : list A := repeat x (Z.to_nat n).

(** [s.replace(c, t)] for a one-character pattern. *)
Fixpoint replace_char (c : ascii) (t : string) (s : string) : string :=
  match s with
  | EmptyString => EmptyString
  | String a r =>
      if Ascii.eqb a c then (t ++ replace_char c t r)%string
      else String a (replace_char c t r)
  end.

(** [str(n)] and the zero-padded two-digit form of [%m], [%d]. *)
Definition str (n : Z) : string := NilZero.string_of_int (Z.to_int n).
Definition pad2 (n : Z) : string :=
  if n <? 10 then ("0" ++ str n)%string else str n.

End Py.

(** ** The [datetime] library, after CPython's [_pydatetime.py] *)

Module Datetime.
Import Py.

(** A naive date and time: the fields of a [datetime] without [tzinfo]. *)
Record naive : Type := mk_naive {
  year : Z; month : Z; day : Z;
  hour : Z; minute : Z; second : Z; microsecond : Z
}.

(** A [datetime]; [utcoffset] is [None] for a naive value and the offset
    from UTC in seconds for an aware one. *)
Record datetime : Type := mk_datetime {
  campos : naive;
  utcoffset : option Z
}.

Definition MAXORDINAL : Z := 3652059.

Definition is_leap (y : Z) : bool :=
  (y mod 4 =? 0) && (negb (y mod 100 =? 0) || (y mod 400 =? 0)).

Definition days_before_year (y : Z) : Z :=
  let y := y - 1 in y * 365 + y / 4 - y / 100 + y / 400.

Definition DAYS_IN_MONTH : list Z :=
  [-1; 31; 28; 31; 30; 31; 30; 31; 31; 30; 31; 30; 31].

Definition DAYS_BEFORE_MONTH : list Z :=
  [-1; 0; 31; 59; 90; 120; 151; 181; 212; 243; 273; 304; 334].

Definition days_in_month (y m : Z) : Z :=
  if (m =? 2) && is_leap y then 29 else nth (Z.to_nat m) DAYS_IN_MONTH 0.

Definition days_before_month (y m : Z) : Z :=
  nth (Z.to_nat m) DAYS_BEFORE_MONTH 0
  + (if (2 <? m) && is_leap y then 1 else 0).

Definition ymd2ord (y m d : Z) : Z :=
  days_before_year y + days_before_month y m + d.

Definition DI400Y : Z := days_before_year 401.
Definition DI100Y : Z := days_before_year 101.
Definition DI4Y : Z := days_before_year 5.

(** The month and the day of the [n]-th day (from 0) of a year: the
    month is estimated from above and corrected. *)
Definition month_day (leapyear : bool) (n : Z) : Z * Z :=
  let m := Z.shiftr (n + 50) 5 in
  let preceding :=
    nth (Z.to_nat m) DAYS_BEFORE_MONTH 0
    + (if (2 <? m) && leapyear then 1 else 0) in
  if n <? preceding then
    let m := m - 1 in
    let preceding :=
      preceding
      - (nth (Z.to_nat m) DAYS_IN_MONTH 0
         + (if (m =? 2) && leapyear then 1 else 0)) in
    (m, n - preceding + 1)
  else (m, n - preceding + 1).

Definition ord2ymd (n : Z) : Z * Z * Z :=
  let n := n - 1 in
  let n400 := n / DI400Y in
  let n := n mod DI400Y in
  let y := n400 * 400 + 1 in
  let n100 := n / DI100Y in
  let n := n mod DI100Y in
  let n4 := n / DI4Y in
  let n := n mod DI4Y in
  let n1 := n / 365 in
  let n := n mod 365 in
  let y := y + n100 * 100 + n4 * 4 + n1 in
  if (n1 =? 4) || (n100 =? 4) then (y - 1, 12, 31)
  else
    let leapyear := (n1 =? 3) && (negb (n4 =? 24) || (n100 =? 3)) in
    let '(m, d) := month_day leapyear n in
    (y, m, d).

Definition toordinal (t : naive) : Z := ymd2ord (year t) (month t) (day t).

(** [weekday()]: Monday is 0. *)
Definition weekday (t : naive) : Z := (toordinal t + 6) mod 7.

Definition isoweek1monday (y : Z) : Z :=
  let firstday := ymd2ord y 1 1 in
  let firstweekday := (firstday + 6) mod 7 in
  let week1monday := firstday - firstweekday in
  if 3 <? firstweekday then week1monday + 7 else week1monday.

(** [isocalendar()]: ISO year, ISO week number, ISO weekday. *)
Definition isocalendar (t : naive) : Z * Z * Z :=
  let y := year t in
  let week1monday := isoweek1monday y in
  let today := toordinal t in
  let week := (today - week1monday) / 7 in
  let d := (today - week1monday) mod 7 in
  if week <? 0 then
    let y := y - 1 in
    let week1monday := isoweek1monday y in
    ( y, (today - week1monday) / 7 + 1, (today - week1monday) mod 7 + 1 )
  else if (52 <=? week) && (isoweek1monday (y + 1) <=? today) then
    (y + 1, 1, d + 1)
  else (y, week + 1, d + 1).

Definition iso_year (t : naive) : Z := fst (fst (isocalendar t)).
Definition iso_week (t : naive) : Z := snd (fst (isocalendar t)).

(** [strftime]: [%Y] is the year in four digits, [%m] and [%d] in two.
    (For years below 1000 some C libraries do not pad [%Y]; no clock of
    this application produces such a year.) *)
Definition zeros_below (n bound : Z) : string :=
  if n <? bound then "0"%string else EmptyString.

Definition pad4 (n : Z) : string :=
  (zeros_below n 1000 ++ zeros_below n 100 ++ zeros_below n 10 ++ str n)%string.

Definition strftime_Y_m_d (t : naive) : string :=
  (pad4 (year t) ++ "-" ++ pad2 (month t) ++ "-" ++ pad2 (day t))%string.

Definition strftime_Y_m (t : naive) : string :=
  (pad4 (year t) ++ "-" ++ pad2 (month t))%string.

(** [calendar.day_name] and [calendar.month_name] in the C locale, which
    is in force since no module of the application sets another one. *)
Definition day_name (w : Z) : string :=
  nth (Z.to_nat w)
    ["Monday"; "Tuesday"; "Wednesday"; "Thursday"; "Friday"; "Saturday";
     "Sunday"]%string EmptyString.

Definition month_name (m : Z) : string :=
  nth (Z.to_nat m)
    [EmptyString; "January"; "February"; "March"; "April"; "May"; "June";
     "July"; "August"; "September"; "October"; "November";
     "December"]%string
    EmptyString.

(** Order of naive values: field by field, as CPython compares them. *)
Definition state (t : naive) : list Z :=
  [year t; month t; day t; hour t; minute t; second t; microsecond t].

Fixpoint cmp_list (a b : list Z) : comparison :=
  match a, b with
  | [], [] => Eq
  | [], _ :: _ => Lt
  | _ :: _, [] => Gt
  | x :: a', y :: b' =>
      match x ?= y with Eq => cmp_list a' b' | c => c end
  end.

Definition cmp_naive (a b : naive) : comparison := cmp_list (state a) (state b).

(** Microseconds since 0001-01-01T00:00:00, used to compare aware values
    on the UTC line. *)
Definition to_us (t : naive) : Z :=
  (((toordinal t - 1) * 24 + hour t) * 60 + minute t) * 60 * 1000000
  + second t * 1000000 + microsecond t.

(** [a >= b] on [datetime] objects: ordering a naive value against an
    aware one raises [TypeError]. *)
Definition ge (a b : datetime) : result bool :=
  match utcoffset a, utcoffset b with
  | None, None =>
      Ok (match cmp_naive (campos a) (campos b) with Lt => false | _ => true end)
  | Some oa, Some ob =>
      Ok (to_us (campos b) - ob * 1000000 <=? to_us (campos a) - oa * 1000000)
  | _, _ => Raise TypeError
  end.

Definition lt (a b : datetime) : result bool :=
  bind (ge a b) (fun r => Ok (negb r)).

(** [t - timedelta(days=dias)]: [timedelta] accepts at most 999999999
    days, and the difference must be a date of the years 1 to 9999. *)
Definition sub_days (t : naive) (dias : Z) : result naive :=
  if (dias <? -999999999) || (999999999 <? dias) then Raise OverflowError
  else
    let n := toordinal t - dias in
    if (0 <? n) && (n <=? MAXORDINAL) then
      let '(y, m, d) := ord2ymd n in
      Ok (mk_naive y m d (hour t) (minute t) (second t) (microsecond t))
    else Raise OverflowError.

(** The wall clock.  The [n]-th call of [datetime.now()] in a run returns
    [readings n]; a computation that reads the clock passes it on. *)
Record clock : Type := mk_clock {
  readings : nat -> naive;
  reads : nat
}.

Definition IO (A : Type) : Type := clock -> A * clock.

Definition now : IO naive :=
  fun c => (readings c (reads c), mk_clock (readings c) (S (reads c))).

Definition fraction (us : Z) : string :=
  if us =? 0 then EmptyString
  else ("." ++ zeros_below us 100000 ++ zeros_below us 10000
        ++ zeros_below us 1000 ++ zeros_below us 100 ++ zeros_below us 10
        ++ str us)%string.

Definition isoformat (t : naive) : string :=
  (strftime_Y_m_d t ++ "T" ++ pad2 (hour t) ++ ":" ++ pad2 (minute t) ++ ":"
   ++ pad2 (second t) ++ fraction (microsecond t))%string.

End Datetime.

(** The library functions that the engine calls and that are taken as
    given: [datetime.fromisoformat] ([None] stands for [ValueError]) and
    the square root of [statistics.stdev]. *)
Class Lib : Type := {
  fromisoformat : string -> option Datetime.datetime;
  sqrt : Qc -> Qc
}.

(** ** Order records *)

(** The value found under the key ['data_pedido'] of an order: nothing,
    a string, a [datetime], or a true object with none of the attributes
    of a [datetime] that the engine reads ([strftime], [year],
    [isocalendar], [hour], [weekday], [month]) and no order against a
    [datetime], such as a number or a list.  Objects that have some of
    these attributes and lack others, such as a [datetime.date], are not
    values of this type. *)
Inductive data_value : Type :=
| Ausente                         (* no such key, or [None] *)
| Texto (s : string)              (* a [str] *)
| Nativo (d : Datetime.datetime)  (* a [datetime] object *)
| Outro.                          (* a true object without these attributes *)

(** [dict.get(key, default)] on an optional key. *)
Definition get {A : Type} (field : option A) (default : A) : A :=
  match field with Some a => a | None => default end.

(** A line item: every key may be missing. *)
Module Item.
Record t : Type := mk {
  nome : option string;
  quantidade : option Z;
  preco_unitario : option Qc;
  valor : option Qc;
  categoria : option string
}.
End Item.

(** An order.  [itens = None] is an order without the key ['itens'];
    [itens = Some []] has the key with an empty list. *)
Module Pedido.
Record t : Type := mk {
  id : option Z;
  data_pedido : data_value;
  valor_total : option Qc;
  itens : option (list Item.t)
}.
End Pedido.

(** An entry of the item ranking. *)
Module Entrada.
Record t : Type := mk {
  quantidade_total : Z;
  valor_total : Qc;
  nome : string
}.
End Entrada.

(** ** [data_processor.py] *)

Module DataProcessor.
Import Py Datetime.

Section WithLib.
Context {lib : Lib}.

Definition calcular_vendas_totais (pedidos : list Pedido.t) : Qc :=
  fold_left
    (fun total pedido =>
       match Pedido.itens pedido with
       | Some itens =>
           fold_left
             (fun total item =>
                (total + get (Item.valor item) (of_Z 0)
                         * of_Z (get (Item.quantidade item) 1%Z))%Qc)
             itens total
       | None => (total + get (Pedido.valor_total pedido) (of_Z 0))%Qc
       end)
    pedidos (of_Z 0).

(** [if not data_pedido: continue] *)
Definition falsy (v : data_value) : bool :=
  match v with
  | Ausente => true
  | Texto EmptyString => true
  | _ => false
  end.

(** The head of every [try] block: a string is parsed after its ["Z"]s are
    replaced, any other object is taken as it is.  [None] is an object
    that is not a [datetime]. *)
Definition converter (v : data_value) : result (option datetime) :=
  match v with
  | Texto s =>
      match fromisoformat (replace_char "Z" "+00:00" s) with
      | Some d => Ok (Some d)
      | None => Raise ValueError
      end
  | Nativo d => Ok (Some d)
  | Outro | Ausente => Ok None
  end.

(** Reading an attribute or calling a method of [datetime] on the
    converted object; the objects that [Outro] stands for have none of
    them, and reading one raises [AttributeError]. *)
Definition attr (o : option datetime) : result datetime :=
  match o with Some d => Ok d | None => Raise AttributeError end.

(** A loop whose body is [if not data_pedido: continue] followed by a
    [try] block that ends in [except Exception: continue]. *)
Definition for_each_dated {S : Type}
    (body : S -> Pedido.t -> result S) (pedidos : list Pedido.t) (s0 : S) : S :=
  fold_left
    (fun s pedido =>
       if falsy (Pedido.data_pedido pedido) then s
       else match body s pedido with Ok s' => s' | Raise _ => s end)
    pedidos s0.

Definition chave_periodo (tipo_periodo : string) (data : datetime) : string :=
  if String.eqb tipo_periodo "dia" then strftime_Y_m_d (campos data)
  else if String.eqb tipo_periodo "semana" then
    (str (year (campos data)) ++ "-S" ++ str (iso_week (campos data)))%string
  else if String.eqb tipo_periodo "mes" then strftime_Y_m (campos data)
  else strftime_Y_m_d (campos data).

(** Python compares the pairs of [d.items()] as tuples and sorts with [<]. *)
Definition lt_item_str (a b : string * Qc) : bool :=
  String.ltb (fst a) (fst b)
  || (String.eqb (fst a) (fst b) && Qc_ltb (snd a) (snd b)).

Definition lt_item_int (a b : Z * Z) : bool :=
  (fst a <? fst b) || ((fst a =? fst b) && (snd a <? snd b)).

Definition agrupar_por_periodo (pedidos : list Pedido.t) (tipo_periodo : string)
  : dict (K := string) (V := Qc) :=
  let vendas_por_periodo :=
    for_each_dated
      (fun vendas pedido =>
         bind (converter (Pedido.data_pedido pedido)) (fun o =>
         bind (attr o) (fun data =>
         let chave := chave_periodo tipo_periodo data in
         Ok (dict_accum String.eqb chave (of_Z 0)
               (fun v => (v + get (Pedido.valor_total pedido) (of_Z 0))%Qc)
               vendas))))
      pedidos [] in
  sorted lt_item_str vendas_por_periodo.

Definition contar_item (contador : dict (K := string) (V := Entrada.t))
    (item : Item.t) : dict (K := string) (V := Entrada.t) :=
  let nome := get (Item.nome item) "Item sem nome"%string in
  let quantidade := get (Item.quantidade item) 1 in
  let valor :=
    get (Item.preco_unitario item) (get (Item.valor item) (of_Z 0)) in
  dict_accum String.eqb nome (Entrada.mk 0 (of_Z 0) nome)
    (fun e =>
       Entrada.mk (Entrada.quantidade_total e + quantidade)
         (Entrada.valor_total e + valor * of_Z quantidade)%Qc
         (Entrada.nome e))
    contador.

(** The dictionary [contador_itens] after the scan of the batch. *)
Definition contador_itens (pedidos : list Pedido.t)
  : dict (K := string) (V := Entrada.t) :=
  fold_left
    (fun contador pedido =>
       match Pedido.itens pedido with
       | Some itens => fold_left contar_item itens contador
       | None => contador
       end)
    pedidos [].

(** [key=lambda x: x['quantidade_total'], reverse=True]: the elements are
    sorted as if each comparison of keys were reversed. *)
Definition gt_quantidade (a b : Entrada.t) : bool :=
  Entrada.quantidade_total b <? Entrada.quantidade_total a.

(** The default values of the parameters [limite], [dias] and
    [dias_futuros]. *)
Definition limite_padrao : Z := 10.
Definition dias_padrao : Z := 30.
Definition dias_futuros_padrao : Z := 7.

Definition itens_mais_populares (pedidos : list Pedido.t) (limite : Z)
  : list Entrada.t :=
  let itens_ordenados :=
    sorted gt_quantidade (values (contador_itens pedidos)) in
  slice_to itens_ordenados limite.

Definition calcular_ticket_medio (pedidos : list Pedido.t) : Qc :=
  match pedidos with
  | [] => of_Z 0
  | _ => (calcular_vendas_totais pedidos / of_nat (List.length pedidos))%Qc
  end.

Definition horarios_pico (pedidos : list Pedido.t) : dict (K := Z) (V := Z) :=
  let contador_horarios :=
    for_each_dated
      (fun contador pedido =>
         bind (converter (Pedido.data_pedido pedido)) (fun o =>
         bind (attr o) (fun data_pedido =>
         let hora := hour (campos data_pedido) in
         Ok (dict_accum Z.eqb hora 0 (fun n => n + 1) contador))))
      pedidos [] in
  sorted lt_item_int contador_horarios.

Definition dias_semana_performance (pedidos : list Pedido.t)
  : dict (K := string) (V := Qc) :=
  for_each_dated
    (fun vendas pedido =>
       bind (converter (Pedido.data_pedido pedido)) (fun o =>
       bind (attr o) (fun data_pedido =>
       let dia_semana := day_name (weekday (campos data_pedido)) in
       Ok (dict_accum String.eqb dia_semana (of_Z 0)
             (fun v => (v + get (Pedido.valor_total pedido) (of_Z 0))%Qc)
             vendas))))
    pedidos [].

Definition analise_sazonalidade (pedidos : list Pedido.t) (meses : Z)
  : dict (K := string) (V := Qc) :=
  for_each_dated
    (fun vendas pedido =>
       bind (converter (Pedido.data_pedido pedido)) (fun o =>
       bind (attr o) (fun data_pedido =>
       let mes_nome := month_name (month (campos data_pedido)) in
       Ok (dict_accum String.eqb mes_nome (of_Z 0)
             (fun v => (v + get (Pedido.valor_total pedido) (of_Z 0))%Qc)
             vendas))))
    pedidos [].

(** [x >= y] where [x] is the converted object and [y] a naive bound;
    an object that is not a [datetime] does not compare with one. *)
Definition ge_bound (o : option datetime) (y : naive) : result bool :=
  match o with
  | Some d => ge d (mk_datetime y None)
  | None => Raise TypeError
  end.

Definition lt_bound (o : option datetime) (y : naive) : result bool :=
  match o with
  | Some d => lt d (mk_datetime y None)
  | None => Raise TypeError
  end.

(** The two lists filled by the loop of [calcular_crescimento_vendas]. *)
Definition janelas (periodo_atual periodo_anterior : naive)
    (pedidos : list Pedido.t) : list Pedido.t * list Pedido.t :=
  for_each_dated
    (fun '(vendas_atual, vendas_anterior) pedido =>
       bind (converter (Pedido.data_pedido pedido)) (fun data_pedido =>
       bind (ge_bound data_pedido periodo_atual) (fun no_atual =>
       if no_atual then Ok (vendas_atual ++ [pedido], vendas_anterior)
       else
         bind (ge_bound data_pedido periodo_anterior) (fun depois =>
         if depois then
           bind (lt_bound data_pedido periodo_atual) (fun antes =>
           if antes then Ok (vendas_atual, vendas_anterior ++ [pedido])
           else Ok (vendas_atual, vendas_anterior))
         else Ok (vendas_atual, vendas_anterior)))))
    pedidos ([], []).

(** The part of [calcular_crescimento_vendas] that follows the reading of
    the clock. *)
Definition crescimento_em (agora : naive) (pedidos : list Pedido.t) (dias : Z)
  : result Qc :=
  bind (sub_days agora dias) (fun periodo_atual =>
  bind (sub_days periodo_atual dias) (fun periodo_anterior =>
  let '(vendas_atual, vendas_anterior) :=
    janelas periodo_atual periodo_anterior pedidos in
  let total_atual := calcular_vendas_totais vendas_atual in
  let total_anterior := calcular_vendas_totais vendas_anterior in
  if Qc_eqb total_anterior (of_Z 0) then
    Ok (if Qc_ltb (of_Z 0) total_atual then of_Z 100 else of_Z 0)
  else
    let crescimento :=
      ((total_atual - total_anterior) / total_anterior * of_Z 100)%Qc in
    Ok (round2 crescimento))).

Definition calcular_crescimento_vendas (pedidos : list Pedido.t) (dias : Z)
  : IO (result Qc) :=
  fun c =>
    let (agora, c) := now c in
    (crescimento_em agora pedidos dias, c).

End WithLib.
End DataProcessor.

(** ** [analytics.py] *)

Module SaboreAnalytics.
Import Py Datetime.

(** Sequencing of computations that read the clock and may raise. *)
Definition io_ret {A} (a : A) : IO (result A) := fun c => (Ok a, c).

Definition io_bind {A B} (m : IO (result A)) (k : A -> IO (result B))
  : IO (result B) :=
  fun c =>
    let (r, c') := m c in
    match r with
    | Ok a => k a c'
    | Raise e => (Raise e, c')
    end.

Record metricas : Type := mk_metricas {
  vendas_totais : Qc;
  ticket_medio : Qc;
  total_pedidos : Z;
  crescimento_percentual : Qc
}.

Record extremo : Type := mk_extremo {
  id : option Z;
  valor : Qc;
  data : data_value
}.

Record estatisticas : Type := mk_estatisticas {
  media_valor_pedido : Qc;
  mediana_valor_pedido : Qc;
  desvio_padrao_valor : Qc;
  maior_pedido : extremo;
  menor_pedido : extremo
}.

Record tendencia_vendas : Type := mk_tendencia {
  tendencia : string;
  crescimento_diario : Qc;
  inclinacao : option Qc
}.

Record relatorio : Type := mk_relatorio {
  r_metricas_principais : metricas;
  r_estatisticas_avancadas : option estatisticas;
  r_tendencia_vendas : tendencia_vendas;
  r_previsao_vendas : list Qc;
  r_horarios_pico : dict (K := Z) (V := Z);
  r_dias_semana_performance : dict (K := string) (V := Qc);
  r_itens_mais_vendidos : list Entrada.t;
  r_vendas_por_dia : dict (K := string) (V := Qc);
  r_vendas_por_semana : dict (K := string) (V := Qc);
  r_vendas_por_mes : dict (K := string) (V := Qc);
  r_data_geracao : string
}.

Section WithLib.
Context {lib : Lib}.

(** The methods take the batch [self.pedidos] as their first argument. *)

Definition calcular_metricas_principais (pedidos : list Pedido.t)
  : IO (result metricas) :=
  match pedidos with
  | [] => io_ret (mk_metricas (of_Z 0) (of_Z 0) 0 (of_Z 0))
  | _ =>
      let vendas_totais := DataProcessor.calcular_vendas_totais pedidos in
      let total_pedidos := Z.of_nat (List.length pedidos) in
      let ticket_medio :=
        if 0 <? total_pedidos then (vendas_totais / of_Z total_pedidos)%Qc
        else of_Z 0 in
      io_bind (DataProcessor.calcular_crescimento_vendas pedidos
                 DataProcessor.dias_padrao)
        (fun crescimento =>
           io_ret (mk_metricas vendas_totais ticket_medio total_pedidos
                     crescimento))
  end.

Definition horarios_pico (pedidos : list Pedido.t) :=
  DataProcessor.horarios_pico pedidos.

Definition dias_semana_performance (pedidos : list Pedido.t) :=
  DataProcessor.dias_semana_performance pedidos.

Definition analise_sazonalidade (pedidos : list Pedido.t) (meses : Z) :=
  DataProcessor.analise_sazonalidade pedidos meses.

Definition itens_mais_vendidos (pedidos : list Pedido.t) (limite : Z) :=
  DataProcessor.itens_mais_populares pedidos limite.

Definition vendas_por_periodo (pedidos : list Pedido.t) (tipo_periodo : string) :=
  DataProcessor.agrupar_por_periodo pedidos tipo_periodo.

(** [statistics.mean], [statistics.median], [statistics.stdev]. *)
Definition mean (xs : list Qc) : Qc := (sum xs / of_nat (List.length xs))%Qc.

Definition median (xs : list Qc) : Qc :=
  let data := sorted Qc_ltb xs in
  let n := List.length xs in
  if Nat.odd n then nth (n / 2) data (of_Z 0)
  else ((nth (n / 2 - 1) data (of_Z 0) + nth (n / 2) data (of_Z 0))
        / of_Z 2)%Qc.

Definition stdev (xs : list Qc) : Qc :=
  let m := mean xs in
  let ss := sum (map (fun x => ((x - m) * (x - m))%Qc) xs) in
  sqrt (ss / of_nat (List.length xs - 1))%Qc.

(** [max(xs, key=...)] and [min(xs, key=...)] return the first extreme
    element. *)
Definition max_by {A} (key : A -> Qc) (x : A) (xs : list A) : A :=
  fold_left (fun best y => if Qc_ltb (key best) (key y) then y else best) xs x.

Definition min_by {A} (key : A -> Qc) (x : A) (xs : list A) : A :=
  fold_left (fun best y => if Qc_ltb (key y) (key best) then y else best) xs x.

Definition valor_do_pedido (pedido : Pedido.t) : Qc :=
  get (Pedido.valor_total pedido) (of_Z 0).

Definition descrever (pedido : Pedido.t) : extremo :=
  mk_extremo (Pedido.id pedido) (valor_do_pedido pedido)
    (Pedido.data_pedido pedido).

Definition calcular_estatisticas_avancadas (pedidos : list Pedido.t)
  : option estatisticas :=
  match pedidos with
  | [] => None
  | primeiro :: resto =>
      let valores_pedidos := map valor_do_pedido pedidos in
      let media_valor := mean valores_pedidos in
      let mediana_valor := median valores_pedidos in
      let desvio_padrao :=
        if (1 <? List.length valores_pedidos)%nat then stdev valores_pedidos
        else of_Z 0 in
      let pedido_maior_valor := max_by valor_do_pedido primeiro resto in
      let pedido_menor_valor := min_by valor_do_pedido primeiro resto in
      Some (mk_estatisticas media_valor mediana_valor desvio_padrao
              (descrever pedido_maior_valor) (descrever pedido_menor_valor))
  end.

Definition estavel : tendencia_vendas :=
  mk_tendencia "estavel" (of_Z 0) None.

(** The orders kept by the filter of [analise_tendencia_vendas]. *)
Definition pedidos_periodo (data_inicio : naive) (pedidos : list Pedido.t)
  : list Pedido.t :=
  DataProcessor.for_each_dated
    (fun periodo pedido =>
       bind (DataProcessor.converter (Pedido.data_pedido pedido))
         (fun data_pedido =>
       bind (DataProcessor.ge_bound data_pedido data_inicio) (fun dentro =>
       if dentro then Ok (periodo ++ [pedido]) else Ok periodo)))
    pedidos [].

(** [list(range(n))] as numbers. *)
Definition range (n : nat) : list Qc := map of_nat (seq 0 n).

(** The regression of [analise_tendencia_vendas], from [n = len(valores)]
    on.  The label is read off the slope that has been computed; here
    that slope is the exact quotient. *)
Definition regressao (valores : list Qc) : tendencia_vendas :=
  let dias_lista := range (List.length valores) in
  let n := List.length valores in
  if (1 <? n)%nat then
    let media_x := (sum dias_lista / of_nat n)%Qc in
    let media_y := (sum valores / of_nat n)%Qc in
    let numerador :=
      sum (map (fun xy => ((fst xy - media_x) * (snd xy - media_y))%Qc)
             (combine dias_lista valores)) in
    let denominador :=
      sum (map (fun x => ((x - media_x) * (x - media_x))%Qc) dias_lista) in
    if negb (Qc_eqb denominador (of_Z 0)) then
      let inclinacao := (numerador / denominador)%Qc in
      let tendencia :=
        if Qc_ltb (of_Z 0) inclinacao then "crescente"%string
        else if Qc_ltb inclinacao (of_Z 0) then "decrescente"%string
        else "estavel"%string in
      mk_tendencia tendencia inclinacao (Some inclinacao)
    else estavel
  else estavel.

Definition tendencia_em (agora : naive) (pedidos : list Pedido.t) (dias : Z)
  : result tendencia_vendas :=
  bind (sub_days agora dias) (fun data_inicio =>
  match pedidos_periodo data_inicio pedidos with
  | [] => Ok estavel
  | periodo =>
      let vendas_por_dia := DataProcessor.agrupar_por_periodo periodo "dia" in
      if (List.length vendas_por_dia <? 2)%nat then Ok estavel
      else Ok (regressao (values vendas_por_dia))
  end).

Definition analise_tendencia_vendas (pedidos : list Pedido.t) (dias : Z)
  : IO (result tendencia_vendas) :=
  fun c =>
    let (agora, c) := now c in
    (tendencia_em agora pedidos dias, c).

Definition previsao_vendas_simples (pedidos : list Pedido.t) (dias_futuros : Z)
  : list Qc :=
  match pedidos with
  | [] => replicate (of_Z 0) dias_futuros
  | _ =>
      let vendas_por_dia := DataProcessor.agrupar_por_periodo pedidos "dia" in
      match vendas_por_dia with
      | [] => replicate (of_Z 0) dias_futuros
      | _ =>
          let valores := values vendas_por_dia in
          let media_movel :=
            if (7 <=? List.length valores)%nat then
              (sum (slice_last valores 7) / of_Z 7)%Qc
            else (sum valores / of_nat (List.length valores))%Qc in
          replicate media_movel dias_futuros
      end
  end.

Definition gerar_relatorio_completo (pedidos : list Pedido.t)
  : IO (result relatorio) :=
  io_bind (calcular_metricas_principais pedidos) (fun metricas =>
  let estatisticas_avancadas := calcular_estatisticas_avancadas pedidos in
  io_bind (analise_tendencia_vendas pedidos DataProcessor.dias_padrao)
    (fun tendencia =>
  let previsao :=
    previsao_vendas_simples pedidos DataProcessor.dias_futuros_padrao in
  fun c =>
    let (agora, c) := now c in
    (Ok (mk_relatorio metricas estatisticas_avancadas tendencia previsao
           (horarios_pico pedidos)
           (dias_semana_performance pedidos)
           (itens_mais_vendidos pedidos DataProcessor.limite_padrao)
           (vendas_por_periodo pedidos "dia")
           (vendas_por_periodo pedidos "semana")
           (vendas_por_periodo pedidos "mes")
           (isoformat agora)), c))).

End WithLib.
End SaboreAnalytics.

(** ** A reference instance of the library

    [fromisoformat] reads the strings that [datetime.isoformat()] emits,
    [YYYY-MM-DD[*HH[:MM[:SS[.fff[fff]]]][+HH:MM[:SS]]]], and checks the
    ranges of the fields as the constructor of [datetime] does.  These
    are strings that every version of CPython from 3.7 on reads, and
    reads alike; it rejects what only some versions read (a fraction of
    another length, the basic format without separators, a date followed
    by a separator and no time).  The square root is computed to six
    decimals.  The instance serves the examples; the theorems are stated
    for every instance of [Lib]. *)

Module Reference.
Import Py Datetime.

Definition digit (a : ascii) : option Z :=
  let n := Z.of_nat (nat_of_ascii a) in
  if (48 <=? n) && (n <=? 57) then Some (n - 48) else None.

(** [int(s)] for a string of decimal digits and nothing else. *)
Fixpoint digits (acc : Z) (s : string) : option Z :=
  match s with
  | EmptyString => Some acc
  | String a r =>
      match digit a with
      | Some d => digits (acc * 10 + d) r
      | None => None
      end
  end.

Definition int (s : string) : option Z :=
  match s with
  | EmptyString => None
  | _ => digits 0 s
  end.

Definition opt_bind {A B} (o : option A) (k : A -> option B) : option B :=
  match o with Some a => k a | None => None end.

(** [s[i:j]] and [s[i:]] for indices within the string or just beyond it. *)
Definition sub (i j : nat) (s : string) : string := substring i (j - i) s.
Definition from (i : nat) (s : string) : string :=
  substring i (String.length s - i) s.

Definition char_is (i : nat) (c : ascii) (s : string) : bool :=
  match String.get i s with Some a => Ascii.eqb a c | None => false end.

Definition parse_date (s : string) : option (Z * Z * Z) :=
  if negb (char_is 4 "-" s && char_is 7 "-" s) then None
  else
    opt_bind (int (sub 0 4 s)) (fun y =>
    opt_bind (int (sub 5 7 s)) (fun m =>
    opt_bind (int (sub 8 10 s)) (fun d =>
    if (String.length (sub 8 10 s) =? 2)%nat then Some (y, m, d) else None))).

(** [HH[:MM[:SS]]], each of two digits. *)
Definition parse_hh_mm_ss (s : string) : option (Z * Z * Z) :=
  match String.length s with
  | 2%nat => opt_bind (int s) (fun h => Some (h, 0, 0))
  | 5%nat =>
      if char_is 2 ":" s then
        opt_bind (int (sub 0 2 s)) (fun h =>
        opt_bind (int (sub 3 5 s)) (fun m => Some (h, m, 0)))
      else None
  | 8%nat =>
      if char_is 2 ":" s && char_is 5 ":" s then
        opt_bind (int (sub 0 2 s)) (fun h =>
        opt_bind (int (sub 3 5 s)) (fun m =>
        opt_bind (int (sub 6 8 s)) (fun sec => Some (h, m, sec))))
      else None
  | _ => None
  end.

(** The fraction after the seconds: three or six digits. *)
Definition parse_fraction (s : string) : option Z :=
  match String.length s with
  | 3%nat => opt_bind (int s) (fun f => Some (f * 1000))
  | 6%nat => int s
  | _ => None
  end.

Definition parse_hh_mm_ss_ff (s : string) : option (Z * Z * Z * Z) :=
  match index 0 "." s with
  | Some i =>
      if (i =? 8)%nat then
        opt_bind (parse_hh_mm_ss (sub 0 8 s)) (fun hms =>
        opt_bind (parse_fraction (from 9 s)) (fun us => Some (hms, us)))
      else None
  | None => opt_bind (parse_hh_mm_ss s) (fun hms => Some (hms, 0))
  end.

(** Position of the sign that starts the offset, if any. *)
Definition tz_pos (s : string) : option (nat * Z) :=
  match index 0 "-" s, index 0 "+" s with
  | Some i, _ => Some (i, -1)
  | None, Some i => Some (i, 1)
  | None, None => None
  end.

Definition parse_offset (sign : Z) (s : string) : option Z :=
  opt_bind (parse_hh_mm_ss s) (fun '(h, m, sec) =>
  if (String.length s =? 2)%nat then None
  else if (h <? 24) && (m <? 60) && (sec <? 60)
       then Some (sign * ((h * 60 + m) * 60 + sec))
       else None).

Definition parse_time (s : string)
  : option (Z * Z * Z * Z * option Z) :=
  match tz_pos s with
  | Some (i, sign) =>
      opt_bind (parse_hh_mm_ss_ff (sub 0 i s)) (fun t =>
      opt_bind (parse_offset sign (from (S i) s)) (fun off =>
      Some (t, Some off)))
  | None => opt_bind (parse_hh_mm_ss_ff s) (fun t => Some (t, None))
  end.

Definition valid_date (y m d : Z) : bool :=
  (1 <=? y) && (y <=? 9999) && (1 <=? m) && (m <=? 12)
  && (1 <=? d) && (d <=? days_in_month y m).

Definition valid_time (h m s : Z) : bool :=
  (h <? 24) && (m <? 60) && (s <? 60).

Definition fromisoformat (s : string) : option datetime :=
  opt_bind (parse_date (sub 0 10 s)) (fun '(y, m, d) =>
  if negb (valid_date y m d) then None
  else if (String.length s <=? 10)%nat then
    Some (mk_datetime (mk_naive y m d 0 0 0 0) None)
  else
    opt_bind (parse_time (from 11 s)) (fun '(h, mi, sec, us, off) =>
    if valid_time h mi sec
    then Some (mk_datetime (mk_naive y m d h mi sec us) off)
    else None)).

Definition sqrt (q : Qc) : Qc :=
  Q2Qc (Z.sqrt (Qfloor (q * of_Z 1000000000000)%Qc) # 1000000).

#[export] Instance lib : Lib := Build_Lib fromisoformat sqrt.

End Reference.

(** ** Vocabulary of the specification *)

Module Spec.
Import Py Datetime.

(** The mathematical sum of a list of amounts. *)
Definition total (xs : list Qc) : Qc := fold_right Qcplus (of_Z 0) xs.

(** The value of a line as [calcular_vendas_totais] computes it: the
    entry ['valor'] (0 when missing) times the entry ['quantidade'] (1
    when missing).  The entry ['preco_unitario'] is not read. *)
Definition linha (item : Item.t) : Qc :=
  (get (Item.valor item) (of_Z 0) * of_Z (get (Item.quantidade item) 1%Z))%Qc.

(** What an order adds to the total in [calcular_vendas_totais]. *)
Definition contribuicao (pedido : Pedido.t) : Qc :=
  match Pedido.itens pedido with
  | Some itens => total (map linha itens)
  | None => get (Pedido.valor_total pedido) (of_Z 0)
  end.

(** The [total_value] of an order. *)
Definition valor_total (pedido : Pedido.t) : Qc :=
  get (Pedido.valor_total pedido) (of_Z 0).

Section WithLib.
Context {lib : Lib}.

(** The timestamp of an order, when it is present and parseable. *)
Definition timestamp (pedido : Pedido.t) : option datetime :=
  if DataProcessor.falsy (Pedido.data_pedido pedido) then None
  else
    match DataProcessor.converter (Pedido.data_pedido pedido) with
    | Ok (Some d) => Some d
    | _ => None
    end.

Definition datado (pedido : Pedido.t) : bool :=
  match timestamp pedido with Some _ => true | None => false end.

End WithLib.

(** The windows of [calcular_crescimento_vendas] as the code fills them:
    an order is in the current window when its timestamp is naive and not
    before [periodo_atual], in the previous one when it is naive, not
    before [periodo_anterior] and before [periodo_atual]. *)
Definition naive_timestamp {lib : Lib} (pedido : Pedido.t) : option naive :=
  match timestamp pedido with
  | Some d =>
      match utcoffset d with None => Some (campos d) | Some _ => None end
  | None => None
  end.

Definition nao_antes (t bound : naive) : bool :=
  match cmp_naive t bound with Lt => false | _ => true end.

Definition na_janela_atual {lib : Lib} (periodo_atual : naive)
    (pedido : Pedido.t) : bool :=
  match naive_timestamp pedido with
  | Some t => nao_antes t periodo_atual
  | None => false
  end.

Definition na_janela_anterior {lib : Lib}
    (periodo_atual periodo_anterior : naive) (pedido : Pedido.t) : bool :=
  match naive_timestamp pedido with
  | Some t =>
      negb (nao_antes t periodo_atual) && nao_antes t periodo_anterior
  | None => false
  end.

(** The report as a function of the batch and of the three readings of
    the clock that [gerar_relatorio_completo] makes: one for the growth
    rate (none when the batch is empty), one for the trend and one for the
    time of generation. *)
Definition metricas_de {lib : Lib} (pedidos : list Pedido.t) (t : naive)
  : result SaboreAnalytics.metricas :=
  match pedidos with
  | [] => Ok (SaboreAnalytics.mk_metricas (of_Z 0) (of_Z 0) 0 (of_Z 0))
  | _ =>
      bind (DataProcessor.crescimento_em t pedidos DataProcessor.dias_padrao)
        (fun crescimento =>
           Ok (SaboreAnalytics.mk_metricas
                 (DataProcessor.calcular_vendas_totais pedidos)
                 (if 0 <? Z.of_nat (List.length pedidos)
                  then (DataProcessor.calcular_vendas_totais pedidos
                        / of_Z (Z.of_nat (List.length pedidos)))%Qc
                  else of_Z 0)
                 (Z.of_nat (List.length pedidos))
                 crescimento))
  end.

Definition relatorio_de {lib : Lib} (pedidos : list Pedido.t)
    (t1 t2 t3 : naive) : result SaboreAnalytics.relatorio :=
  bind (metricas_de pedidos t1) (fun metricas =>
  bind (SaboreAnalytics.tendencia_em t2 pedidos DataProcessor.dias_padrao)
    (fun tendencia =>
  Ok (SaboreAnalytics.mk_relatorio metricas
        (SaboreAnalytics.calcular_estatisticas_avancadas pedidos)
        tendencia
        (SaboreAnalytics.previsao_vendas_simples pedidos
           DataProcessor.dias_futuros_padrao)
        (DataProcessor.horarios_pico pedidos)
        (DataProcessor.dias_semana_performance pedidos)
        (DataProcessor.itens_mais_populares pedidos
           DataProcessor.limite_padrao)
        (DataProcessor.agrupar_por_periodo pedidos "dia")
        (DataProcessor.agrupar_por_periodo pedidos "semana")
        (DataProcessor.agrupar_por_periodo pedidos "mes")
        (isoformat t3)))).

(** The number of readings made before the trend is computed. *)
Definition leituras_antes (pedidos : list Pedido.t) : nat :=
  match pedidos with [] => 0 | _ => 1 end.

(** The names of the line items in the order in which the scan of the
    batch meets them. *)
Definition nome_do_item (item : Item.t) : string :=
  get (Item.nome item) "Item sem nome"%string.

Definition nomes (pedidos : list Pedido.t) : list string :=
  flat_map
    (fun pedido =>
       match Pedido.itens pedido with
       | Some itens => map nome_do_item itens
       | None => []
       end)
    pedidos.

(** Position of the first occurrence of a name ([length l] when absent). *)
Fixpoint indice (nome : string) (l : list string) : nat :=
  match l with
  | [] => O
  | x :: r => if String.eqb nome x then O else S (indice nome r)
  end.

(** [a] stands somewhere in front of [b] in [l]. *)
Definition antes {A} (a b : A) (l : list A) : Prop :=
  exists l1 l2 l3, l = l1 ++ a :: l2 ++ b :: l3.

(** All line items of the batch, in the order of the scan. *)
Definition todos_os_itens (pedidos : list Pedido.t) : list Item.t :=
  flat_map (fun p => get (Pedido.itens p) []) pedidos.

(** What the scan maintains: every entry carries its key as name, the
    keys are the names met so far, without repetition, and they stand in
    the order of their first occurrence. *)
Definition scan_inv (vistos : list string)
    (c : dict (K := string) (V := Entrada.t)) : Prop :=
  map Entrada.nome (values c) = keys c
  /\ (forall k, In k (keys c) <-> In k vistos)
  /\ (forall a b, antes a b (keys c) ->
        (indice a vistos < indice b vistos)%nat).

(** The orders with a usable timestamp whose key, computed by [chave]
    from the timestamp, is [k]. *)
Definition com_chave {lib : Lib} {K : Type} (eqb : K -> K -> bool)
    (chave : datetime -> K) (k : K) (pedidos : list Pedido.t)
  : list Pedido.t :=
  filter
    (fun p =>
       match timestamp p with
       | Some d => eqb (chave d) k
       | None => false
       end)
    pedidos.

(** The sum of a list of integers. *)
Definition soma (xs : list Z) : Z := fold_right Z.add 0 xs.

(** The price of a line as [itens_mais_populares] reads it:
    ['preco_unitario'], else ['valor'], else 0. *)
Definition preco (item : Item.t) : Qc :=
  get (Item.preco_unitario item) (get (Item.valor item) (of_Z 0)).

Definition quantidade (item : Item.t) : Z := get (Item.quantidade item) 1.

(** The line items of the batch that carry the name [nome]. *)
Definition itens_de (nome : string) (pedidos : list Pedido.t) : list Item.t :=
  filter (fun i => String.eqb (nome_do_item i) nome) (todos_os_itens pedidos).

Definition quantidade_de (nome : string) (pedidos : list Pedido.t) : Z :=
  soma (map quantidade (itens_de nome pedidos)).

Definition valor_de (nome : string) (pedidos : list Pedido.t) : Qc :=
  total (map (fun i => (preco i * of_Z (quantidade i))%Qc)
           (itens_de nome pedidos)).

(** The clock after [n] more readings. *)
Definition depois_de (n : nat) (c : clock) : clock :=
  mk_clock (readings c) (n + reads c).

(** The label of a trend says the sign of its daily growth. *)
Definition coerente (t : SaboreAnalytics.tendencia_vendas) : Prop :=
  (SaboreAnalytics.tendencia t = "crescente"%string
   /\ (of_Z 0 < SaboreAnalytics.crescimento_diario t)%Qc
   /\ SaboreAnalytics.inclinacao t
      = Some (SaboreAnalytics.crescimento_diario t))
  \/ (SaboreAnalytics.tendencia t = "decrescente"%string
      /\ (SaboreAnalytics.crescimento_diario t < of_Z 0)%Qc
      /\ SaboreAnalytics.inclinacao t
         = Some (SaboreAnalytics.crescimento_diario t))
  \/ (SaboreAnalytics.tendencia t = "estavel"%string
      /\ SaboreAnalytics.crescimento_diario t = of_Z 0).

(** The value of a line as the specification words it, [unit_price] times
    [quantity]: the unit price is the entry ['preco_unitario'] of the
    line and, when that entry is missing, its entry ['valor'], as
    [itens_mais_populares] reads it; the quantity is 1 when missing. *)
Definition linha_especificada (item : Item.t) : Qc :=
  (preco item * of_Z (quantidade item))%Qc.

(** What an order contributes to the total of sales as the specification
    words it. *)
Definition contribuicao_especificada (pedido : Pedido.t) : Qc :=
  match Pedido.itens pedido with
  | Some itens => total (map linha_especificada itens)
  | None => valor_total pedido
  end.

(** The total of sales as the specification words it. *)
Definition vendas_especificadas (pedidos : list Pedido.t) : Qc :=
  total (map contribuicao_especificada pedidos).

(** The batch has no line that carries the entry ['preco_unitario']. *)
Definition sem_preco_unitario (pedidos : list Pedido.t) : Prop :=
  forall p itens i,
    In p pedidos -> Pedido.itens p = Some itens -> In i itens ->
    Item.preco_unitario i = None.

(** The orders with a usable timestamp whose day is one of [dias]. *)
Definition dos_dias {lib : Lib} (dias : list string)
    (pedidos : list Pedido.t) : list Pedido.t :=
  filter
    (fun p =>
       match timestamp p with
       | Some d =>
           existsb (String.eqb (DataProcessor.chave_periodo "dia" d)) dias
       | None => false
       end)
    pedidos.

(** The days of the last seven day buckets of the batch, or of all of
    them when there are fewer than seven. *)
Definition ultimos_dias {lib : Lib} (pedidos : list Pedido.t) : list string :=
  keys (slice_last (DataProcessor.agrupar_por_periodo pedidos "dia") 7).

End Spec.

(** ** Sample batches *)

Module Samples.
Import Py Datetime.

Definition sem_itens (data : string) (valor : Z) : Pedido.t :=
  Pedido.mk None (Texto data) (Some (of_Z valor)) None.

(** Three orders on two days, without line items. *)
Definition tres_pedidos : list Pedido.t :=
  [ sem_itens "2024-03-01T12:00:00" 100;
    sem_itens "2024-03-01T19:30:00" 200;
    sem_itens "2024-03-02T13:15:00" 50 ].

(** One order on each of ten consecutive days; day [i] sells [10 * i]. *)
Definition dez_dias : list Pedido.t :=
  [ sem_itens "2024-03-01T12:00:00" 10;
    sem_itens "2024-03-02T12:00:00" 20;
    sem_itens "2024-03-03T12:00:00" 30;
    sem_itens "2024-03-04T12:00:00" 40;
    sem_itens "2024-03-05T12:00:00" 50;
    sem_itens "2024-03-06T12:00:00" 60;
    sem_itens "2024-03-07T12:00:00" 70;
    sem_itens "2024-03-08T12:00:00" 80;
    sem_itens "2024-03-09T12:00:00" 90;
    sem_itens "2024-03-10T12:00:00" 100 ].

(** The last Monday of 2024 belongs to the first ISO week of 2025. *)
Definition virada : naive := mk_naive 2024 12 30 10 0 0 0.

Definition semanas : list Pedido.t :=
  [ sem_itens "2024-01-03T10:00:00" 20;
    sem_itens "2024-12-30T10:00:00" 80 ].

(** A clock reading, and an order placed less than five days before it,
    written with and without the UTC suffix. *)
Definition agora : naive := mk_naive 2024 6 15 0 0 0 0.

(** A clock that shows [agora] at every reading, and one that shows
    [agora] three times and a day five weeks later from then on. *)
Definition relogio_parado : clock := mk_clock (fun _ => agora) 0.

Definition mais_tarde : naive := mk_naive 2024 7 20 0 0 0 0.

Definition relogio_que_avanca : clock :=
  mk_clock (fun n => if (n <? 3)%nat then agora else mais_tarde) 0.

Definition pedido_utc : Pedido.t := sem_itens "2024-06-10T12:00:00Z" 100.
Definition pedido_local : Pedido.t := sem_itens "2024-06-10T12:00:00" 100.

Definition linha (nome : string) (valor quantidade : Z) : Item.t :=
  Item.mk (Some nome) (Some quantidade) None (Some (of_Z valor)) None.

(** Two orders with line items: 3 pizzas, 2 juices and 2 cakes in all;
    the juice is met before the cake. *)
Definition com_itens : list Pedido.t :=
  [ Pedido.mk (Some 1) (Texto "2024-03-01T12:00:00") (Some (of_Z 70))
      (Some [linha "Pizza" 30 2; linha "Suco" 10 1]);
    Pedido.mk (Some 2) (Texto "2024-03-02T20:00:00") (Some (of_Z 80))
      (Some [linha "Bolo" 20 2; linha "Suco" 10 1; linha "Pizza" 30 1]) ].

(** A clock that shows a day of the first January of year 1. *)
Definition relogio_ano_um : clock :=
  mk_clock (fun _ => mk_naive 1 1 15 8 0 0 0) 0.

(** One order of two pizzas whose line gives the price under
    ['preco_unitario'] and has no entry ['valor']. *)
Definition pedido_preco_unitario : Pedido.t :=
  Pedido.mk (Some 1) Ausente None
    (Some [Item.mk (Some "Pizza"%string) (Some 2) (Some (of_Z 50)) None None]).

End Samples.

(** * Properties *)

Import Py Datetime.

(** Equality of evaluated results: rationals are compared by their
    canonical fractions. *)
Ltac qc_eq :=
  vm_compute;
  repeat first [ reflexivity | apply Qc_is_canon; reflexivity | f_equal ].

(** ** Sums *)

Lemma of_Z_0 : of_Z 0 = 0%Qc.
Proof. reflexivity. Qed.

Lemma fold_left_Qcplus (xs : list Qc) (acc : Qc) :
  fold_left Qcplus xs acc = (acc + Spec.total xs)%Qc.
Proof.
  revert acc; induction xs as [|x xs IH]; intro acc; simpl.
  - rewrite of_Z_0; ring.
  - rewrite IH; ring.
Qed.

Lemma sum_total (xs : list Qc) : sum xs = Spec.total xs.
Proof. unfold sum; rewrite fold_left_Qcplus; ring. Qed.

Lemma total_app (xs ys : list Qc) :
  Spec.total (xs ++ ys) = (Spec.total xs + Spec.total ys)%Qc.
Proof.
  induction xs as [|x xs IH]; simpl.
  - rewrite of_Z_0; ring.
  - rewrite IH; ring.
Qed.

Lemma total_Permutation (xs ys : list Qc) :
  Permutation xs ys -> Spec.total xs = Spec.total ys.
Proof.
  induction 1; simpl; try congruence; ring.
Qed.

(** ** [calcular_vendas_totais] *)

Section Totals.
Context {lib : Lib}.

Lemma fold_itens (itens : list Item.t) (acc : Qc) :
  fold_left
    (fun total item =>
       (total + get (Item.valor item) (of_Z 0)
                * of_Z (get (Item.quantidade item) 1%Z))%Qc)
    itens acc
  = (acc + Spec.total (map Spec.linha itens))%Qc.
Proof.
  revert acc; induction itens as [|i itens IH]; intro acc; simpl.
  - rewrite of_Z_0; ring.
  - rewrite IH; unfold Spec.linha; ring.
Qed.

Lemma vendas_totais_total (pedidos : list Pedido.t) :
  DataProcessor.calcular_vendas_totais pedidos
  = Spec.total (map Spec.contribuicao pedidos).
Proof.
  unfold DataProcessor.calcular_vendas_totais.
  assert (G : forall acc,
    fold_left
      (fun total pedido =>
         match Pedido.itens pedido with
         | Some itens =>
             fold_left
               (fun total item =>
                  (total + get (Item.valor item) (of_Z 0)
                           * of_Z (get (Item.quantidade item) 1%Z))%Qc)
               itens total
         | None => (total + get (Pedido.valor_total pedido) (of_Z 0))%Qc
         end) pedidos acc
    = (acc + Spec.total (map Spec.contribuicao pedidos))%Qc).
  { induction pedidos as [|p pedidos IH]; intro acc; simpl.
    - rewrite of_Z_0; ring.
    - rewrite IH. unfold Spec.contribuicao.
      destruct (Pedido.itens p) as [itens|].
      + rewrite fold_itens; ring.
      + ring. }
  rewrite G, of_Z_0; ring.
Qed.

Lemma vendas_totais_app (xs ys : list Pedido.t) :
  DataProcessor.calcular_vendas_totais (xs ++ ys)
  = (DataProcessor.calcular_vendas_totais xs
     + DataProcessor.calcular_vendas_totais ys)%Qc.
Proof. rewrite !vendas_totais_total, map_app, total_app; reflexivity. Qed.

Lemma vendas_totais_insert (antes depois : list Pedido.t) (p : Pedido.t) :
  DataProcessor.calcular_vendas_totais (antes ++ p :: depois)
  = (DataProcessor.calcular_vendas_totais (antes ++ depois)
     + Spec.contribuicao p)%Qc.
Proof.
  rewrite !vendas_totais_total, !map_app, !total_app; simpl; ring.
Qed.

End Totals.

Lemma vendas_totais_sem_preco_unitario (pedidos : list Pedido.t) :
  Spec.sem_preco_unitario pedidos ->
  DataProcessor.calcular_vendas_totais pedidos
  = Spec.vendas_especificadas pedidos.
Proof.
  intro H. rewrite vendas_totais_total. unfold Spec.vendas_especificadas.
  f_equal. apply map_ext_in. intros p Hp.
  unfold Spec.contribuicao, Spec.contribuicao_especificada.
  destruct (Pedido.itens p) as [itens|] eqn:E; [|reflexivity].
  f_equal. apply map_ext_in. intros i Hi.
  unfold Spec.linha, Spec.linha_especificada, Spec.preco, Spec.quantidade.
  rewrite (H p itens i Hp E Hi). reflexivity.
Qed.

(** C1.  [calcular_vendas_totais] takes the price of a line from its
    entry ['valor'] alone: it returns the sum over the batch of
    ['valor'] times ['quantidade'] over the line items of an order that
    has the key ['itens'], and of [valor_total] for an order without it.
    This is the total of the specification, unit price times quantity, on
    every batch in which no line carries the entry ['preco_unitario'] (so
    an empty batch gives 0 and the three orders worth 100, 200 and 50
    give 350), but not in general: an order of two pizzas with
    ['preco_unitario'] 50 counts as 0 in the total of sales, not as 100,
    while [itens_mais_populares] reads ['preco_unitario'] first and ranks
    the same line with a value of 100. *)
Theorem C1_vendas_totais_ignora_preco_unitario :
  (forall pedidos : list Pedido.t,
     DataProcessor.calcular_vendas_totais pedidos
     = Spec.total (map Spec.contribuicao pedidos))
  /\ (forall pedidos : list Pedido.t,
        Spec.sem_preco_unitario pedidos ->
        DataProcessor.calcular_vendas_totais pedidos
        = Spec.vendas_especificadas pedidos)
  /\ DataProcessor.calcular_vendas_totais [] = of_Z 0
  /\ DataProcessor.calcular_vendas_totais Samples.tres_pedidos = of_Z 350
  /\ Spec.vendas_especificadas Samples.tres_pedidos = of_Z 350
  /\ DataProcessor.calcular_vendas_totais [Samples.pedido_preco_unitario]
     = of_Z 0
  /\ Spec.vendas_especificadas [Samples.pedido_preco_unitario] = of_Z 100
  /\ DataProcessor.calcular_vendas_totais [Samples.pedido_preco_unitario]
     <> Spec.vendas_especificadas [Samples.pedido_preco_unitario]
  /\ DataProcessor.itens_mais_populares [Samples.pedido_preco_unitario]
       DataProcessor.limite_padrao
     = [Entrada.mk 2 (of_Z 100) "Pizza"].
Proof.
  split; [exact vendas_totais_total|].
  split; [exact vendas_totais_sem_preco_unitario|].
  split; [reflexivity|].
  split; [qc_eq|]. split; [qc_eq|]. split; [qc_eq|]. split; [qc_eq|].
  split; [vm_compute; discriminate|]. qc_eq.
Qed.

(** C10.  An order that has the key ['itens'] with an empty list
    contributes 0, whatever its [valor_total]: the presence of the key
    selects the summation over the line items. *)
Theorem C10_itens_vazio :
  forall (antes depois : list Pedido.t) id data v,
    let pedido := Pedido.mk id data v (Some []) in
    DataProcessor.calcular_vendas_totais (antes ++ pedido :: depois)
    = DataProcessor.calcular_vendas_totais (antes ++ depois)
    /\ DataProcessor.calcular_vendas_totais [pedido] = of_Z 0
    /\ DataProcessor.calcular_vendas_totais [Pedido.mk id data v None]
       = get v (of_Z 0).
Proof.
  intros antes depois id data v pedido.
  split; [|split].
  - rewrite vendas_totais_insert. unfold pedido, Spec.contribuicao; simpl.
    rewrite of_Z_0; ring.
  - reflexivity.
  - rewrite vendas_totais_total; simpl. unfold Spec.contribuicao; simpl.
    rewrite of_Z_0; ring.
Qed.

(** ** Records that the time-keyed loops skip *)

Section Skipping.
Context {lib : Lib}.

Lemma for_each_dated_app {S : Type} (body : S -> Pedido.t -> result S)
    (xs ys : list Pedido.t) (s0 : S) :
  DataProcessor.for_each_dated body (xs ++ ys) s0
  = DataProcessor.for_each_dated body ys
      (DataProcessor.for_each_dated body xs s0).
Proof. unfold DataProcessor.for_each_dated; apply fold_left_app. Qed.

(** A record whose [try] block raises leaves the accumulator as it is. *)
Lemma for_each_dated_skip {S : Type} (body : S -> Pedido.t -> result S)
    (antes depois : list Pedido.t) (p : Pedido.t) (s0 : S) :
  (forall s, exists e, body s p = Raise e) ->
  DataProcessor.for_each_dated body (antes ++ p :: depois) s0
  = DataProcessor.for_each_dated body (antes ++ depois) s0.
Proof.
  intro H. rewrite !for_each_dated_app.
  change (p :: depois) with ([p] ++ depois).
  rewrite for_each_dated_app. f_equal.
  destruct (H (DataProcessor.for_each_dated body antes s0)) as [e He].
  unfold DataProcessor.for_each_dated at 1; simpl.
  destruct (DataProcessor.falsy (Pedido.data_pedido p)); [reflexivity|].
  rewrite He. reflexivity.
Qed.

Lemma converter_unparseable (s : string) :
  fromisoformat (replace_char "Z" "+00:00" s) = None ->
  DataProcessor.converter (Texto s) = Raise ValueError.
Proof. intro H; simpl; rewrite H; reflexivity. Qed.

End Skipping.

(** C8.  A record whose timestamp is a string that [fromisoformat]
    rejects still adds its value to [calcular_vendas_totais], and leaves
    [horarios_pico] and [dias_semana_performance] exactly as they are
    without it: it adds no key and changes no count or value.  The three
    operations are total functions of the batch: the [ValueError] of the
    parser ends the [try] block of that record and the loop goes on. *)
Theorem C8_unparseable_timestamp :
  forall {lib : Lib} (antes depois : list Pedido.t) (p : Pedido.t) (s : string),
    Pedido.data_pedido p = Texto s ->
    fromisoformat (replace_char "Z" "+00:00" s) = None ->
    DataProcessor.converter (Pedido.data_pedido p) = Raise ValueError
    /\ DataProcessor.calcular_vendas_totais (antes ++ p :: depois)
       = (DataProcessor.calcular_vendas_totais (antes ++ depois)
          + Spec.contribuicao p)%Qc
    /\ DataProcessor.horarios_pico (antes ++ p :: depois)
       = DataProcessor.horarios_pico (antes ++ depois)
    /\ DataProcessor.dias_semana_performance (antes ++ p :: depois)
       = DataProcessor.dias_semana_performance (antes ++ depois).
Proof.
  intros lib antes depois p s Hs Hp.
  pose proof (converter_unparseable s Hp) as Hc. rewrite <- Hs in Hc.
  split; [exact Hc|].
  split; [apply vendas_totais_insert|].
  split.
  - unfold DataProcessor.horarios_pico. f_equal.
    apply for_each_dated_skip. intro acc. exists ValueError.
    rewrite Hc. reflexivity.
  - unfold DataProcessor.dias_semana_performance.
    apply for_each_dated_skip. intro acc. exists ValueError.
    rewrite Hc. reflexivity.
Qed.

Lemma C8_unparseable_timestamp_witness :
  let p := Samples.sem_itens "ontem" 40 in
  DataProcessor.converter (lib := Reference.lib) (Pedido.data_pedido p)
  = Raise ValueError
  /\ DataProcessor.calcular_vendas_totais (Samples.tres_pedidos ++ p :: [])
     = (DataProcessor.calcular_vendas_totais (Samples.tres_pedidos ++ [])
        + Spec.contribuicao p)%Qc
  /\ DataProcessor.horarios_pico (lib := Reference.lib)
       (Samples.tres_pedidos ++ p :: [])
     = DataProcessor.horarios_pico (lib := Reference.lib)
         (Samples.tres_pedidos ++ [])
  /\ DataProcessor.dias_semana_performance (lib := Reference.lib)
       (Samples.tres_pedidos ++ p :: [])
     = DataProcessor.dias_semana_performance (lib := Reference.lib)
         (Samples.tres_pedidos ++ []).
Proof.
  intro p.
  apply (C8_unparseable_timestamp (lib := Reference.lib)
           Samples.tres_pedidos [] p "ontem"); reflexivity.
Defined.

(** ** The stable sort *)

Section SortedFacts.
Context {A : Type} (lt : A -> A -> bool).

Lemma insert_Permutation (x : A) (l : list A) :
  Permutation (insert lt x l) (x :: l).
Proof.
  induction l as [|y l IH]; simpl.
  - constructor; constructor.
  - destruct (lt y x).
    + transitivity (y :: x :: l); [constructor; exact IH | constructor].
    + reflexivity.
Qed.

Lemma sorted_Permutation (l : list A) : Permutation (sorted lt l) l.
Proof.
  induction l as [|x l IH]; simpl.
  - constructor.
  - transitivity (x :: sorted lt l).
    + apply insert_Permutation.
    + constructor; exact IH.
Qed.

Lemma sorted_length (l : list A) : List.length (sorted lt l) = List.length l.
Proof. apply Permutation_length, sorted_Permutation. Qed.

Hypothesis lt_asym : forall a b, lt a b = true -> lt b a = false.

Lemma insert_Sorted (x : A) (l : list A) :
  Sorted (ordered lt) l -> Sorted (ordered lt) (insert lt x l).
Proof.
  induction l as [|y l IH]; intro H; simpl.
  - repeat constructor.
  - destruct (lt y x) eqn:E.
    + inversion H as [|? ? Hs Hh]; subst.
      constructor; [apply IH; exact Hs|].
      destruct l as [|z l]; simpl.
      * constructor. unfold ordered. apply lt_asym; exact E.
      * destruct (lt z x).
        -- inversion Hh; subst. constructor; assumption.
        -- constructor. unfold ordered. apply lt_asym; exact E.
    + constructor; [exact H|]. constructor. exact E.
Qed.

Lemma sorted_Sorted (l : list A) : Sorted (ordered lt) (sorted lt l).
Proof.
  induction l as [|x l IH]; simpl.
  - constructor.
  - apply insert_Sorted; exact IH.
Qed.

(** Stability.  An element that the sort puts in front of another one
    was in front of it already, unless it is smaller. *)
Lemma antes_cons (a b x : A) (l : list A) :
  Spec.antes a b l -> Spec.antes a b (x :: l).
Proof.
  intros (l1 & l2 & l3 & ->). exists (x :: l1), l2, l3. reflexivity.
Qed.

Lemma antes_head (a b : A) (l : list A) :
  In b l -> Spec.antes a b (a :: l).
Proof.
  intro H. apply in_split in H. destruct H as (l2 & l3 & ->).
  exists [], l2, l3. reflexivity.
Qed.

Lemma antes_inv (a b x : A) (l : list A) :
  Spec.antes a b (x :: l) -> (a = x /\ In b l) \/ Spec.antes a b l.
Proof.
  intros (l1 & l2 & l3 & H).
  destruct l1 as [|y l1]; simpl in H; injection H as -> ->.
  - left. split; [reflexivity|]. apply in_or_app. right. left. reflexivity.
  - right. exists l1, l2, l3. reflexivity.
Qed.

Lemma antes_In (a b : A) (l : list A) :
  Spec.antes a b l -> In a l /\ In b l.
Proof.
  intros (l1 & l2 & l3 & ->). split.
  - apply in_or_app. right. left. reflexivity.
  - apply in_or_app. right. right. apply in_or_app. right. left. reflexivity.
Qed.

Lemma antes_insert (a b x : A) (l : list A) :
  Spec.antes a b (insert lt x l) ->
  Spec.antes a b l \/ (a = x /\ In b l) \/ (b = x /\ lt a x = true).
Proof.
  induction l as [|y l IH]; simpl; intro H.
  - apply antes_inv in H. destruct H as [[_ []]|H].
    destruct H as (l1 & l2 & l3 & H). destruct l1; discriminate.
  - destruct (lt y x) eqn:E.
    + apply antes_inv in H. destruct H as [[-> Hb]|H].
      * assert (Hp : In b (x :: l)).
        { eapply Permutation_in; [apply insert_Permutation | exact Hb]. }
        destruct Hp as [<-|Hp].
        -- right. right. split; [reflexivity | exact E].
        -- left. apply antes_head; exact Hp.
      * destruct (IH H) as [H1|[[-> H1]|H1]].
        -- left. apply antes_cons; exact H1.
        -- right. left. split; [reflexivity|]. right. exact H1.
        -- right. right. exact H1.
    + apply antes_inv in H. destruct H as [[-> Hb]|H].
      * right. left. split; [reflexivity | exact Hb].
      * left. exact H.
Qed.

Lemma sorted_stable (a b : A) (l : list A) :
  Spec.antes a b (sorted lt l) -> lt a b = false -> Spec.antes a b l.
Proof.
  induction l as [|x l IH]; simpl; intros H Hab.
  - destruct H as (l1 & l2 & l3 & H). destruct l1; discriminate.
  - apply antes_insert in H. destruct H as [H|[[-> H]|[-> H]]].
    + apply antes_cons, IH; assumption.
    + apply antes_head.
      eapply Permutation_in; [apply sorted_Permutation | exact H].
    + congruence.
Qed.

End SortedFacts.

(** ** The order of strings *)

Lemma string_compare_refl (s : string) : String.compare s s = Eq.
Proof.
  pose proof (String.compare_antisym s s) as H.
  destruct (String.compare s s); simpl in H; congruence.
Qed.

Lemma string_ltb_irrefl (s : string) : String.ltb s s = false.
Proof. unfold String.ltb; rewrite string_compare_refl; reflexivity. Qed.

Lemma string_ltb_asym (a b : string) :
  String.ltb a b = true -> String.ltb b a = false.
Proof.
  unfold String.ltb. rewrite (String.compare_antisym a b).
  destruct (String.compare b a); simpl; congruence.
Qed.

Lemma string_ltb_total (a b : string) :
  String.ltb b a = false -> a <> b -> String.ltb a b = true.
Proof.
  unfold String.ltb. intros H Hne. revert H.
  rewrite (String.compare_antisym a b).
  destruct (String.compare b a) eqn:E; simpl; try congruence.
  apply String.compare_eq_iff in E. congruence.
Qed.

Lemma ascii_compare_trans (a b c : ascii) :
  Ascii.compare a b = Lt -> Ascii.compare b c = Lt -> Ascii.compare a c = Lt.
Proof.
  unfold Ascii.compare. rewrite !N.compare_lt_iff. apply N.lt_trans.
Qed.

Lemma string_compare_trans (a b c : string) :
  String.compare a b = Lt -> String.compare b c = Lt -> String.compare a c = Lt.
Proof.
  revert b c; induction a as [|x a IH]; intros [|y b] [|z c]; simpl;
    try congruence.
  destruct (Ascii.compare x y) eqn:Exy; try discriminate;
    destruct (Ascii.compare y z) eqn:Eyz; try discriminate.
  - apply Ascii.compare_eq_iff in Exy, Eyz; subst.
    unfold Ascii.compare. rewrite N.compare_refl. apply IH.
  - apply Ascii.compare_eq_iff in Exy; subst. rewrite Eyz; reflexivity.
  - apply Ascii.compare_eq_iff in Eyz; subst. rewrite Exy; reflexivity.
  - rewrite (ascii_compare_trans x y z Exy Eyz); reflexivity.
Qed.

Lemma string_ltb_trans (a b c : string) :
  String.ltb a b = true -> String.ltb b c = true -> String.ltb a c = true.
Proof.
  unfold String.ltb. intros H1 H2.
  destruct (String.compare a b) eqn:E1; try discriminate.
  destruct (String.compare b c) eqn:E2; try discriminate.
  rewrite (string_compare_trans a b c E1 E2); reflexivity.
Qed.

Lemma Qc_ltb_asym (x y : Qc) : Qc_ltb x y = true -> Qc_ltb y x = false.
Proof.
  unfold Qc_ltb. intro H.
  destruct (x ?= y)%Qc eqn:E; try discriminate.
  apply Qclt_alt in E.
  destruct (y ?= x)%Qc eqn:E'; try reflexivity.
  apply Qclt_alt in E'. exfalso. eapply Qclt_not_le; [exact E|].
  apply Qclt_le_weak; exact E'.
Qed.

Lemma lt_item_str_asym (a b : string * Qc) :
  DataProcessor.lt_item_str a b = true -> DataProcessor.lt_item_str b a = false.
Proof.
  unfold DataProcessor.lt_item_str. destruct a as [ka va], b as [kb vb]; simpl.
  intro H. apply orb_true_iff in H. destruct H as [H|H].
  - rewrite (string_ltb_asym _ _ H). simpl.
    destruct (String.eqb_spec kb ka) as [->|]; [|reflexivity].
    rewrite string_ltb_irrefl in H; discriminate.
  - apply andb_true_iff in H. destruct H as [Hk Hv].
    apply String.eqb_eq in Hk; subst.
    rewrite string_ltb_irrefl, String.eqb_refl. simpl.
    apply Qc_ltb_asym; exact Hv.
Qed.

(** ** Dictionaries *)

Section DictFacts.
Context {K V : Type} (eqb : K -> K -> bool).
Hypothesis eqb_eq : forall a b, eqb a b = true <-> a = b.

Lemma dict_in_In (k : K) (d : dict) :
  dict_in eqb k d = true <-> In k (keys (V := V) d).
Proof.
  induction d as [|[k' v] d IH]; simpl.
  - split; [discriminate | tauto].
  - destruct (eqb k k') eqn:E.
    + apply eqb_eq in E. subst. tauto.
    + rewrite IH. split; [tauto|]. intros [->|H]; [|exact H].
      rewrite (proj2 (eqb_eq k k) eq_refl) in E. discriminate.
Qed.

Lemma keys_dict_adjust (k : K) (f : V -> V) (d : dict) :
  keys (dict_adjust eqb k f d) = keys d.
Proof.
  induction d as [|[k' v] d IH]; simpl; [reflexivity|].
  destruct (eqb k k'); simpl; [reflexivity|]. rewrite IH; reflexivity.
Qed.

Lemma keys_dict_set_new (k : K) (v : V) (d : dict) :
  dict_in eqb k d = false -> dict_set eqb k v d = d ++ [(k, v)].
Proof.
  induction d as [|[k' v'] d IH]; simpl; [reflexivity|].
  destruct (eqb k k'); [discriminate|]. intro H. rewrite IH; auto.
Qed.

Lemma keys_dict_accum (k : K) (z : V) (f : V -> V) (d : dict) :
  keys (dict_accum eqb k z f d)
  = if dict_in eqb k d then keys d else keys d ++ [k].
Proof.
  unfold dict_accum. rewrite keys_dict_adjust.
  destruct (dict_in eqb k d) eqn:E; [reflexivity|].
  rewrite keys_dict_set_new by exact E.
  unfold keys. rewrite map_app. reflexivity.
Qed.

Lemma NoDup_snoc (k : K) (l : list K) :
  NoDup l -> ~ In k l -> NoDup (l ++ [k]).
Proof.
  intros Hn Hk. apply NoDup_rev in Hn.
  rewrite <- (rev_involutive (l ++ [k])). apply NoDup_rev.
  rewrite rev_app_distr. simpl. constructor; [|exact Hn].
  rewrite <- in_rev. exact Hk.
Qed.

Lemma NoDup_dict_accum (k : K) (z : V) (f : V -> V) (d : dict) :
  NoDup (keys d) -> NoDup (keys (dict_accum eqb k z f d)).
Proof.
  intro H. rewrite keys_dict_accum.
  destruct (dict_in eqb k d) eqn:E; [exact H|].
  apply NoDup_snoc; [exact H|].
  intro Hin. apply dict_in_In in Hin. congruence.
Qed.

End DictFacts.

Section DictTotals.
Context {K : Type} (eqb : K -> K -> bool).

Lemma total_dict_adjust (k : K) (x : Qc) (d : dict) :
  dict_in eqb k d = true ->
  Spec.total (values (dict_adjust eqb k (fun v => (v + x)%Qc) d))
  = (Spec.total (values d) + x)%Qc.
Proof.
  induction d as [|[k' v] d IH]; simpl; [discriminate|].
  destruct (eqb k k'); simpl; intro H.
  - ring.
  - rewrite IH by exact H. ring.
Qed.

Lemma dict_in_set (k : K) (v : Qc) (d : dict) :
  dict_in eqb k d = false ->
  (forall a, eqb a a = true) ->
  dict_in eqb k (dict_set eqb k v d) = true.
Proof.
  intros H Hr. induction d as [|[k' v'] d IH]; simpl in *.
  - rewrite Hr; reflexivity.
  - destruct (eqb k k') eqn:E; [discriminate|]. simpl. rewrite E. auto.
Qed.

Lemma total_dict_accum (k : K) (x : Qc) (d : dict) :
  (forall a, eqb a a = true) ->
  Spec.total (values (dict_accum eqb k (of_Z 0) (fun v => (v + x)%Qc) d))
  = (Spec.total (values d) + x)%Qc.
Proof.
  intro Hr. unfold dict_accum.
  destruct (dict_in eqb k d) eqn:E.
  - apply total_dict_adjust; exact E.
  - rewrite total_dict_adjust by (apply dict_in_set; assumption).
    rewrite keys_dict_set_new by exact E.
    unfold values. rewrite map_app, total_app. simpl.
    rewrite of_Z_0. ring.
Qed.

End DictTotals.

(** ** Grouping by a key derived from the timestamp *)

Section Grouping.
Context {lib : Lib}.

Lemma datado_converter (p : Pedido.t) (d : datetime) :
  DataProcessor.falsy (Pedido.data_pedido p) = false ->
  DataProcessor.converter (Pedido.data_pedido p) = Ok (Some d) ->
  Spec.datado p = true.
Proof.
  intros Hf Hc. unfold Spec.datado, Spec.timestamp. rewrite Hf, Hc. reflexivity.
Qed.

(** The loop shared by the aggregations that add [valor_total] under a
    key computed from the timestamp: the keys stay distinct, and the
    values add up to the [valor_total] of the orders with a timestamp. *)
Lemma por_chave_inv (chave : datetime -> string) (pedidos : list Pedido.t)
    (acc0 : dict (K := string) (V := Qc)) :
  let acc :=
    DataProcessor.for_each_dated
      (fun vendas pedido =>
         bind (DataProcessor.converter (Pedido.data_pedido pedido)) (fun o =>
         bind (DataProcessor.attr o) (fun data =>
         Ok (dict_accum String.eqb (chave data) (of_Z 0)
               (fun v => (v + get (Pedido.valor_total pedido) (of_Z 0))%Qc)
               vendas))))
      pedidos acc0 in
  NoDup (keys acc0) ->
  NoDup (keys acc)
  /\ Spec.total (values acc)
     = (Spec.total (values acc0)
        + Spec.total (map Spec.valor_total (filter Spec.datado pedidos)))%Qc.
Proof.
  revert acc0. induction pedidos as [|p pedidos IH]; intros acc0 acc Hn.
  - subst acc. split; [exact Hn|]. simpl. rewrite of_Z_0. ring.
  - subst acc. unfold DataProcessor.for_each_dated in *. simpl.
    unfold Spec.datado at 1, Spec.timestamp.
    destruct (DataProcessor.falsy (Pedido.data_pedido p)) eqn:Hf.
    { apply IH; exact Hn. }
    destruct (DataProcessor.converter (Pedido.data_pedido p)) as [[d|]|e];
      simpl.
    + match goal with
      | |- context [fold_left _ pedidos ?a] => specialize (IH a)
      end.
      destruct IH as [IH1 IH2].
      { apply NoDup_dict_accum; [apply String.eqb_eq | exact Hn]. }
      split; [exact IH1|].
      rewrite IH2, total_dict_accum by apply String.eqb_refl.
      unfold Spec.valor_total at 2. ring.
    + apply IH; exact Hn.
    + apply IH; exact Hn.
Qed.

Lemma Sorted_keys (d : dict (K := string) (V := Qc)) :
  Sorted (ordered DataProcessor.lt_item_str) d ->
  NoDup (keys d) ->
  StronglySorted (fun a b => String.ltb a b = true) (keys d).
Proof.
  intros Hs Hn. apply Sorted_StronglySorted.
  { intros a b c. apply string_ltb_trans. }
  induction Hs as [|[k v] d Hs IH Hh]; simpl.
  - constructor.
  - inversion Hn as [|? ? Hk Hn']; subst.
    constructor; [apply IH; exact Hn'|].
    destruct Hh as [|[k' v'] d' Hh]; simpl; constructor.
    unfold ordered, DataProcessor.lt_item_str in Hh. simpl in Hh.
    apply orb_false_iff in Hh. destruct Hh as [Hh _].
    apply string_ltb_total; [exact Hh|].
    intros ->. apply Hk. left. reflexivity.
Qed.

Lemma agrupar_sorted_keys (pedidos : list Pedido.t) (tipo : string) :
  StronglySorted (fun a b => String.ltb a b = true)
    (keys (DataProcessor.agrupar_por_periodo pedidos tipo)).
Proof.
  unfold DataProcessor.agrupar_por_periodo.
  apply Sorted_keys.
  - apply sorted_Sorted. apply lt_item_str_asym.
  - eapply Permutation_NoDup.
    + apply Permutation_map. apply Permutation_sym, sorted_Permutation.
    + apply (por_chave_inv (DataProcessor.chave_periodo tipo) pedidos []).
      constructor.
Qed.

Lemma agrupar_total (pedidos : list Pedido.t) (tipo : string) :
  Spec.total (values (DataProcessor.agrupar_por_periodo pedidos tipo))
  = Spec.total (map Spec.valor_total (filter Spec.datado pedidos)).
Proof.
  unfold DataProcessor.agrupar_por_periodo, values.
  rewrite (total_Permutation _ _
             (Permutation_map snd (sorted_Permutation _ _))).
  destruct (por_chave_inv (DataProcessor.chave_periodo tipo) pedidos [])
    as [_ H]; [constructor|].
  unfold values in *. rewrite H. simpl. rewrite of_Z_0. ring.
Qed.

End Grouping.

(** C4.  The keys of [agrupar_por_periodo] are strictly ascending in the
    order of strings, for every batch and every period kind, and the
    bucket values add up to the [valor_total] of exactly the orders whose
    timestamp is present and parseable.  On the batch of three orders the
    buckets by day are 300 and 50. *)
Theorem C4_agrupar_por_periodo :
  forall {lib : Lib} (pedidos : list Pedido.t) (tipo_periodo : string),
    let buckets := DataProcessor.agrupar_por_periodo pedidos tipo_periodo in
    StronglySorted (fun a b => String.ltb a b = true) (keys buckets)
    /\ sum (values buckets)
       = sum (map Spec.valor_total (filter Spec.datado pedidos))
    /\ DataProcessor.agrupar_por_periodo (lib := Reference.lib)
         Samples.tres_pedidos "dia"
       = [("2024-03-01"%string, of_Z 300); ("2024-03-02"%string, of_Z 50)].
Proof.
  intros lib pedidos tipo buckets. split; [|split].
  - apply agrupar_sorted_keys.
  - rewrite !sum_total. apply agrupar_total.
  - vm_compute. reflexivity.
Qed.

(** ** The forecast *)

Lemma replicate_length {A} (x : A) (n : Z) :
  0 <= n -> Z.of_nat (List.length (replicate x n)) = n.
Proof. intro H. unfold replicate. rewrite repeat_length. lia. Qed.

Lemma replicate_In {A} (x y : A) (n : Z) : In y (replicate x n) -> y = x.
Proof. unfold replicate. apply repeat_spec. Qed.

Lemma slice_last_length {A} (l : list A) (n : nat) :
  (n <= List.length l)%nat -> List.length (slice_last l n) = n.
Proof. intro H. unfold slice_last. rewrite length_skipn. lia. Qed.

(** C6.  [previsao_vendas_simples] returns [dias_futuros] values (for a
    number of days that is not negative) that are all equal: zeros when the grouping by day has no bucket, the mean
    of the last seven bucket values when there are at least seven
    buckets, the mean of all bucket values otherwise.  On the batch with
    one order on each of ten consecutive days, worth 10, 20, ..., 100, the
    forecast for seven days is seven times 70, the mean of the totals of
    the last seven days. *)
Theorem C6_previsao_vendas_simples :
  forall {lib : Lib} (pedidos : list Pedido.t) (dias_futuros : Z),
    let previsao :=
      SaboreAnalytics.previsao_vendas_simples pedidos dias_futuros in
    let valores := values (DataProcessor.agrupar_por_periodo pedidos "dia") in
    (0 <= dias_futuros -> Z.of_nat (List.length previsao) = dias_futuros)
    /\ (forall x y, In x previsao -> In y previsao -> x = y)
    /\ (valores = [] -> previsao = replicate (of_Z 0) dias_futuros)
    /\ ((7 <= List.length valores)%nat ->
        List.length (slice_last valores 7) = 7%nat
        /\ previsao
           = replicate (SaboreAnalytics.mean (slice_last valores 7))
               dias_futuros)
    /\ ((0 < List.length valores < 7)%nat ->
        previsao = replicate (SaboreAnalytics.mean valores) dias_futuros)
    /\ (SaboreAnalytics.previsao_vendas_simples (lib := Reference.lib)
          Samples.dez_dias 7
        = [of_Z 70; of_Z 70; of_Z 70; of_Z 70; of_Z 70; of_Z 70; of_Z 70]
        /\ SaboreAnalytics.mean
             [of_Z 40; of_Z 50; of_Z 60; of_Z 70; of_Z 80; of_Z 90; of_Z 100]
           = of_Z 70).
Proof.
  intros lib pedidos n previsao valores.
  assert (Hshape :
    previsao
    = replicate
        (match valores with
         | [] => of_Z 0
         | _ => if (7 <=? List.length valores)%nat
                then SaboreAnalytics.mean (slice_last valores 7)
                else SaboreAnalytics.mean valores
         end) n).
  { subst previsao valores. unfold SaboreAnalytics.previsao_vendas_simples.
    destruct pedidos as [|p pedidos]; [reflexivity|].
    destruct (DataProcessor.agrupar_por_periodo (p :: pedidos) "dia")
      as [|b bs] eqn:E; [reflexivity|].
    set (valores := values (b :: bs)).
    change (values (b :: bs)) with valores.
    assert (Hv : valores = snd b :: values bs) by reflexivity.
    rewrite Hv at 3. cbv iota.
    destruct (7 <=? List.length valores)%nat eqn:E7; [|reflexivity].
    apply Nat.leb_le in E7.
    unfold SaboreAnalytics.mean.
    rewrite (slice_last_length valores 7 E7). reflexivity. }
  split; [intro Hn; rewrite Hshape; apply replicate_length; exact Hn|].
  split.
  { intros x y Hx Hy. rewrite Hshape in Hx, Hy.
    apply replicate_In in Hx, Hy. congruence. }
  split; [intro H; rewrite Hshape, H; reflexivity|].
  split.
  { intro H7. split; [apply slice_last_length; exact H7|].
    rewrite Hshape. destruct valores as [|v vs]; [simpl in H7; lia|].
    apply Nat.leb_le in H7. rewrite H7. reflexivity. }
  split.
  { intros [H0 H7]. rewrite Hshape.
    destruct valores as [|v vs]; [simpl in H0; lia|].
    apply Nat.leb_gt in H7. rewrite H7. reflexivity. }
  split; qc_eq.
Qed.

Lemma C6_previsao_vendas_simples_witness :
  let previsao :=
    SaboreAnalytics.previsao_vendas_simples (lib := Reference.lib)
      Samples.dez_dias 7 in
  let valores :=
    values (DataProcessor.agrupar_por_periodo (lib := Reference.lib)
              Samples.dez_dias "dia") in
  0 <= 7
  /\ Z.of_nat (List.length previsao) = 7
  /\ List.length valores = 10%nat
  /\ previsao = replicate (SaboreAnalytics.mean (slice_last valores 7)) 7.
Proof.
  intros previsao valores.
  pose proof (C6_previsao_vendas_simples (lib := Reference.lib)
                Samples.dez_dias 7) as H.
  cbv zeta in H. destruct H as (H1 & _ & _ & H4 & _).
  split; [lia|]. split; [apply H1; lia|]. split; [reflexivity|].
  apply H4. vm_compute. lia.
Defined.

(** ** The ranking of items *)

Section Ranking.

Lemma nomes_todos_os_itens (pedidos : list Pedido.t) :
  Spec.nomes pedidos = map Spec.nome_do_item (Spec.todos_os_itens pedidos).
Proof.
  unfold Spec.nomes, Spec.todos_os_itens.
  induction pedidos as [|p pedidos IH]; simpl; [reflexivity|].
  rewrite map_app, IH. destruct (Pedido.itens p); reflexivity.
Qed.

Lemma contador_itens_flat (pedidos : list Pedido.t) :
  DataProcessor.contador_itens pedidos
  = fold_left DataProcessor.contar_item (Spec.todos_os_itens pedidos) [].
Proof.
  unfold DataProcessor.contador_itens, Spec.todos_os_itens.
  generalize (@nil (string * Entrada.t)).
  induction pedidos as [|p pedidos IH]; intro c; simpl; [reflexivity|].
  rewrite fold_left_app, IH.
  destruct (Pedido.itens p); reflexivity.
Qed.

Lemma indice_app_In (k : string) (l m : list string) :
  In k l ->
  Spec.indice k (l ++ m) = Spec.indice k l
  /\ (Spec.indice k l < List.length l)%nat.
Proof.
  induction l as [|x l IH]; simpl; [tauto|]. intro H.
  destruct (String.eqb_spec k x) as [->|Hne].
  - split; [reflexivity | lia].
  - destruct H as [->|H]; [congruence|].
    destruct (IH H) as [IH1 IH2]. split; [congruence | lia].
Qed.

Lemma indice_app_new (k : string) (l : list string) :
  ~ In k l -> Spec.indice k (l ++ [k]) = List.length l.
Proof.
  induction l as [|x l IH]; simpl; intro H.
  - rewrite String.eqb_refl; reflexivity.
  - destruct (String.eqb_spec k x) as [->|Hne]; [tauto|].
    rewrite IH; tauto.
Qed.

Lemma antes_snoc {A} (a b x : A) (l : list A) :
  Spec.antes a b (l ++ [x]) -> Spec.antes a b l \/ (b = x /\ In a l).
Proof.
  intros (l1 & l2 & l3 & H).
  destruct l3 as [|y l3 _] using rev_ind.
  - right.
    replace (l1 ++ a :: l2 ++ [b]) with ((l1 ++ a :: l2) ++ [b]) in H
      by (rewrite <- app_assoc; reflexivity).
    apply app_inj_tail in H. destruct H as [-> ->].
    split; [reflexivity|]. apply in_or_app. right. left. reflexivity.
  - left.
    replace (l1 ++ a :: l2 ++ b :: l3 ++ [y])
      with ((l1 ++ a :: l2 ++ b :: l3) ++ [y]) in H
      by (rewrite <- !app_assoc; simpl; rewrite <- app_assoc; reflexivity).
    apply app_inj_tail in H. destruct H as [-> _].
    exists l1, l2, l3. reflexivity.
Qed.

Lemma antes_map {A B} (f : A -> B) (a b : A) (l : list A) :
  Spec.antes a b l -> Spec.antes (f a) (f b) (map f l).
Proof.
  intros (l1 & l2 & l3 & ->).
  exists (map f l1), (map f l2), (map f l3).
  rewrite map_app; simpl; rewrite map_app; reflexivity.
Qed.

Lemma antes_firstn {A} (a b : A) (n : nat) (l : list A) :
  Spec.antes a b (firstn n l) -> Spec.antes a b l.
Proof.
  intros (l1 & l2 & l3 & H).
  exists l1, l2, (l3 ++ skipn n l).
  rewrite <- (firstn_skipn n l) at 1. rewrite H.
  rewrite <- !app_assoc. simpl. rewrite <- app_assoc. reflexivity.
Qed.

Lemma nth_error_antes {A} (l : list A) (i j : nat) (a b : A) :
  (i < j)%nat -> nth_error l i = Some a -> nth_error l j = Some b ->
  Spec.antes a b l.
Proof.
  intros Hij Ha Hb.
  apply nth_error_split in Ha. destruct Ha as (l1 & r & -> & Hl1).
  rewrite nth_error_app2 in Hb by lia.
  replace (j - List.length l1)%nat with (S (j - i - 1)) in Hb by lia.
  simpl in Hb. apply nth_error_split in Hb. destruct Hb as (l2 & l3 & -> & _).
  exists l1, l2, l3. reflexivity.
Qed.

Lemma values_dict_adjust_nome (k : string) (f : Entrada.t -> Entrada.t)
    (c : dict (K := string) (V := Entrada.t)) :
  (forall e, Entrada.nome (f e) = Entrada.nome e) ->
  map Entrada.nome (values (dict_adjust String.eqb k f c))
  = map Entrada.nome (values c).
Proof.
  intro Hf. induction c as [|[k' e] c IH]; simpl; [reflexivity|].
  destruct (String.eqb k k'); simpl; [rewrite Hf; reflexivity|].
  rewrite IH; reflexivity.
Qed.

Lemma scan_inv_step (vistos : list string) (item : Item.t)
    (c : dict (K := string) (V := Entrada.t)) :
  Spec.scan_inv vistos c ->
  Spec.scan_inv (vistos ++ [Spec.nome_do_item item])
    (DataProcessor.contar_item c item).
Proof.
  intros (Hn & Hk & Ho).
  unfold DataProcessor.contar_item, dict_accum.
  fold (Spec.nome_do_item item). set (x := Spec.nome_do_item item).
  destruct (dict_in String.eqb x c) eqn:E.
  - (* a name met before *)
    assert (Hx : In x vistos).
    { apply Hk. apply (dict_in_In String.eqb String.eqb_eq). exact E. }
    split; [|split].
    + rewrite values_dict_adjust_nome by reflexivity.
      rewrite keys_dict_adjust. exact Hn.
    + intro k. rewrite keys_dict_adjust, Hk, in_app_iff. simpl.
      split; [tauto|]. intros [H|[<-|[]]]; assumption.
    + intros a b Hab. rewrite keys_dict_adjust in Hab.
      pose proof (Ho a b Hab) as Hlt.
      destruct (antes_In a b _ Hab) as [Ha Hb].
      apply Hk in Ha, Hb.
      destruct (indice_app_In a vistos [x] Ha) as [-> _].
      destruct (indice_app_In b vistos [x] Hb) as [-> _].
      exact Hlt.
  - (* a new name *)
    assert (Hx : ~ In x vistos).
    { intro H. apply Hk in H.
      apply (dict_in_In String.eqb String.eqb_eq) in H. congruence. }
    rewrite keys_dict_set_new by exact E.
    split; [|split].
    + rewrite values_dict_adjust_nome by reflexivity.
      rewrite keys_dict_adjust.
      unfold values, keys. rewrite !map_app. simpl.
      unfold values, keys in Hn. rewrite Hn. reflexivity.
    + intro k. rewrite keys_dict_adjust. unfold keys. rewrite map_app.
      rewrite !in_app_iff. simpl. fold (keys c). rewrite Hk. tauto.
    + intros a b Hab. rewrite keys_dict_adjust in Hab.
      unfold keys in Hab. rewrite map_app in Hab. simpl in Hab.
      apply antes_snoc in Hab. destruct Hab as [Hab|[-> Ha]].
      * pose proof (Ho a b Hab) as Hlt.
        destruct (antes_In a b _ Hab) as [Ha Hb].
        apply Hk in Ha, Hb.
        destruct (indice_app_In a vistos [x] Ha) as [-> _].
        destruct (indice_app_In b vistos [x] Hb) as [-> _].
        exact Hlt.
      * apply Hk in Ha.
        destruct (indice_app_In a vistos [x] Ha) as [-> Hlt].
        rewrite indice_app_new by exact Hx. exact Hlt.
Qed.

Lemma scan_inv_fold (itens : list Item.t) (vistos : list string)
    (c : dict (K := string) (V := Entrada.t)) :
  Spec.scan_inv vistos c ->
  Spec.scan_inv (vistos ++ map Spec.nome_do_item itens)
    (fold_left DataProcessor.contar_item itens c).
Proof.
  revert vistos c. induction itens as [|i itens IH]; intros vistos c H; simpl.
  - rewrite app_nil_r. exact H.
  - replace (vistos ++ Spec.nome_do_item i :: map Spec.nome_do_item itens)
      with ((vistos ++ [Spec.nome_do_item i]) ++ map Spec.nome_do_item itens)
      by (rewrite <- app_assoc; reflexivity).
    apply IH, scan_inv_step, H.
Qed.

Lemma contador_itens_inv (pedidos : list Pedido.t) :
  Spec.scan_inv (Spec.nomes pedidos) (DataProcessor.contador_itens pedidos).
Proof.
  rewrite contador_itens_flat, nomes_todos_os_itens.
  apply (scan_inv_fold (Spec.todos_os_itens pedidos) [] []).
  split; [reflexivity|]. split; [simpl; tauto|].
  intros a b (l1 & l2 & l3 & H). destruct l1; discriminate.
Qed.

Lemma gt_quantidade_asym (a b : Entrada.t) :
  DataProcessor.gt_quantidade a b = true ->
  DataProcessor.gt_quantidade b a = false.
Proof. unfold DataProcessor.gt_quantidade. lia. Qed.

Lemma StronglySorted_firstn {A} (R : A -> A -> Prop) (n : nat) (l : list A) :
  StronglySorted R l -> StronglySorted R (firstn n l).
Proof.
  revert n. induction l as [|x l IH]; intros [|n] H; simpl;
    try constructor.
  - inversion H; subst. apply IH; assumption.
  - inversion H as [|? ? _ Hall]; subst.
    rewrite Forall_forall in *. intros y Hy. apply Hall.
    rewrite <- (firstn_skipn n l). apply in_or_app. left. exact Hy.
Qed.

End Ranking.

Lemma StronglySorted_impl {A} (R R' : A -> A -> Prop) (l : list A) :
  (forall a b, R a b -> R' a b) -> StronglySorted R l -> StronglySorted R' l.
Proof.
  intros HR H. induction H as [|x l _ IH Hall]; constructor; [exact IH|].
  eapply Forall_impl; [|exact Hall]. intros b; apply HR.
Qed.

Lemma ordenados_desc (l : list Entrada.t) :
  StronglySorted
    (fun a b => Entrada.quantidade_total b <= Entrada.quantidade_total a)
    (sorted DataProcessor.gt_quantidade l).
Proof.
  apply (StronglySorted_impl (ordered DataProcessor.gt_quantidade)).
  { unfold ordered, DataProcessor.gt_quantidade. intros a b H. lia. }
  apply Sorted_StronglySorted.
  { unfold ordered, DataProcessor.gt_quantidade. intros a b c H1 H2. lia. }
  apply sorted_Sorted. apply gt_quantidade_asym.
Qed.

Lemma slice_to_firstn {A} (l : list A) (n : Z) :
  0 <= n -> slice_to l n = firstn (Z.to_nat n) l.
Proof.
  intro H. unfold slice_to. destruct (n <? 0) eqn:E; [lia | reflexivity].
Qed.

(** A slice [l[:n]] is a prefix of [l], whatever the sign of [n]. *)
Lemma slice_to_prefix {A} (l : list A) (n : Z) :
  exists k : nat, slice_to l n = firstn k l.
Proof. unfold slice_to. destruct (n <? 0); eexists; reflexivity. Qed.

(** C7.  The ranking of [itens_mais_populares] is in descending order of
    [quantidade_total]; of two entries with the same [quantidade_total]
    the one whose name the scan of the batch met first comes first; and
    the ranking has at most [limite] entries, for a limit that is not
    negative (ten with the default limit). *)
Theorem C7_itens_mais_populares :
  forall (pedidos : list Pedido.t) (limite : Z),
    let ranking := DataProcessor.itens_mais_populares pedidos limite in
    StronglySorted
      (fun a b => Entrada.quantidade_total b <= Entrada.quantidade_total a)
      ranking
    /\ (forall (i j : nat) (a b : Entrada.t),
          (i < j)%nat ->
          nth_error ranking i = Some a ->
          nth_error ranking j = Some b ->
          Entrada.quantidade_total a = Entrada.quantidade_total b ->
          (Spec.indice (Entrada.nome a) (Spec.nomes pedidos)
           < Spec.indice (Entrada.nome b) (Spec.nomes pedidos))%nat)
    /\ (0 <= limite -> Z.of_nat (List.length ranking) <= limite)
    /\ Z.of_nat
         (List.length
            (DataProcessor.itens_mais_populares pedidos
               DataProcessor.limite_padrao)) <= 10.
Proof.
  intros pedidos limite ranking. subst ranking.
  unfold DataProcessor.itens_mais_populares.
  destruct (slice_to_prefix
              (sorted DataProcessor.gt_quantidade
                 (values (DataProcessor.contador_itens pedidos))) limite)
    as [k Hk].
  rewrite Hk.
  split; [|split; [|split]].
  - apply StronglySorted_firstn, ordenados_desc.
  - intros i j a b Hij Ha Hb Hq.
    pose proof (nth_error_antes _ i j a b Hij Ha Hb) as H.
    apply antes_firstn in H.
    apply sorted_stable in H.
    2:{ unfold DataProcessor.gt_quantidade. lia. }
    destruct (contador_itens_inv pedidos) as (Hn & _ & Ho).
    apply Ho. rewrite <- Hn. apply antes_map. exact H.
  - intro Hl. rewrite <- Hk, slice_to_firstn by exact Hl.
    pose proof (firstn_le_length (Z.to_nat limite)
                  (sorted DataProcessor.gt_quantidade
                     (values (DataProcessor.contador_itens pedidos)))).
    lia.
  - rewrite slice_to_firstn by (unfold DataProcessor.limite_padrao; lia).
    pose proof (firstn_le_length (Z.to_nat DataProcessor.limite_padrao)
                  (sorted DataProcessor.gt_quantidade
                     (values (DataProcessor.contador_itens pedidos)))) as H.
    unfold DataProcessor.limite_padrao in *. lia.
Qed.

Lemma C7_itens_mais_populares_witness :
  0 <= 2
  /\ DataProcessor.itens_mais_populares Samples.com_itens 3
     = [ Entrada.mk 3 (of_Z 90) "Pizza"; Entrada.mk 2 (of_Z 20) "Suco";
         Entrada.mk 2 (of_Z 40) "Bolo" ]
  /\ Spec.nomes Samples.com_itens
     = ["Pizza"; "Suco"; "Bolo"; "Suco"; "Pizza"]%string
  /\ StronglySorted
       (fun a b => Entrada.quantidade_total b <= Entrada.quantidade_total a)
       (DataProcessor.itens_mais_populares Samples.com_itens 2)
  /\ Z.of_nat (List.length
                 (DataProcessor.itens_mais_populares Samples.com_itens 2))
     <= 2.
Proof.
  split; [lia|]. split; [qc_eq|]. split; [reflexivity|].
  pose proof (C7_itens_mais_populares Samples.com_itens 2) as H.
  cbv zeta in H. destruct H as (H1 & _ & H3 & _).
  split; [exact H1 | apply H3; lia].
Defined.

(** ** The key of a week *)

Lemma chave_semana (d : datetime) :
  DataProcessor.chave_periodo "semana" d
  = (str (year (campos d)) ++ "-S" ++ str (iso_week (campos d)))%string.
Proof. reflexivity. Qed.

(** C5.  The key of a week is built from the calendar year of the
    timestamp, not from its ISO year.  Monday 2024-12-30 lies in ISO week
    1 of ISO year 2025; the code files it under ["2024-S1"], the bucket of
    the first week of January 2024, and not under ["2025-S1"]. *)
Theorem C5_chave_semana_ano_civil :
  (forall d : datetime,
     DataProcessor.chave_periodo "semana" d
     = (str (year (campos d)) ++ "-S" ++ str (iso_week (campos d)))%string)
  /\ isocalendar Samples.virada = (2025, 1, 1)
  /\ DataProcessor.chave_periodo "semana" (mk_datetime Samples.virada None)
     = "2024-S1"%string
  /\ (str (iso_year Samples.virada) ++ "-S" ++ str (iso_week Samples.virada))%string
     = "2025-S1"%string
  /\ DataProcessor.chave_periodo "semana" (mk_datetime Samples.virada None)
     <> (str (iso_year Samples.virada) ++ "-S"
         ++ str (iso_week Samples.virada))%string
  /\ DataProcessor.agrupar_por_periodo (lib := Reference.lib)
       Samples.semanas "semana"
     = [("2024-S1"%string, of_Z 100)].
Proof.
  split; [exact chave_semana|].
  split; [reflexivity|]. split; [reflexivity|]. split; [reflexivity|].
  split; [vm_compute; discriminate|]. qc_eq.
Qed.

(** ** The windows of the growth rate *)

Section Windows.
Context {lib : Lib}.

Lemma janelas_filter_gen (pa pant : naive) (pedidos xs ys : list Pedido.t) :
  DataProcessor.for_each_dated
    (fun '(vendas_atual, vendas_anterior) pedido =>
       bind (DataProcessor.converter (Pedido.data_pedido pedido))
         (fun data_pedido =>
       bind (DataProcessor.ge_bound data_pedido pa) (fun no_atual =>
       if no_atual then Ok (vendas_atual ++ [pedido], vendas_anterior)
       else
         bind (DataProcessor.ge_bound data_pedido pant) (fun depois =>
         if depois then
           bind (DataProcessor.lt_bound data_pedido pa) (fun antes =>
           if antes then Ok (vendas_atual, vendas_anterior ++ [pedido])
           else Ok (vendas_atual, vendas_anterior))
         else Ok (vendas_atual, vendas_anterior)))))
    pedidos (xs, ys)
  = (xs ++ filter (Spec.na_janela_atual pa) pedidos,
     ys ++ filter (Spec.na_janela_anterior pa pant) pedidos).
Proof.
  revert xs ys. induction pedidos as [|p pedidos IH]; intros xs ys.
  - simpl. rewrite !app_nil_r. reflexivity.
  - unfold DataProcessor.for_each_dated in *. simpl.
    unfold Spec.na_janela_atual, Spec.na_janela_anterior,
      Spec.naive_timestamp, Spec.timestamp.
    destruct (DataProcessor.falsy (Pedido.data_pedido p)); [apply IH|].
    destruct (DataProcessor.converter (Pedido.data_pedido p))
      as [[[t [off|]]|]|e]; simpl; try apply IH.
    unfold ge, lt, ge; simpl. unfold Spec.nao_antes.
    destruct (cmp_naive t pa) eqn:E1; simpl.
    + rewrite IH, <- app_assoc. reflexivity.
    + destruct (cmp_naive t pant) eqn:E2; simpl;
        rewrite IH, <- ?app_assoc; reflexivity.
    + rewrite IH, <- app_assoc. reflexivity.
Qed.

Lemma janelas_filter (pa pant : naive) (pedidos : list Pedido.t) :
  DataProcessor.janelas pa pant pedidos
  = (filter (Spec.na_janela_atual pa) pedidos,
     filter (Spec.na_janela_anterior pa pant) pedidos).
Proof. apply (janelas_filter_gen pa pant pedidos [] []). Qed.

(** What [calcular_crescimento_vendas] returns once the clock is read and
    the two bounds exist. *)
Lemma crescimento_em_spec (agora pa pant : naive) (pedidos : list Pedido.t)
    (dias : Z) :
  sub_days agora dias = Ok pa ->
  sub_days pa dias = Ok pant ->
  let atual :=
    DataProcessor.calcular_vendas_totais
      (filter (Spec.na_janela_atual pa) pedidos) in
  let anterior :=
    DataProcessor.calcular_vendas_totais
      (filter (Spec.na_janela_anterior pa pant) pedidos) in
  DataProcessor.crescimento_em agora pedidos dias
  = Ok (if Qc_eqb anterior (of_Z 0)
        then (if Qc_ltb (of_Z 0) atual then of_Z 100 else of_Z 0)
        else round2 ((atual - anterior) / anterior * of_Z 100)%Qc).
Proof.
  intros H1 H2 atual anterior. unfold DataProcessor.crescimento_em.
  rewrite H1; simpl. rewrite H2; simpl. rewrite janelas_filter.
  fold atual anterior. destruct (Qc_eqb anterior (of_Z 0)); reflexivity.
Qed.

(** An order whose timestamp carries an offset from UTC enters neither
    window: comparing it with the naive bound raises [TypeError]. *)
Lemma janelas_skip_aware (pa pant : naive) (antes depois : list Pedido.t)
    (p : Pedido.t) (d : datetime) (off : Z) :
  DataProcessor.converter (Pedido.data_pedido p) = Ok (Some d) ->
  utcoffset d = Some off ->
  DataProcessor.janelas pa pant (antes ++ p :: depois)
  = DataProcessor.janelas pa pant (antes ++ depois).
Proof.
  intros Hc Ho. rewrite !janelas_filter, !filter_app. simpl.
  unfold Spec.na_janela_atual, Spec.na_janela_anterior, Spec.naive_timestamp,
    Spec.timestamp.
  rewrite Hc.
  destruct (DataProcessor.falsy (Pedido.data_pedido p)); [reflexivity|].
  rewrite Ho. reflexivity.
Qed.

End Windows.

(** C3.  The two windows of the growth rate hold only the orders whose
    timestamp is naive.  An order placed on 2024-06-10 at noon UTC, read
    by a clock that shows 2024-06-15, lies in the window of the last 30
    days, and nothing was sold in the 30 days before: the growth rate
    should be 100.  The code returns 0 when the timestamp is written with
    the suffix ["Z"] (which it replaces by ["+00:00"] and parses), because
    the comparison of the resulting aware value with the naive bound
    raises [TypeError] and the order is dropped; it returns 100 for the
    same instant written without the suffix. *)
Theorem C3_crescimento_descarta_utc :
  (forall (lib : Lib) (pa pant : naive) (pedidos : list Pedido.t),
     DataProcessor.janelas pa pant pedidos
     = (filter (Spec.na_janela_atual pa) pedidos,
        filter (Spec.na_janela_anterior pa pant) pedidos))
  /\ Spec.na_janela_atual (lib := Reference.lib)
       (mk_naive 2024 5 16 0 0 0 0) Samples.pedido_utc = false
  /\ Spec.na_janela_atual (lib := Reference.lib)
       (mk_naive 2024 5 16 0 0 0 0) Samples.pedido_local = true
  /\ DataProcessor.converter (lib := Reference.lib)
       (Pedido.data_pedido Samples.pedido_utc)
     = Ok (Some (mk_datetime (mk_naive 2024 6 10 12 0 0 0) (Some 0)))
  /\ sub_days Samples.agora 30 = Ok (mk_naive 2024 5 16 0 0 0 0)
  /\ DataProcessor.ge_bound
       (Some (mk_datetime (mk_naive 2024 6 10 12 0 0 0) (Some 0)))
       (mk_naive 2024 5 16 0 0 0 0)
     = Raise TypeError
  /\ DataProcessor.crescimento_em (lib := Reference.lib) Samples.agora
       [Samples.pedido_utc] 30
     = Ok (of_Z 0)
  /\ DataProcessor.crescimento_em (lib := Reference.lib) Samples.agora
       [Samples.pedido_local] 30
     = Ok (of_Z 100).
Proof.
  split; [intros lib pa pant pedidos; apply janelas_filter|].
  split; [reflexivity|]. split; [reflexivity|].
  split; [reflexivity|]. split; [reflexivity|]. split; [reflexivity|].
  split; qc_eq.
Qed.

(** ** Dates and ordinals *)

Lemma month_day_table :
  forallb
    (fun k =>
       forallb
         (fun leap =>
            let '(m, d) := month_day leap (Z.of_nat k) in
            (1 <=? m) && (m <=? 12) && (1 <=? d)
            && (nth (Z.to_nat m) DAYS_BEFORE_MONTH 0
                + (if (2 <? m) && leap then 1 else 0) + d
                =? Z.of_nat k + 1))
         [true; false])
    (seq 0 365)
  = true.
Proof. vm_compute. reflexivity. Qed.

Lemma month_day_ok (leap : bool) (n : Z) :
  0 <= n < 365 ->
  1 <= fst (month_day leap n) <= 12
  /\ 1 <= snd (month_day leap n)
  /\ nth (Z.to_nat (fst (month_day leap n))) DAYS_BEFORE_MONTH 0
     + (if (2 <? fst (month_day leap n)) && leap then 1 else 0)
     + snd (month_day leap n)
     = n + 1.
Proof.
  intro Hn.
  pose proof month_day_table as T. rewrite forallb_forall in T.
  specialize (T (Z.to_nat n)).
  rewrite Z2Nat.id in T by lia.
  assert (Hin : In (Z.to_nat n) (seq 0 365)) by (apply in_seq; lia).
  specialize (T Hin). rewrite forallb_forall in T.
  assert (Hl : In leap [true; false]) by (destruct leap; simpl; tauto).
  specialize (T leap Hl).
  destruct (month_day leap n) as [m d]. cbn [fst snd].
  rewrite !andb_true_iff in T. destruct T as [[[T1 T2] T3] T4].
  apply Z.leb_le in T1, T2, T3. apply Z.eqb_eq in T4.
  destruct ((2 <? m) && leap); lia.
Qed.

Lemma days_before_year_decomp (a b c d : Z) :
  0 <= a -> 0 <= b <= 3 -> 0 <= c <= 24 -> 0 <= d <= 3 ->
  days_before_year (400 * a + 100 * b + 4 * c + d + 1)
  = 146097 * a + 36524 * b + 1461 * c + 365 * d.
Proof.
  intros. unfold days_before_year. cbv zeta.
  replace (400 * a + 100 * b + 4 * c + d + 1 - 1)
    with (400 * a + 100 * b + 4 * c + d) by lia.
  Z.to_euclidean_division_equations; lia.
Qed.

Lemma is_leap_decomp (a b c d : Z) :
  0 <= a -> 0 <= b <= 3 -> 0 <= c <= 24 -> 0 <= d <= 3 ->
  is_leap (400 * a + 100 * b + 4 * c + d + 1)
  = (d =? 3) && (negb (c =? 24) || (b =? 3)).
Proof.
  intros. unfold is_leap.
  apply eq_true_iff_eq.
  rewrite !andb_true_iff, !orb_true_iff, !negb_true_iff, !Z.eqb_eq,
    !Z.eqb_neq.
  Z.to_euclidean_division_equations; lia.
Qed.

Lemma ordinal_decomp (n : Z) :
  0 <= n ->
  let a := n / 146097 in
  let r1 := n mod 146097 in
  let b := r1 / 36524 in
  let r2 := r1 mod 36524 in
  let c := r2 / 1461 in
  let r3 := r2 mod 1461 in
  let d := r3 / 365 in
  let r4 := r3 mod 365 in
  n = 146097 * a + 36524 * b + 1461 * c + 365 * d + r4
  /\ 0 <= a /\ 0 <= b <= 4 /\ 0 <= c <= 24 /\ 0 <= d <= 4 /\ 0 <= r4 < 365
  /\ (b = 4 -> c = 0 /\ d = 0 /\ r4 = 0)
  /\ (d = 4 -> r4 = 0 /\ c <= 23).
Proof.
  intros H a r1 b r2 c r3 d r4. subst a r1 b r2 c r3 d r4.
  Z.to_euclidean_division_equations; lia.
Qed.

(** The date of an ordinal has that ordinal. *)
Lemma ymd2ord_ord2ymd (n : Z) :
  1 <= n ->
  ymd2ord (fst (fst (ord2ymd n))) (snd (fst (ord2ymd n))) (snd (ord2ymd n))
  = n.
Proof.
  intro Hn. unfold ord2ymd. cbv zeta.
  change DI400Y with 146097. change DI100Y with 36524. change DI4Y with 1461.
  destruct (ordinal_decomp (n - 1) ltac:(lia))
    as (Hd & Ha & Hb & Hc & Hd' & Hr & Hb4 & Hd4).
  set (a := (n - 1) / 146097) in *.
  set (r1 := (n - 1) mod 146097) in *.
  set (b := r1 / 36524) in *.
  set (r2 := r1 mod 36524) in *.
  set (c := r2 / 1461) in *.
  set (r3 := r2 mod 1461) in *.
  set (d := r3 / 365) in *.
  set (r4 := r3 mod 365) in *.
  destruct ((d =? 4) || (b =? 4)) eqn:E.
  - (* the last day of a leap cycle *)
    cbn [fst snd]. unfold ymd2ord, days_before_month.
    apply orb_true_iff in E. rewrite !Z.eqb_eq in E.
    change (nth (Z.to_nat 12) DAYS_BEFORE_MONTH 0) with 334.
    change (2 <? 12) with true. rewrite andb_true_l.
    destruct E as [E|E].
    + destruct (Hd4 E) as [Hr0 Hc23].
      replace (a * 400 + 1 + b * 100 + c * 4 + d - 1)
        with (400 * a + 100 * b + 4 * c + 3 + 1) by lia.
      rewrite is_leap_decomp, days_before_year_decomp by lia.
      replace (c =? 24) with false by (symmetry; apply Z.eqb_neq; lia).
      change (3 =? 3) with true. cbv [andb orb negb]. lia.
    + destruct (Hb4 E) as (Hc0 & Hd0 & Hr0).
      replace (a * 400 + 1 + b * 100 + c * 4 + d - 1)
        with (400 * a + 100 * 3 + 4 * 24 + 3 + 1) by lia.
      rewrite is_leap_decomp, days_before_year_decomp by lia.
      change (3 =? 3) with true. change (24 =? 24) with true.
      cbv [andb orb negb]. lia.
  - apply orb_false_iff in E. rewrite !Z.eqb_neq in E. destruct E as [E1 E2].
    set (leap := (d =? 3) && (negb (c =? 24) || (b =? 3))).
    pose proof (month_day_ok leap r4 Hr) as (Hm & Hday & Hsum).
    destruct (month_day leap r4) as [m dd]. cbn [fst snd] in *.
    unfold ymd2ord, days_before_month.
    replace (a * 400 + 1 + b * 100 + c * 4 + d)
      with (400 * a + 100 * b + 4 * c + d + 1) by lia.
    rewrite is_leap_decomp, days_before_year_decomp by lia.
    fold leap. lia.
Qed.

Lemma sub_days_Ok (t : naive) (dias : Z) :
  -999999999 <= dias <= 999999999 ->
  0 < toordinal t - dias <= MAXORDINAL ->
  exists t',
    sub_days t dias = Ok t' /\ toordinal t' = toordinal t - dias.
Proof.
  intros Hd Hn. unfold sub_days.
  replace ((dias <? -999999999) || (999999999 <? dias)) with false
    by (symmetry; apply orb_false_iff; lia).
  replace ((0 <? toordinal t - dias) && (toordinal t - dias <=? MAXORDINAL))
    with true by (symmetry; apply andb_true_iff; lia).
  pose proof (ymd2ord_ord2ymd (toordinal t - dias) ltac:(lia)) as H.
  destruct (ord2ymd (toordinal t - dias)) as [[y m] d].
  eexists. split; [reflexivity|]. exact H.
Qed.

(** ** The core metrics *)

Lemma of_Z_neq_0 (n : Z) : n <> 0 -> of_Z n <> 0%Qc.
Proof.
  intros Hn H. apply Hn. unfold of_Z in H.
  apply Q2Qc_eq_iff in H. unfold Qeq in H. simpl in H. lia.
Qed.

Section Growth.
Context {lib : Lib}.

Lemma crescimento_em_Ok (agora : naive) (pedidos : list Pedido.t) :
  60 < toordinal agora <= MAXORDINAL ->
  exists g, DataProcessor.crescimento_em agora pedidos 30 = Ok g.
Proof.
  intro H. unfold MAXORDINAL in H.
  destruct (sub_days_Ok agora 30) as (pa & H1 & O1);
    [lia | unfold MAXORDINAL; lia |].
  destruct (sub_days_Ok pa 30) as (pant & H2 & O2);
    [lia | unfold MAXORDINAL; lia |].
  eexists. apply (crescimento_em_spec agora pa pant pedidos 30 H1 H2).
Qed.

End Growth.

(** C2.  For a batch that is not empty, with a clock that shows a date
    after the first sixty days of year 1, [calcular_metricas_principais]
    returns metrics in which [total_pedidos] is the number of orders,
    [vendas_totais] is [calcular_vendas_totais] of the batch, and
    [ticket_medio * total_pedidos = vendas_totais].  The equation is exact
    in rational arithmetic. *)
Theorem C2_ticket_medio_vezes_pedidos :
  forall {lib : Lib} (pedidos : list Pedido.t) (c : clock),
    (0 < List.length pedidos)%nat ->
    60 < toordinal (readings c (reads c)) <= MAXORDINAL ->
    exists (m : SaboreAnalytics.metricas) (c' : clock),
      SaboreAnalytics.calcular_metricas_principais pedidos c = (Ok m, c')
      /\ SaboreAnalytics.total_pedidos m = Z.of_nat (List.length pedidos)
      /\ SaboreAnalytics.vendas_totais m
         = DataProcessor.calcular_vendas_totais pedidos
      /\ (SaboreAnalytics.ticket_medio m
          * of_Z (SaboreAnalytics.total_pedidos m))%Qc
         = SaboreAnalytics.vendas_totais m.
Proof.
  intros lib pedidos c Hne Hc.
  destruct pedidos as [|p pedidos]; [simpl in Hne; lia|].
  unfold SaboreAnalytics.calcular_metricas_principais,
    SaboreAnalytics.io_bind, SaboreAnalytics.io_ret,
    DataProcessor.calcular_crescimento_vendas, now,
    DataProcessor.dias_padrao.
  destruct (crescimento_em_Ok (readings c (reads c)) (p :: pedidos) Hc)
    as [g Hg].
  rewrite Hg. eexists; eexists. split; [reflexivity|].
  cbn [SaboreAnalytics.total_pedidos SaboreAnalytics.vendas_totais
       SaboreAnalytics.ticket_medio].
  split; [reflexivity|]. split; [reflexivity|].
  set (n := Z.of_nat (List.length (p :: pedidos))).
  assert (Hn : 0 < n) by (subst n; simpl List.length; lia).
  replace (0 <? n) with true by (symmetry; apply Z.ltb_lt; exact Hn).
  field. apply of_Z_neq_0. lia.
Qed.

Lemma C2_ticket_medio_vezes_pedidos_witness :
  (0 < List.length Samples.tres_pedidos)%nat
  /\ 60 < toordinal Samples.agora <= MAXORDINAL
  /\ exists (m : SaboreAnalytics.metricas) (c' : clock),
       SaboreAnalytics.calcular_metricas_principais (lib := Reference.lib)
         Samples.tres_pedidos Samples.relogio_parado = (Ok m, c')
       /\ SaboreAnalytics.total_pedidos m = 3
       /\ SaboreAnalytics.vendas_totais m
          = DataProcessor.calcular_vendas_totais Samples.tres_pedidos
       /\ (SaboreAnalytics.ticket_medio m
           * of_Z (SaboreAnalytics.total_pedidos m))%Qc
          = SaboreAnalytics.vendas_totais m.
Proof.
  split; [simpl; lia|]. split; [vm_compute; split; congruence|].
  apply (C2_ticket_medio_vezes_pedidos (lib := Reference.lib)
           Samples.tres_pedidos Samples.relogio_parado).
  - simpl; lia.
  - vm_compute; split; congruence.
Defined.

(** ** The full report *)

Section Report.
Context {lib : Lib}.

Lemma gerar_relatorio_completo_run (pedidos : list Pedido.t) (c : clock) :
  let k := Spec.leituras_antes pedidos in
  fst (SaboreAnalytics.gerar_relatorio_completo pedidos c)
  = Spec.relatorio_de pedidos
      (readings c (reads c))
      (readings c (reads c + k))
      (readings c (reads c + k + 1)).
Proof.
  unfold SaboreAnalytics.gerar_relatorio_completo, Spec.relatorio_de,
    Spec.metricas_de, SaboreAnalytics.calcular_metricas_principais,
    SaboreAnalytics.analise_tendencia_vendas,
    DataProcessor.calcular_crescimento_vendas,
    SaboreAnalytics.io_bind, SaboreAnalytics.io_ret, now.
  destruct pedidos as [|p pedidos]; cbn [Spec.leituras_antes].
  - cbn [reads readings bind fst].
    rewrite Nat.add_0_r.
    destruct (SaboreAnalytics.tendencia_em (readings c (reads c)) []
                DataProcessor.dias_padrao); cbn [bind fst readings reads].
    + rewrite Nat.add_1_r. reflexivity.
    + reflexivity.
  - cbn [reads readings].
    destruct (DataProcessor.crescimento_em (readings c (reads c))
                (p :: pedidos) DataProcessor.dias_padrao);
      cbn [bind fst readings reads]; [|reflexivity].
    rewrite Nat.add_1_r.
    destruct (SaboreAnalytics.tendencia_em (readings c (S (reads c)))
                (p :: pedidos) DataProcessor.dias_padrao);
      cbn [bind fst readings reads]; [|reflexivity].
    rewrite Nat.add_1_r. reflexivity.
Qed.

Lemma metricas_de_inv (pedidos : list Pedido.t) (t : naive)
    (m : SaboreAnalytics.metricas) :
  Spec.metricas_de pedidos t = Ok m ->
  SaboreAnalytics.vendas_totais m = DataProcessor.calcular_vendas_totais pedidos
  /\ SaboreAnalytics.ticket_medio m = DataProcessor.calcular_ticket_medio pedidos
  /\ SaboreAnalytics.total_pedidos m = Z.of_nat (List.length pedidos).
Proof.
  unfold Spec.metricas_de. destruct pedidos as [|p pedidos].
  - intro H; injection H as <-. repeat split; reflexivity.
  - destruct (DataProcessor.crescimento_em t (p :: pedidos)
                DataProcessor.dias_padrao); [|discriminate].
    cbn [bind]. intro H; injection H as <-.
    cbn [SaboreAnalytics.vendas_totais SaboreAnalytics.ticket_medio
         SaboreAnalytics.total_pedidos].
    split; [reflexivity|]. split; [|reflexivity].
    unfold DataProcessor.calcular_ticket_medio, of_nat.
    replace (0 <? Z.of_nat (List.length (p :: pedidos))) with true
      by (symmetry; apply Z.ltb_lt; simpl List.length; lia).
    reflexivity.
Qed.

Lemma relatorio_de_inv (pedidos : list Pedido.t) (t1 t2 t3 : naive)
    (r : SaboreAnalytics.relatorio) :
  Spec.relatorio_de pedidos t1 t2 t3 = Ok r ->
  exists m t,
    Spec.metricas_de pedidos t1 = Ok m
    /\ r = SaboreAnalytics.mk_relatorio m
             (SaboreAnalytics.calcular_estatisticas_avancadas pedidos) t
             (SaboreAnalytics.previsao_vendas_simples pedidos
                DataProcessor.dias_futuros_padrao)
             (DataProcessor.horarios_pico pedidos)
             (DataProcessor.dias_semana_performance pedidos)
             (DataProcessor.itens_mais_populares pedidos
                DataProcessor.limite_padrao)
             (DataProcessor.agrupar_por_periodo pedidos "dia")
             (DataProcessor.agrupar_por_periodo pedidos "semana")
             (DataProcessor.agrupar_por_periodo pedidos "mes")
             (isoformat t3).
Proof.
  unfold Spec.relatorio_de.
  destruct (Spec.metricas_de pedidos t1) as [m|]; [|discriminate].
  cbn [bind].
  destruct (SaboreAnalytics.tendencia_em t2 pedidos DataProcessor.dias_padrao)
    as [t|]; [|discriminate].
  cbn [bind]. intro H; injection H as <-.
  exists m, t. split; reflexivity.
Qed.

End Report.

(** C9, as the code has it.  The report is a function of the batch and
    of the readings of the clock made while it is built.  Two invocations
    on the same batch that return agree on the total of sales, the average
    ticket, the number of orders, the advanced statistics, the forecast,
    the peak hours, the performance by weekday, the ranking of items and
    the three breakdowns by period; the growth rate, the trend and the
    time of generation follow the clock, and two invocations that read the
    same three values from it yield the same outcome. *)
Theorem C9_relatorio_depende_do_relogio :
  forall {lib : Lib} (pedidos : list Pedido.t) (c1 c2 : clock)
         (r1 r2 : SaboreAnalytics.relatorio),
    fst (SaboreAnalytics.gerar_relatorio_completo pedidos c1) = Ok r1 ->
    fst (SaboreAnalytics.gerar_relatorio_completo pedidos c2) = Ok r2 ->
    (SaboreAnalytics.vendas_totais (SaboreAnalytics.r_metricas_principais r1)
     = SaboreAnalytics.vendas_totais (SaboreAnalytics.r_metricas_principais r2)
     /\ SaboreAnalytics.ticket_medio (SaboreAnalytics.r_metricas_principais r1)
        = SaboreAnalytics.ticket_medio
            (SaboreAnalytics.r_metricas_principais r2)
     /\ SaboreAnalytics.total_pedidos (SaboreAnalytics.r_metricas_principais r1)
        = SaboreAnalytics.total_pedidos
            (SaboreAnalytics.r_metricas_principais r2)
     /\ SaboreAnalytics.r_estatisticas_avancadas r1
        = SaboreAnalytics.r_estatisticas_avancadas r2
     /\ SaboreAnalytics.r_previsao_vendas r1
        = SaboreAnalytics.r_previsao_vendas r2
     /\ SaboreAnalytics.r_horarios_pico r1 = SaboreAnalytics.r_horarios_pico r2
     /\ SaboreAnalytics.r_dias_semana_performance r1
        = SaboreAnalytics.r_dias_semana_performance r2
     /\ SaboreAnalytics.r_itens_mais_vendidos r1
        = SaboreAnalytics.r_itens_mais_vendidos r2
     /\ SaboreAnalytics.r_vendas_por_dia r1
        = SaboreAnalytics.r_vendas_por_dia r2
     /\ SaboreAnalytics.r_vendas_por_semana r1
        = SaboreAnalytics.r_vendas_por_semana r2
     /\ SaboreAnalytics.r_vendas_por_mes r1
        = SaboreAnalytics.r_vendas_por_mes r2)
    /\ ((forall i : nat,
           (i < 3)%nat ->
           readings c1 (reads c1 + i) = readings c2 (reads c2 + i)) ->
        r1 = r2).
Proof.
  intros lib pedidos c1 c2 r1 r2 H1 H2.
  rewrite gerar_relatorio_completo_run in H1, H2. cbv zeta in H1, H2.
  split.
  - apply relatorio_de_inv in H1, H2.
    destruct H1 as (m1 & t1 & Hm1 & ->). destruct H2 as (m2 & t2 & Hm2 & ->).
    apply metricas_de_inv in Hm1, Hm2.
    destruct Hm1 as (A1 & B1 & C1). destruct Hm2 as (A2 & B2 & C2).
    cbn. repeat split; congruence.
  - intro Hc.
    assert (Hk : (Spec.leituras_antes pedidos < 2)%nat)
      by (destruct pedidos; simpl; lia).
    pose proof (Hc 0%nat ltac:(lia)) as E0. rewrite !Nat.add_0_r in E0.
    pose proof (Hc (Spec.leituras_antes pedidos) ltac:(lia)) as E1.
    pose proof (Hc (Spec.leituras_antes pedidos + 1)%nat ltac:(lia)) as E2.
    rewrite !Nat.add_assoc in E2.
    rewrite E0, E1, E2 in H1. congruence.
Qed.

Lemma C9_relatorio_depende_do_relogio_witness :
  exists r1 r2 : SaboreAnalytics.relatorio,
    fst (SaboreAnalytics.gerar_relatorio_completo (lib := Reference.lib)
           Samples.tres_pedidos Samples.relogio_parado) = Ok r1
    /\ fst (SaboreAnalytics.gerar_relatorio_completo (lib := Reference.lib)
              Samples.tres_pedidos Samples.relogio_que_avanca) = Ok r2
    /\ SaboreAnalytics.r_previsao_vendas r1
       = SaboreAnalytics.r_previsao_vendas r2
    /\ r1 = r2.
Proof.
  eexists; eexists.
  split; [vm_compute; reflexivity|].
  split; [vm_compute; reflexivity|].
  match goal with
  | |- _ ?a = _ ?b /\ _ =>
      pose proof (C9_relatorio_depende_do_relogio (lib := Reference.lib)
                    Samples.tres_pedidos Samples.relogio_parado
                    Samples.relogio_que_avanca a b
                    ltac:(vm_compute; reflexivity)
                    ltac:(vm_compute; reflexivity)) as H
  end.
  destruct H as [(_ & _ & _ & _ & Hp & _) Heq].
  split; [exact Hp|].
  apply Heq. intros i Hi.
  destruct i as [|[|[|i]]]; try reflexivity. lia.
Defined.

(** C9, read as "the same batch always yields the same report", fails:
    the same batch, reported twice in a row while the clock moves on,
    gives two different reports.  The order of 2024-06-10 is in the
    current window of the first report (growth 100) and in the previous
    window of the second (growth -100), and the times of generation
    differ. *)
Lemma C9_counterexample :
  let run1 :=
    SaboreAnalytics.gerar_relatorio_completo (lib := Reference.lib)
      [Samples.pedido_local] Samples.relogio_que_avanca in
  let run2 :=
    SaboreAnalytics.gerar_relatorio_completo (lib := Reference.lib)
      [Samples.pedido_local] (snd run1) in
  (exists r1 r2 : SaboreAnalytics.relatorio,
     fst run1 = Ok r1 /\ fst run2 = Ok r2
     /\ SaboreAnalytics.crescimento_percentual
          (SaboreAnalytics.r_metricas_principais r1) = of_Z 100
     /\ SaboreAnalytics.crescimento_percentual
          (SaboreAnalytics.r_metricas_principais r2) = of_Z (-100)
     /\ SaboreAnalytics.r_data_geracao r1 = "2024-06-15T00:00:00"%string
     /\ SaboreAnalytics.r_data_geracao r2 = "2024-07-20T00:00:00"%string)
  /\ fst run1 <> fst run2.
Proof.
  intros run1 run2. split.
  - eexists; eexists.
    split; [vm_compute; reflexivity|].
    split; [vm_compute; reflexivity|].
    split; [qc_eq|]. split; [qc_eq|]. split; reflexivity.
  - intro H.
    apply (f_equal
             (fun r =>
                match r with
                | Ok x => SaboreAnalytics.r_data_geracao x
                | Raise _ => EmptyString
                end)) in H.
    vm_compute in H. discriminate H.
Qed.

(** * Further properties of the engine *)

(** ** Lookup in the accumulated dictionaries *)

Section DictLookup.
Context {K V : Type} (eqb : K -> K -> bool).
Hypothesis eqb_spec : forall a b, reflect (a = b) (eqb a b).

Lemma eqb_refl_of_spec (a : K) : eqb a a = true.
Proof. destruct (eqb_spec a a); congruence. Qed.

Lemma eqb_eq_of_spec (a b : K) : eqb a b = true <-> a = b.
Proof. destruct (eqb_spec a b); split; congruence. Qed.

Lemma dict_get_in (k : K) (d : dict (K := K) (V := V)) :
  dict_in eqb k d = match dict_get eqb k d with Some _ => true | None => false end.
Proof.
  induction d as [|[k' v] d IH]; simpl; [reflexivity|].
  destruct (eqb k k'); [reflexivity | exact IH].
Qed.

Lemma dict_get_adjust (k k' : K) (f : V -> V) (d : dict (K := K) (V := V)) :
  dict_get eqb k' (dict_adjust eqb k f d)
  = if eqb k' k then option_map f (dict_get eqb k d) else dict_get eqb k' d.
Proof.
  induction d as [|[k0 v0] d IH]; simpl.
  - destruct (eqb k' k); reflexivity.
  - destruct (eqb_spec k k0) as [->|Hk]; simpl.
    + destruct (eqb_spec k' k0) as [->|Hk']; reflexivity.
    + destruct (eqb_spec k' k0) as [->|Hk']; simpl.
      * destruct (eqb_spec k0 k); [congruence | reflexivity].
      * exact IH.
Qed.

Lemma dict_get_snoc (k k' : K) (z : V) (d : dict (K := K) (V := V)) :
  dict_get eqb k' (d ++ [(k, z)])
  = match dict_get eqb k' d with
    | Some v => Some v
    | None => if eqb k' k then Some z else None
    end.
Proof.
  induction d as [|[k0 v0] d IH]; simpl; [reflexivity|].
  destruct (eqb k' k0); [reflexivity | exact IH].
Qed.

(** Lookup after [if k not in d: d[k] = zero] and [d[k] = f(d[k])]. *)
Lemma dict_get_accum (k k' : K) (z : V) (f : V -> V)
    (d : dict (K := K) (V := V)) :
  dict_get eqb k' (dict_accum eqb k z f d)
  = if eqb k' k then Some (f (get (dict_get eqb k d) z))
    else dict_get eqb k' d.
Proof.
  unfold dict_accum. rewrite dict_get_adjust.
  destruct (dict_in eqb k d) eqn:E.
  - rewrite dict_get_in in E.
    destruct (dict_get eqb k d); [|discriminate].
    destruct (eqb k' k); reflexivity.
  - rewrite (keys_dict_set_new eqb k z d E), !dict_get_snoc.
    rewrite dict_get_in in E.
    destruct (dict_get eqb k d); [discriminate|].
    rewrite eqb_refl_of_spec. simpl.
    destruct (eqb_spec k' k) as [->|Hk]; [reflexivity|].
    destruct (dict_get eqb k' d); reflexivity.
Qed.

Lemma dict_get_Some_In (k : K) (v : V) (d : dict (K := K) (V := V)) :
  NoDup (keys d) -> (dict_get eqb k d = Some v <-> In (k, v) d).
Proof.
  induction d as [|[k0 v0] d IH]; simpl; intro Hn.
  - split; [discriminate | tauto].
  - inversion Hn as [|? ? Hk Hn']; subst.
    destruct (eqb_spec k k0) as [->|Hne].
    + split.
      * intro H; injection H as ->. left; reflexivity.
      * intros [H|H]; [congruence|].
        exfalso. apply Hk. apply (in_map fst) in H. exact H.
    + rewrite (IH Hn'). split; [tauto|].
      intros [H|H]; [congruence | exact H].
Qed.

Lemma dict_get_Permutation (k : K) (d d' : dict (K := K) (V := V)) :
  NoDup (keys d) -> Permutation d d' ->
  dict_get eqb k d' = dict_get eqb k d.
Proof.
  intros Hn Hp.
  assert (Hn' : NoDup (keys d')).
  { eapply Permutation_NoDup; [apply Permutation_map; exact Hp | exact Hn]. }
  destruct (dict_get eqb k d) as [v|] eqn:E.
  - apply (dict_get_Some_In k v d' Hn').
    eapply Permutation_in; [exact Hp|].
    apply (dict_get_Some_In k v d Hn). exact E.
  - destruct (dict_get eqb k d') as [v'|] eqn:E'; [|reflexivity].
    apply (dict_get_Some_In k v' d' Hn') in E'.
    apply (Permutation_in _ (Permutation_sym Hp)) in E'.
    apply (dict_get_Some_In k v' d Hn) in E'. congruence.
Qed.

End DictLookup.

(** ** The loops that accumulate under a key of the timestamp *)

Section KeyedLoop.
Context {lib : Lib} {K V : Type} (eqb : K -> K -> bool).
Hypothesis eqb_spec : forall a b, reflect (a = b) (eqb a b).
Variable chave : datetime -> K.
Variable zero : V.
Variable step : Pedido.t -> V -> V.

Local Abbreviation body :=
  (fun acc pedido =>
     bind (DataProcessor.converter (Pedido.data_pedido pedido)) (fun o =>
     bind (DataProcessor.attr o) (fun data =>
     Ok (dict_accum eqb (chave data) zero (step pedido) acc)))).

Lemma keyed_loop_step (acc : dict (K := K) (V := V)) (p : Pedido.t) :
  (if DataProcessor.falsy (Pedido.data_pedido p) then acc
   else match body acc p with Ok s' => s' | Raise _ => acc end)
  = match Spec.timestamp p with
    | Some d => dict_accum eqb (chave d) zero (step p) acc
    | None => acc
    end.
Proof.
  unfold Spec.timestamp.
  destruct (DataProcessor.falsy (Pedido.data_pedido p)); [reflexivity|].
  destruct (DataProcessor.converter (Pedido.data_pedido p)) as [[d|]|e];
    reflexivity.
Qed.

Lemma keyed_loop_NoDup (pedidos : list Pedido.t)
    (acc0 : dict (K := K) (V := V)) :
  NoDup (keys acc0) ->
  NoDup (keys (DataProcessor.for_each_dated body pedidos acc0)).
Proof.
  revert acc0. unfold DataProcessor.for_each_dated.
  induction pedidos as [|p pedidos IH]; intros acc0 Hn; simpl; [exact Hn|].
  apply IH. rewrite keyed_loop_step.
  destruct (Spec.timestamp p); [|exact Hn].
  apply NoDup_dict_accum; [apply eqb_eq_of_spec; exact eqb_spec | exact Hn].
Qed.

(** The value found under [k] after the loop: the steps of the orders
    with that key, applied in the order of the batch to the value that was
    there, or to [zero]. *)
Lemma keyed_loop_get (pedidos : list Pedido.t)
    (acc0 : dict (K := K) (V := V)) (k : K) :
  dict_get eqb k (DataProcessor.for_each_dated body pedidos acc0)
  = match Spec.com_chave eqb chave k pedidos with
    | [] => dict_get eqb k acc0
    | grupo =>
        Some (fold_left (fun v p => step p v) grupo
                (get (dict_get eqb k acc0) zero))
    end.
Proof.
  revert acc0. unfold DataProcessor.for_each_dated, Spec.com_chave.
  induction pedidos as [|p pedidos IH]; intro acc0; simpl; [reflexivity|].
  rewrite IH, keyed_loop_step. clear IH.
  destruct (Spec.timestamp p) as [d|]; [|reflexivity].
  rewrite (dict_get_accum eqb eqb_spec).
  destruct (eqb_spec (chave d) k) as [E|E].
  - subst k. rewrite (eqb_refl_of_spec eqb eqb_spec). simpl.
    destruct (filter _ pedidos); reflexivity.
  - destruct (eqb_spec k (chave d)) as [E'|_]; [congruence|].
    reflexivity.
Qed.

End KeyedLoop.

Lemma fold_left_add_valor (grupo : list Pedido.t) (acc : Qc) :
  fold_left
    (fun v p => (v + get (Pedido.valor_total p) (of_Z 0))%Qc) grupo acc
  = fold_left Qcplus (map Spec.valor_total grupo) acc.
Proof.
  revert acc. induction grupo as [|p grupo IH]; intro acc; simpl;
    [reflexivity | apply IH].
Qed.

Lemma fold_left_count {A} (grupo : list A) (acc : Z) :
  fold_left (fun n _ => n + 1) grupo acc = acc + Z.of_nat (List.length grupo).
Proof.
  revert acc. induction grupo as [|p grupo IH]; intro acc.
  - simpl. lia.
  - simpl fold_left. rewrite IH. simpl List.length. lia.
Qed.

Lemma lt_item_int_asym (a b : Z * Z) :
  DataProcessor.lt_item_int a b = true -> DataProcessor.lt_item_int b a = false.
Proof. unfold DataProcessor.lt_item_int. lia. Qed.

Lemma Sorted_keys_int (d : dict (K := Z) (V := Z)) :
  Sorted (ordered DataProcessor.lt_item_int) d ->
  NoDup (keys d) ->
  StronglySorted Z.lt (keys d).
Proof.
  intros Hs Hn. apply Sorted_StronglySorted.
  { intros a b c. apply Z.lt_trans. }
  induction Hs as [|[k v] d Hs IH Hh]; simpl.
  - constructor.
  - inversion Hn as [|? ? Hk Hn']; subst.
    constructor; [apply IH; exact Hn'|].
    destruct Hh as [|[k' v'] d' Hh]; simpl; constructor.
    unfold ordered, DataProcessor.lt_item_int in Hh. simpl in Hh.
    assert (k <> k') by (intros ->; apply Hk; left; reflexivity).
    lia.
Qed.

Section DictSums.
Context {K : Type} (eqb : K -> K -> bool).

Lemma soma_app (xs ys : list Z) :
  Spec.soma (xs ++ ys) = Spec.soma xs + Spec.soma ys.
Proof. induction xs as [|x xs IH]; simpl; [reflexivity | rewrite IH; lia]. Qed.

Lemma soma_dict_adjust (k : K) (x : Z) (d : dict (K := K) (V := Z)) :
  dict_in eqb k d = true ->
  Spec.soma (values (dict_adjust eqb k (fun n => n + x) d))
  = Spec.soma (values d) + x.
Proof.
  induction d as [|[k' v] d IH]; simpl; [discriminate|].
  destruct (eqb k k'); simpl; intro H; [lia|].
  rewrite IH by exact H. lia.
Qed.

Lemma soma_dict_accum (k : K) (x : Z) (d : dict (K := K) (V := Z)) :
  (forall a, eqb a a = true) ->
  Spec.soma (values (dict_accum eqb k 0 (fun n => n + x) d))
  = Spec.soma (values d) + x.
Proof.
  intro Hr. unfold dict_accum.
  destruct (dict_in eqb k d) eqn:E.
  - apply soma_dict_adjust; exact E.
  - rewrite soma_dict_adjust.
    + rewrite keys_dict_set_new by exact E.
      unfold values. rewrite map_app, soma_app. simpl. lia.
    + rewrite keys_dict_set_new by exact E.
      clear E. induction d as [|[k' v'] d IH]; simpl.
      * rewrite Hr; reflexivity.
      * destruct (eqb k k'); [reflexivity | exact IH].
Qed.

End DictSums.

Section Aggregations.
Context {lib : Lib}.

Lemma Permutation_soma (xs ys : list Z) :
  Permutation xs ys -> Spec.soma xs = Spec.soma ys.
Proof. induction 1; simpl; lia. Qed.

Lemma horarios_loop_soma (pedidos : list Pedido.t)
    (acc0 : dict (K := Z) (V := Z)) :
  Spec.soma
    (values
       (DataProcessor.for_each_dated
          (fun contador pedido =>
             bind (DataProcessor.converter (Pedido.data_pedido pedido))
               (fun o =>
             bind (DataProcessor.attr o) (fun data_pedido =>
             Ok (dict_accum Z.eqb (hour (campos data_pedido)) 0
                   (fun n => n + 1) contador))))
          pedidos acc0))
  = Spec.soma (values acc0)
    + Z.of_nat (List.length (filter Spec.datado pedidos)).
Proof.
  revert acc0. unfold DataProcessor.for_each_dated.
  induction pedidos as [|p pedidos IH]; intro acc0; simpl; [lia|].
  rewrite IH.
  rewrite (keyed_loop_step Z.eqb (fun d => hour (campos d)) 0
             (fun _ n => n + 1) acc0 p).
  unfold Spec.datado. destruct (Spec.timestamp p); [|lia].
  rewrite soma_dict_accum by apply Z.eqb_refl.
  simpl List.length. lia.
Qed.

Lemma for_each_dated_ext {S : Type} (body1 body2 : S -> Pedido.t -> result S)
    (pedidos : list Pedido.t) (s0 : S) :
  (forall s p, body1 s p = body2 s p) ->
  DataProcessor.for_each_dated body1 pedidos s0
  = DataProcessor.for_each_dated body2 pedidos s0.
Proof.
  intro H. revert s0. unfold DataProcessor.for_each_dated.
  induction pedidos as [|p pedidos IH]; intro s0; simpl; [reflexivity|].
  rewrite H. apply IH.
Qed.

Lemma key_of_dated_order {K : Type} (eqb : K -> K -> bool)
    (eqb_spec : forall a b, reflect (a = b) (eqb a b))
    (chave : datetime -> K) (k : K) (pedidos : list Pedido.t) :
  Spec.com_chave eqb chave k pedidos <> [] ->
  exists p d, In p pedidos /\ Spec.timestamp p = Some d /\ chave d = k.
Proof.
  unfold Spec.com_chave. intro H.
  destruct (filter _ pedidos) as [|p g] eqn:E; [congruence|].
  assert (Hin : In p (p :: g)) by (left; reflexivity).
  rewrite <- E in Hin. apply filter_In in Hin. destruct Hin as [Hin Hp].
  destruct (Spec.timestamp p) as [d|] eqn:Et; [|discriminate].
  exists p, d. split; [exact Hin|]. split; [exact Et|].
  destruct (eqb_spec (chave d) k); congruence.
Qed.

End Aggregations.

(** X1.  A bucket of [agrupar_por_periodo] exists for a key exactly when
    some order with a usable timestamp has that key, and it holds the sum
    of the [valor_total] of those orders, added in the order of the
    batch. *)
Theorem X1_agrupar_bucket :
  forall {lib : Lib} (pedidos : list Pedido.t) (tipo_periodo k : string),
    dict_get String.eqb k (DataProcessor.agrupar_por_periodo pedidos tipo_periodo)
    = match Spec.com_chave String.eqb
              (DataProcessor.chave_periodo tipo_periodo) k pedidos with
      | [] => None
      | grupo => Some (sum (map Spec.valor_total grupo))
      end.
Proof.
  intros lib pedidos tipo k. unfold DataProcessor.agrupar_por_periodo.
  rewrite (dict_get_Permutation String.eqb String.eqb_spec k _ _
             (keyed_loop_NoDup String.eqb String.eqb_spec
                (DataProcessor.chave_periodo tipo) (of_Z 0)
                (fun p v => (v + get (Pedido.valor_total p) (of_Z 0))%Qc)
                pedidos [] (NoDup_nil _))
             (Permutation_sym (sorted_Permutation _ _))).
  rewrite (keyed_loop_get String.eqb String.eqb_spec
             (DataProcessor.chave_periodo tipo) (of_Z 0)
             (fun p v => (v + get (Pedido.valor_total p) (of_Z 0))%Qc)).
  destruct (Spec.com_chave String.eqb (DataProcessor.chave_periodo tipo) k
              pedidos) as [|p g]; [reflexivity|].
  simpl dict_get. unfold get at 1. rewrite fold_left_add_valor. reflexivity.
Qed.

(** X2.  A period kind other than ["semana"] and ["mes"] groups by day. *)
Theorem X2_tipo_desconhecido_agrupa_por_dia :
  forall {lib : Lib} (pedidos : list Pedido.t) (tipo_periodo : string),
    tipo_periodo <> "semana"%string ->
    tipo_periodo <> "mes"%string ->
    DataProcessor.agrupar_por_periodo pedidos tipo_periodo
    = DataProcessor.agrupar_por_periodo pedidos "dia".
Proof.
  intros lib pedidos tipo Hs Hm.
  unfold DataProcessor.agrupar_por_periodo.
  assert (E : forall d, DataProcessor.chave_periodo tipo d
                        = DataProcessor.chave_periodo "dia" d).
  { intro d. unfold DataProcessor.chave_periodo.
    apply String.eqb_neq in Hs, Hm. rewrite Hs, Hm.
    destruct (String.eqb tipo "dia"); reflexivity. }
  f_equal. apply for_each_dated_ext. intros acc p.
  destruct (DataProcessor.converter (Pedido.data_pedido p)) as [[d|]|e];
    simpl; [rewrite E|..]; reflexivity.
Qed.

Lemma X2_tipo_desconhecido_agrupa_por_dia_witness :
  "ano"%string <> "semana"%string
  /\ "ano"%string <> "mes"%string
  /\ DataProcessor.agrupar_por_periodo (lib := Reference.lib)
       Samples.tres_pedidos "ano"
     = DataProcessor.agrupar_por_periodo (lib := Reference.lib)
         Samples.tres_pedidos "dia".
Proof.
  split; [discriminate|]. split; [discriminate|].
  apply (X2_tipo_desconhecido_agrupa_por_dia (lib := Reference.lib)
           Samples.tres_pedidos "ano"); discriminate.
Defined.

Lemma keys_dict_get {K V : Type} (eqb : K -> K -> bool)
    (eqb_spec : forall a b, reflect (a = b) (eqb a b))
    (k : K) (d : dict (K := K) (V := V)) :
  In k (keys d) <-> dict_get eqb k d <> None.
Proof.
  rewrite <- (dict_in_In eqb (eqb_eq_of_spec eqb eqb_spec)).
  rewrite dict_get_in. destruct (dict_get eqb k d); split; congruence.
Qed.

(** X3.  [horarios_pico] lists the hours in ascending order; an hour is
    listed exactly when some order with a usable timestamp was placed in
    it, with the number of those orders; and the counts add up to the
    number of orders with a usable timestamp. *)
Theorem X3_horarios_pico :
  forall {lib : Lib} (pedidos : list Pedido.t),
    let horarios := DataProcessor.horarios_pico pedidos in
    StronglySorted Z.lt (keys horarios)
    /\ (forall hora : Z,
          dict_get Z.eqb hora horarios
          = match Spec.com_chave Z.eqb (fun d => hour (campos d)) hora
                    pedidos with
            | [] => None
            | grupo => Some (Z.of_nat (List.length grupo))
            end)
    /\ Spec.soma (values horarios)
       = Z.of_nat (List.length (filter Spec.datado pedidos)).
Proof.
  intros lib pedidos horarios. subst horarios.
  unfold DataProcessor.horarios_pico.
  pose proof (keyed_loop_NoDup Z.eqb Z.eqb_spec (fun d => hour (campos d)) 0
                (fun _ n => n + 1) pedidos [] (NoDup_nil _)) as Hn.
  split; [|split].
  - apply Sorted_keys_int.
    + apply sorted_Sorted, lt_item_int_asym.
    + eapply Permutation_NoDup; [|exact Hn].
      apply Permutation_map, Permutation_sym, sorted_Permutation.
  - intro hora.
    rewrite (dict_get_Permutation Z.eqb Z.eqb_spec hora _ _ Hn
               (Permutation_sym (sorted_Permutation _ _))).
    rewrite (keyed_loop_get Z.eqb Z.eqb_spec (fun d => hour (campos d)) 0
               (fun _ n => n + 1)).
    destruct (Spec.com_chave Z.eqb (fun d => hour (campos d)) hora pedidos)
      as [|p g] eqn:E; [reflexivity|].
    rewrite fold_left_count. reflexivity.
  - unfold values.
    rewrite (Permutation_soma _ _
               (Permutation_map snd (sorted_Permutation _ _))).
    apply (horarios_loop_soma pedidos []).
Qed.

Lemma weekday_range (t : naive) : 0 <= weekday t < 7.
Proof. unfold weekday. apply Z.mod_pos_bound. lia. Qed.

Lemma day_name_In (t : naive) :
  In (day_name (weekday t))
    ["Monday"; "Tuesday"; "Wednesday"; "Thursday"; "Friday"; "Saturday";
     "Sunday"]%string.
Proof.
  pose proof (weekday_range t) as H. unfold day_name.
  assert (E : weekday t = 0 \/ weekday t = 1 \/ weekday t = 2
              \/ weekday t = 3 \/ weekday t = 4 \/ weekday t = 5
              \/ weekday t = 6) by lia.
  destruct E as [E|[E|[E|[E|[E|[E|E]]]]]]; rewrite E; simpl; tauto.
Qed.

(** X4.  [dias_semana_performance] has one entry for each weekday on
    which some order with a usable timestamp was placed, at most seven,
    named in English; the entry holds the sum of the [valor_total] of
    the orders of that weekday, and the entries add up to the
    [valor_total] of all orders with a usable timestamp. *)
Theorem X4_dias_semana_performance :
  forall {lib : Lib} (pedidos : list Pedido.t),
    let vendas := DataProcessor.dias_semana_performance pedidos in
    NoDup (keys vendas)
    /\ incl (keys vendas)
         ["Monday"; "Tuesday"; "Wednesday"; "Thursday"; "Friday"; "Saturday";
          "Sunday"]%string
    /\ (List.length vendas <= 7)%nat
    /\ (forall dia : string,
          dict_get String.eqb dia vendas
          = match Spec.com_chave String.eqb
                    (fun d => day_name (weekday (campos d))) dia pedidos with
            | [] => None
            | grupo => Some (sum (map Spec.valor_total grupo))
            end)
    /\ sum (values vendas)
       = sum (map Spec.valor_total (filter Spec.datado pedidos)).
Proof.
  intros lib pedidos vendas. subst vendas.
  unfold DataProcessor.dias_semana_performance.
  pose proof (keyed_loop_NoDup String.eqb String.eqb_spec
                (fun d => day_name (weekday (campos d))) (of_Z 0)
                (fun p v => (v + get (Pedido.valor_total p) (of_Z 0))%Qc)
                pedidos [] (NoDup_nil _)) as Hn.
  pose proof (keyed_loop_get String.eqb String.eqb_spec
                (fun d => day_name (weekday (campos d))) (of_Z 0)
                (fun p v => (v + get (Pedido.valor_total p) (of_Z 0))%Qc)
                pedidos []) as Hg.
  assert (Hincl :
    incl (keys (DataProcessor.for_each_dated
                  (fun vendas pedido =>
                     bind (DataProcessor.converter (Pedido.data_pedido pedido))
                       (fun o =>
                     bind (DataProcessor.attr o) (fun data_pedido =>
                     Ok (dict_accum String.eqb
                           (day_name (weekday (campos data_pedido))) (of_Z 0)
                           (fun v =>
                              (v + get (Pedido.valor_total pedido) (of_Z 0))%Qc)
                           vendas))))
                  pedidos []))
      ["Monday"; "Tuesday"; "Wednesday"; "Thursday"; "Friday"; "Saturday";
       "Sunday"]%string).
  { intros k Hk. apply (keys_dict_get String.eqb String.eqb_spec) in Hk.
    rewrite Hg in Hk.
    destruct (Spec.com_chave String.eqb
                (fun d => day_name (weekday (campos d))) k pedidos) eqn:E.
    - simpl in Hk. congruence.
    - destruct (key_of_dated_order String.eqb String.eqb_spec
                  (fun d => day_name (weekday (campos d))) k pedidos)
        as (p & d & _ & _ & <-); [rewrite E; discriminate|].
      apply day_name_In. }
  split; [exact Hn|]. split; [exact Hincl|]. split; [|split].
  - unfold keys in Hn, Hincl.
    rewrite <- (length_map fst).
    apply (NoDup_incl_length Hn Hincl).
  - intro dia. rewrite Hg.
    destruct (Spec.com_chave String.eqb
                (fun d => day_name (weekday (campos d))) dia pedidos)
      as [|p g]; [reflexivity|].
    simpl dict_get. unfold get at 1. rewrite fold_left_add_valor. reflexivity.
  - rewrite !sum_total.
    destruct (por_chave_inv (fun d => day_name (weekday (campos d))) pedidos [])
      as [_ H]; [constructor|].
    rewrite H. simpl. rewrite of_Z_0. ring.
Qed.

(** X5.  [analise_sazonalidade] has one entry for each month name of an
    order with a usable timestamp, holding the sum of the [valor_total]
    of the orders of that month of any year; the entries add up to the
    [valor_total] of all orders with a usable timestamp; and the
    parameter [meses] has no effect. *)
Theorem X5_analise_sazonalidade :
  forall {lib : Lib} (pedidos : list Pedido.t) (meses meses' : Z),
    let vendas := DataProcessor.analise_sazonalidade pedidos meses in
    NoDup (keys vendas)
    /\ (forall mes : string,
          dict_get String.eqb mes vendas
          = match Spec.com_chave String.eqb
                    (fun d => month_name (month (campos d))) mes pedidos with
            | [] => None
            | grupo => Some (sum (map Spec.valor_total grupo))
            end)
    /\ sum (values vendas)
       = sum (map Spec.valor_total (filter Spec.datado pedidos))
    /\ DataProcessor.analise_sazonalidade pedidos meses' = vendas.
Proof.
  intros lib pedidos meses meses' vendas. subst vendas.
  unfold DataProcessor.analise_sazonalidade.
  split; [|split; [|split]].
  - apply (keyed_loop_NoDup String.eqb String.eqb_spec
             (fun d => month_name (month (campos d))) (of_Z 0)
             (fun p v => (v + get (Pedido.valor_total p) (of_Z 0))%Qc)
             pedidos [] (NoDup_nil _)).
  - intro mes.
    rewrite (keyed_loop_get String.eqb String.eqb_spec
               (fun d => month_name (month (campos d))) (of_Z 0)
               (fun p v => (v + get (Pedido.valor_total p) (of_Z 0))%Qc)).
    destruct (Spec.com_chave String.eqb
                (fun d => month_name (month (campos d))) mes pedidos)
      as [|p g]; [reflexivity|].
    simpl dict_get. unfold get at 1. rewrite fold_left_add_valor. reflexivity.
  - rewrite !sum_total.
    destruct (por_chave_inv (fun d => month_name (month (campos d))) pedidos [])
      as [_ H]; [constructor|].
    rewrite H. simpl. rewrite of_Z_0. ring.
  - reflexivity.
Qed.

(** ** The totals of the ranking *)

Section RankingTotals.

Local Abbreviation upd :=
  (fun (e : Entrada.t) (i : Item.t) =>
     Entrada.mk (Entrada.quantidade_total e + Spec.quantidade i)
       (Entrada.valor_total e + Spec.preco i * of_Z (Spec.quantidade i))%Qc
       (Entrada.nome e)).

Lemma contar_item_accum (c : dict (K := string) (V := Entrada.t))
    (i : Item.t) :
  DataProcessor.contar_item c i
  = dict_accum String.eqb (Spec.nome_do_item i)
      (Entrada.mk 0 (of_Z 0) (Spec.nome_do_item i)) (fun e => upd e i) c.
Proof. reflexivity. Qed.

Lemma contar_NoDup (itens : list Item.t)
    (c : dict (K := string) (V := Entrada.t)) :
  NoDup (keys c) -> NoDup (keys (fold_left DataProcessor.contar_item itens c)).
Proof.
  revert c. induction itens as [|i itens IH]; intros c Hn; simpl; [exact Hn|].
  apply IH. rewrite contar_item_accum.
  apply NoDup_dict_accum; [apply String.eqb_eq | exact Hn].
Qed.

Lemma contar_get (itens : list Item.t)
    (c : dict (K := string) (V := Entrada.t)) (k : string) :
  dict_get String.eqb k (fold_left DataProcessor.contar_item itens c)
  = match filter (fun i => String.eqb (Spec.nome_do_item i) k) itens with
    | [] => dict_get String.eqb k c
    | grupo =>
        Some (fold_left upd grupo
                (get (dict_get String.eqb k c) (Entrada.mk 0 (of_Z 0) k)))
    end.
Proof.
  revert c. induction itens as [|i itens IH]; intro c; simpl; [reflexivity|].
  rewrite IH, contar_item_accum. clear IH.
  rewrite (dict_get_accum String.eqb String.eqb_spec).
  destruct (String.eqb_spec (Spec.nome_do_item i) k) as [E|E].
  - subst k. rewrite String.eqb_refl. simpl.
    destruct (filter _ itens); reflexivity.
  - destruct (String.eqb_spec k (Spec.nome_do_item i)) as [E'|_];
      [congruence | reflexivity].
Qed.

Lemma upd_fold (grupo : list Item.t) (e : Entrada.t) :
  fold_left upd grupo e
  = Entrada.mk
      (Entrada.quantidade_total e + Spec.soma (map Spec.quantidade grupo))
      (Entrada.valor_total e
       + Spec.total
           (map (fun i => (Spec.preco i * of_Z (Spec.quantidade i))%Qc) grupo))%Qc
      (Entrada.nome e).
Proof.
  revert e. induction grupo as [|i grupo IH]; intro e; simpl.
  - destruct e as [q v n]; simpl. f_equal; [lia | rewrite of_Z_0; ring].
  - rewrite IH. simpl. f_equal; [lia | ring].
Qed.

Lemma contador_itens_get (pedidos : list Pedido.t) (k : string) :
  dict_get String.eqb k (DataProcessor.contador_itens pedidos)
  = match Spec.itens_de k pedidos with
    | [] => None
    | _ => Some (Entrada.mk (Spec.quantidade_de k pedidos)
                   (Spec.valor_de k pedidos) k)
    end.
Proof.
  rewrite contador_itens_flat, contar_get.
  unfold Spec.quantidade_de, Spec.valor_de, Spec.itens_de.
  destruct (filter _ (Spec.todos_os_itens pedidos)) as [|i g];
    [reflexivity|].
  rewrite upd_fold. simpl get. cbn [Entrada.quantidade_total
    Entrada.valor_total Entrada.nome].
  rewrite Z.add_0_l.
  match goal with
  | |- context [(of_Z 0 + ?t)%Qc] =>
      replace (of_Z 0 + t)%Qc with t by (rewrite of_Z_0; ring)
  end.
  reflexivity.
Qed.

Lemma contador_itens_NoDup (pedidos : list Pedido.t) :
  NoDup (keys (DataProcessor.contador_itens pedidos)).
Proof. rewrite contador_itens_flat. apply contar_NoDup. constructor. Qed.

Lemma NoDup_firstn {A} (n : nat) (l : list A) : NoDup l -> NoDup (firstn n l).
Proof.
  intro H. rewrite <- (firstn_skipn n l) in H.
  apply NoDup_app_remove_r in H. exact H.
Qed.

Lemma In_firstn {A} (x : A) (n : nat) (l : list A) :
  In x (firstn n l) -> In x l.
Proof.
  intro H. rewrite <- (firstn_skipn n l). apply in_or_app. left. exact H.
Qed.

End RankingTotals.

(** X6.  Every entry of the ranking carries the totals of its item name
    over the whole batch: the sum of the quantities (1 when missing) and
    the sum of price times quantity, the price being ['preco_unitario'],
    else ['valor'], else 0.  No name appears twice, and with a limit that
    is not smaller than the number of distinct names every name of the
    batch is ranked. *)
Theorem X6_itens_mais_populares_totais :
  forall (pedidos : list Pedido.t) (limite : Z),
    let ranking := DataProcessor.itens_mais_populares pedidos limite in
    (forall e : Entrada.t,
       In e ranking ->
       In (Entrada.nome e) (Spec.nomes pedidos)
       /\ Entrada.quantidade_total e
          = Spec.quantidade_de (Entrada.nome e) pedidos
       /\ Entrada.valor_total e = Spec.valor_de (Entrada.nome e) pedidos)
    /\ NoDup (map Entrada.nome ranking)
    /\ (Z.of_nat (List.length (DataProcessor.contador_itens pedidos)) <= limite ->
        forall nome : string,
          In nome (Spec.nomes pedidos) ->
          In (Entrada.mk (Spec.quantidade_de nome pedidos)
                (Spec.valor_de nome pedidos) nome) ranking).
Proof.
  intros pedidos limite ranking. subst ranking.
  unfold DataProcessor.itens_mais_populares.
  destruct (contador_itens_inv pedidos) as (Hnome & Hkeys & _).
  pose proof (contador_itens_NoDup pedidos) as Hn.
  assert (Hentry : forall k e,
            In (k, e) (DataProcessor.contador_itens pedidos) ->
            In k (Spec.nomes pedidos)
            /\ e = Entrada.mk (Spec.quantidade_de k pedidos)
                     (Spec.valor_de k pedidos) k).
  { intros k e Hin. split.
    - apply Hkeys. apply (in_map fst) in Hin. exact Hin.
    - apply (dict_get_Some_In String.eqb String.eqb_spec k e _ Hn) in Hin.
      rewrite contador_itens_get in Hin.
      destruct (Spec.itens_de k pedidos); [discriminate|].
      injection Hin as <-. reflexivity. }
  split; [|split].
  - intros e He.
    destruct (slice_to_prefix
                (sorted DataProcessor.gt_quantidade
                   (values (DataProcessor.contador_itens pedidos))) limite)
      as [n Hslice].
    rewrite Hslice in He. apply In_firstn in He.
    apply (Permutation_in _ (sorted_Permutation _ _)) in He.
    unfold values in He. apply in_map_iff in He.
    destruct He as ([k e'] & <- & Hin). simpl.
    destruct (Hentry k e' Hin) as [Hk ->]. simpl. tauto.
  - destruct (slice_to_prefix
                (sorted DataProcessor.gt_quantidade
                   (values (DataProcessor.contador_itens pedidos))) limite)
      as [n Hslice].
    rewrite Hslice, <- firstn_map. apply NoDup_firstn.
    eapply Permutation_NoDup.
    + apply Permutation_map, Permutation_sym, sorted_Permutation.
    + rewrite Hnome. exact Hn.
  - intros Hl nome Hnomes.
    rewrite slice_to_firstn by lia.
    rewrite firstn_all2.
    2:{ rewrite sorted_length. unfold values. rewrite length_map. lia. }
    apply (Permutation_in _ (Permutation_sym (sorted_Permutation _ _))).
    apply Hkeys in Hnomes. unfold keys in Hnomes.
    apply in_map_iff in Hnomes. destruct Hnomes as ([k e] & Hk & Hin).
    simpl in Hk. subst k.
    destruct (Hentry nome e Hin) as [_ He]. subst e.
    unfold values. apply in_map_iff.
    eexists. split; [|exact Hin]. reflexivity.
Qed.

(** ** The growth rate *)

Section GrowthFacts.
Context {lib : Lib}.

Lemma sub_days_time (t t' : naive) (dias : Z) :
  sub_days t dias = Ok t' ->
  hour t' = hour t /\ minute t' = minute t /\ second t' = second t
  /\ microsecond t' = microsecond t.
Proof.
  unfold sub_days.
  destruct ((dias <? -999999999) || (999999999 <? dias)); [discriminate|].
  destruct ((0 <? toordinal t - dias) && (toordinal t - dias <=? MAXORDINAL));
    [|discriminate].
  destruct (ord2ymd (toordinal t - dias)) as [[y m] d].
  intro H; injection H as <-. simpl. tauto.
Qed.

Lemma sub_days_Raise (t : naive) (dias : Z) :
  toordinal t - dias <= 0 \/ MAXORDINAL < toordinal t - dias ->
  sub_days t dias = Raise OverflowError.
Proof.
  intro H. unfold sub_days.
  destruct ((dias <? -999999999) || (999999999 <? dias)); [reflexivity|].
  replace ((0 <? toordinal t - dias) && (toordinal t - dias <=? MAXORDINAL))
    with false; [reflexivity|].
  symmetry. apply andb_false_iff. lia.
Qed.

(** Every failure of [sub_days] is an [OverflowError]. *)
Lemma sub_days_only_overflow (t : naive) (dias : Z) (e : exn) :
  sub_days t dias = Raise e -> e = OverflowError.
Proof.
  unfold sub_days.
  destruct ((dias <? -999999999) || (999999999 <? dias)); [congruence|].
  destruct ((0 <? toordinal t - dias) && (toordinal t - dias <=? MAXORDINAL));
    [|congruence].
  destruct (ord2ymd (toordinal t - dias)) as [[y m] d]. discriminate.
Qed.

Lemma crescimento_em_overflow (agora : naive) (pedidos : list Pedido.t)
    (dias : Z) :
  0 <= dias ->
  1 <= toordinal agora <= MAXORDINAL ->
  toordinal agora <= 2 * dias ->
  DataProcessor.crescimento_em agora pedidos dias = Raise OverflowError.
Proof.
  intros Hd Ha H2. unfold DataProcessor.crescimento_em.
  destruct (sub_days agora dias) as [pa|e] eqn:E1; simpl.
  - assert (Hpa : toordinal pa = toordinal agora - dias).
    { destruct (Z_le_gt_dec (toordinal agora - dias) 0) as [Hle|Hgt].
      - rewrite sub_days_Raise in E1 by lia. discriminate.
      - destruct (Z_le_gt_dec dias 999999999) as [Hb|Hb].
        + destruct (sub_days_Ok agora dias) as (t' & Ht & Ho);
            [lia | lia |]. congruence.
        + unfold sub_days in E1.
          replace ((dias <? -999999999) || (999999999 <? dias)) with true
            in E1 by (symmetry; apply orb_true_iff; lia).
          discriminate. }
    rewrite sub_days_Raise by lia. reflexivity.
  - apply sub_days_only_overflow in E1. subst e. reflexivity.
Qed.

Lemma janelas_disjoint (pa pant : naive) (p : Pedido.t) :
  Spec.na_janela_atual pa p = true ->
  Spec.na_janela_anterior pa pant p = false.
Proof.
  unfold Spec.na_janela_atual, Spec.na_janela_anterior.
  destruct (Spec.naive_timestamp p); [|reflexivity].
  intros ->. reflexivity.
Qed.

End GrowthFacts.

(** X7.  The loop of [calcular_crescimento_vendas] keeps the orders of
    each window in the order of the batch (each window is the batch with
    the orders that do not belong to it left out) and puts no order into
    both windows; an order enters a window only with a usable timestamp
    without UTC offset, on the right side of the bounds. *)
Theorem X7_janelas_disjuntas :
  forall {lib : Lib} (periodo_atual periodo_anterior : naive)
         (pedidos : list Pedido.t),
    let atual := fst (DataProcessor.janelas periodo_atual periodo_anterior pedidos) in
    let anterior :=
      snd (DataProcessor.janelas periodo_atual periodo_anterior pedidos) in
    atual = filter (Spec.na_janela_atual periodo_atual) pedidos
    /\ anterior
       = filter (Spec.na_janela_anterior periodo_atual periodo_anterior)
           pedidos
    /\ (forall p, In p atual -> ~ In p anterior)
    /\ (forall p,
          In p atual <->
          In p pedidos
          /\ exists t, Spec.naive_timestamp p = Some t
                       /\ cmp_naive t periodo_atual <> Lt)
    /\ (forall p,
          In p anterior <->
          In p pedidos
          /\ exists t, Spec.naive_timestamp p = Some t
                       /\ cmp_naive t periodo_atual = Lt
                       /\ cmp_naive t periodo_anterior <> Lt)
    /\ (List.length atual + List.length anterior <= List.length pedidos)%nat.
Proof.
  intros lib pa pant pedidos atual anterior. subst atual anterior.
  rewrite janelas_filter. cbn [fst snd].
  split; [reflexivity|]. split; [reflexivity|].
  split; [|split; [|split]].
  - intros p H1 H2. apply filter_In in H1, H2.
    destruct H1 as [_ H1]. destruct H2 as [_ H2].
    rewrite (janelas_disjoint pa pant p H1) in H2. discriminate.
  - intro p. rewrite filter_In. unfold Spec.na_janela_atual, Spec.nao_antes.
    split.
    + intros [Hin H]. split; [exact Hin|].
      destruct (Spec.naive_timestamp p) as [t|]; [|discriminate].
      exists t. split; [reflexivity|].
      destruct (cmp_naive t pa); congruence.
    + intros [Hin (t & -> & H)]. split; [exact Hin|].
      destruct (cmp_naive t pa); congruence.
  - intro p. rewrite filter_In.
    unfold Spec.na_janela_anterior, Spec.nao_antes. split.
    + intros [Hin H]. split; [exact Hin|].
      destruct (Spec.naive_timestamp p) as [t|]; [|discriminate].
      exists t. split; [reflexivity|].
      destruct (cmp_naive t pa); try discriminate.
      destruct (cmp_naive t pant); try discriminate; split; congruence.
    + intros [Hin (t & -> & H1 & H2)]. split; [exact Hin|].
      rewrite H1. destruct (cmp_naive t pant); simpl; congruence.
  - induction pedidos as [|p pedidos IH]; simpl; [lia|].
    destruct (Spec.na_janela_atual pa p) eqn:E.
    + rewrite (janelas_disjoint pa pant p E). simpl. lia.
    + destruct (Spec.na_janela_anterior pa pant p); simpl; lia.
Qed.

(** ** The sign of the growth rate *)

Section RoundingSign.

Lemma of_Z_nonneg (z : Z) : 0 <= z -> (0 <= of_Z z)%Qc.
Proof.
  intro H. unfold of_Z, Qcle. cbn [this Q2Qc]. rewrite !Qred_correct.
  change 0%Q with (inject_Z 0). rewrite <- Zle_Qle. exact H.
Qed.

Lemma of_Z_nonpos (z : Z) : z <= 0 -> (of_Z z <= 0)%Qc.
Proof.
  intro H. unfold of_Z, Qcle. cbn [this Q2Qc]. rewrite !Qred_correct.
  change 0%Q with (inject_Z 0). rewrite <- Zle_Qle. exact H.
Qed.

Lemma round_half_even_nonneg (x : Qc) :
  (0 <= x)%Qc -> 0 <= round_half_even x.
Proof.
  intro H. unfold round_half_even.
  assert (Hf : 0 <= Qfloor x).
  { change 0 with (Qfloor (inject_Z 0)). apply Qfloor_resp_le. exact H. }
  destruct (x - of_Z (Qfloor x) ?= Q2Qc (1 # 2))%Qc;
    [destruct (Z.even (Qfloor x)) | |]; lia.
Qed.

Lemma round_half_even_nonpos (x : Qc) :
  (x <= 0)%Qc -> round_half_even x <= 0.
Proof.
  intro H. unfold round_half_even.
  assert (Hf : Qfloor x <= 0).
  { change 0 with (Qfloor (inject_Z 0)). apply Qfloor_resp_le. exact H. }
  destruct (Z.eq_dec (Qfloor x) 0) as [E|E].
  - assert (H0 : x = 0%Qc).
    { apply Qc_is_canon. apply Qle_antisym; [exact H|].
      pose proof (Qfloor_le x) as L. rewrite E in L. exact L. }
    subst x. vm_compute. discriminate.
  - destruct (x - of_Z (Qfloor x) ?= Q2Qc (1 # 2))%Qc;
      [destruct (Z.even (Qfloor x)) | |]; lia.
Qed.

Lemma Qc_mult_nonneg (x z : Qc) : (0 <= x)%Qc -> (0 <= z)%Qc -> (0 <= x * z)%Qc.
Proof.
  intros Hx Hz. pose proof (Qcmult_le_compat_r 0 x z Hx Hz) as M.
  replace (0 * z)%Qc with 0%Qc in M by ring. exact M.
Qed.

Lemma Qc_mult_nonpos (x z : Qc) : (x <= 0)%Qc -> (0 <= z)%Qc -> (x * z <= 0)%Qc.
Proof.
  intros Hx Hz. pose proof (Qcmult_le_compat_r x 0 z Hx Hz) as M.
  replace (0 * z)%Qc with 0%Qc in M by ring. exact M.
Qed.

Lemma Qc_inv_100_nonneg : (0 <= / of_Z 100)%Qc.
Proof. vm_compute. discriminate. Qed.

Lemma Qc_100_nonneg : (0 <= of_Z 100)%Qc.
Proof. vm_compute. discriminate. Qed.

Lemma round2_nonneg (x : Qc) : (0 <= x)%Qc -> (0 <= round2 x)%Qc.
Proof.
  intro H. unfold round2, Qcdiv.
  apply Qc_mult_nonneg; [|exact Qc_inv_100_nonneg].
  apply of_Z_nonneg, round_half_even_nonneg.
  apply Qc_mult_nonneg; [exact H | exact Qc_100_nonneg].
Qed.

Lemma round2_nonpos (x : Qc) : (x <= 0)%Qc -> (round2 x <= 0)%Qc.
Proof.
  intro H. unfold round2, Qcdiv.
  apply Qc_mult_nonpos; [|exact Qc_inv_100_nonneg].
  apply of_Z_nonpos, round_half_even_nonpos.
  apply Qc_mult_nonpos; [exact H | exact Qc_100_nonneg].
Qed.

Lemma Qc_inv_nonneg (p : Qc) : (0 < p)%Qc -> (0 <= / p)%Qc.
Proof.
  intro Hp. destruct (Qclt_le_dec (/ p) 0) as [L|L]; [|exact L].
  exfalso.
  assert (Hne : p <> 0%Qc).
  { intro E. rewrite E in Hp. vm_compute in Hp. discriminate. }
  pose proof (Qcmult_lt_compat_r (/ p) 0 p Hp L) as M.
  rewrite Qcmult_inv_l in M by exact Hne.
  replace (0 * p)%Qc with 0%Qc in M by ring.
  vm_compute in M. discriminate.
Qed.

Lemma variacao_nonneg (a p : Qc) :
  (0 < p)%Qc -> (p <= a)%Qc -> (0 <= (a - p) / p * of_Z 100)%Qc.
Proof.
  intros Hp Ha.
  apply Qc_mult_nonneg; [|exact Qc_100_nonneg].
  apply Qc_mult_nonneg; [|apply Qc_inv_nonneg; exact Hp].
  apply Qcle_minus_iff in Ha. exact Ha.
Qed.

Lemma variacao_nonpos (a p : Qc) :
  (0 < p)%Qc -> (a <= p)%Qc -> ((a - p) / p * of_Z 100 <= 0)%Qc.
Proof.
  intros Hp Ha.
  apply Qc_mult_nonpos; [|exact Qc_100_nonneg].
  apply Qc_mult_nonpos; [|apply Qc_inv_nonneg; exact Hp].
  apply Qcle_minus_iff.
  replace (0 + - (a - p))%Qc with (p + - a)%Qc by ring.
  apply Qcle_minus_iff in Ha. exact Ha.
Qed.

End RoundingSign.

(** X8.  When the two bounds are dates of the years 1 to 9999,
    [calcular_crescimento_vendas] returns a number and raises nothing.
    Both bounds keep the time of day of the reading of the clock and lie
    [dias] and twice [dias] days before it; the totals compared are those
    of [calcular_vendas_totais] over the two windows.  For a previous
    window without sales the result is 100 when the current window has
    sales and 0 otherwise.  When the previous window has sales, the sign
    of the result follows the change: it is not negative when the current
    window sold at least as much, and not positive when it sold at most
    as much. *)
Theorem X8_crescimento_em_geral :
  forall {lib : Lib} (agora : naive) (pedidos : list Pedido.t) (dias : Z),
    -999999999 <= dias <= 999999999 ->
    0 < toordinal agora - dias <= MAXORDINAL ->
    0 < toordinal agora - 2 * dias <= MAXORDINAL ->
    exists periodo_atual periodo_anterior : naive,
      sub_days agora dias = Ok periodo_atual
      /\ sub_days periodo_atual dias = Ok periodo_anterior
      /\ toordinal periodo_atual = toordinal agora - dias
      /\ toordinal periodo_anterior = toordinal agora - 2 * dias
      /\ (hour periodo_atual, minute periodo_atual, second periodo_atual,
          microsecond periodo_atual)
         = (hour agora, minute agora, second agora, microsecond agora)
      /\ (hour periodo_anterior, minute periodo_anterior,
          second periodo_anterior, microsecond periodo_anterior)
         = (hour agora, minute agora, second agora, microsecond agora)
      /\ let atual :=
           DataProcessor.calcular_vendas_totais
             (filter (Spec.na_janela_atual periodo_atual) pedidos) in
         let anterior :=
           DataProcessor.calcular_vendas_totais
             (filter (Spec.na_janela_anterior periodo_atual periodo_anterior)
                pedidos) in
         exists crescimento : Qc,
           DataProcessor.crescimento_em agora pedidos dias = Ok crescimento
           /\ (anterior = of_Z 0 ->
               crescimento
               = if Qc_ltb (of_Z 0) atual then of_Z 100 else of_Z 0)
           /\ ((0 < anterior)%Qc -> (anterior <= atual)%Qc ->
               (0 <= crescimento)%Qc)
           /\ ((0 < anterior)%Qc -> (atual <= anterior)%Qc ->
               (crescimento <= 0)%Qc).
Proof.
  intros lib agora pedidos dias Hd H1 H2.
  destruct (sub_days_Ok agora dias Hd H1) as (pa & Hpa & Opa).
  destruct (sub_days_Ok pa dias Hd) as (pant & Hpant & Opant); [lia|].
  exists pa, pant.
  destruct (sub_days_time _ _ _ Hpa) as (A1 & A2 & A3 & A4).
  destruct (sub_days_time _ _ _ Hpant) as (B1 & B2 & B3 & B4).
  split; [exact Hpa|]. split; [exact Hpant|]. split; [exact Opa|].
  split; [lia|].
  split; [rewrite A1, A2, A3, A4; reflexivity|].
  split; [rewrite B1, B2, B3, B4, A1, A2, A3, A4; reflexivity|].
  intros atual anterior.
  pose proof (crescimento_em_spec agora pa pant pedidos dias Hpa Hpant) as Hs.
  cbv zeta in Hs. fold atual anterior in Hs.
  unfold Qc_eqb in Hs.
  destruct (Qc_eq_bool anterior (of_Z 0)) eqn:E.
  - apply Qc_eq_bool_correct in E.
    eexists. split; [exact Hs|].
    split; [reflexivity|].
    split; intros Hp _; rewrite E in Hp; vm_compute in Hp; discriminate.
  - eexists. split; [exact Hs|].
    split.
    + intro Ha. rewrite Ha in E. vm_compute in E. discriminate.
    + split; intros Hp Hc.
      * apply round2_nonneg, variacao_nonneg; assumption.
      * apply round2_nonpos, variacao_nonpos; assumption.
Qed.

Lemma X8_crescimento_em_geral_witness :
  -999999999 <= 30 <= 999999999
  /\ 0 < toordinal Samples.agora - 30 <= MAXORDINAL
  /\ 0 < toordinal Samples.agora - 2 * 30 <= MAXORDINAL
  /\ exists periodo_atual periodo_anterior : naive,
       sub_days Samples.agora 30 = Ok periodo_atual
       /\ sub_days periodo_atual 30 = Ok periodo_anterior
       /\ toordinal periodo_anterior = toordinal Samples.agora - 2 * 30
       /\ DataProcessor.crescimento_em (lib := Reference.lib) Samples.agora
            [Samples.pedido_local] 30
          = Ok (of_Z 100).
Proof.
  split; [lia|]. split; [vm_compute; split; congruence|].
  split; [vm_compute; split; congruence|].
  destruct (X8_crescimento_em_geral (lib := Reference.lib) Samples.agora
              [Samples.pedido_local] 30)
    as (pa & pant & H1 & H2 & _ & H4 & _);
    [lia | vm_compute; split; congruence | vm_compute; split; congruence |].
  exists pa, pant. split; [exact H1|]. split; [exact H2|].
  split; [exact H4|]. qc_eq.
Defined.

(** X9.  A window that reaches back to before year 1 makes
    [calcular_crescimento_vendas] raise [OverflowError], after one reading
    of the clock and whatever the batch: the subtraction of the days is not
    inside a [try] block. *)
Theorem X9_crescimento_overflow :
  forall {lib : Lib} (pedidos : list Pedido.t) (dias : Z) (c : clock),
    0 <= dias ->
    1 <= toordinal (readings c (reads c)) <= MAXORDINAL ->
    toordinal (readings c (reads c)) <= 2 * dias ->
    DataProcessor.calcular_crescimento_vendas pedidos dias c
    = (Raise OverflowError, Spec.depois_de 1 c).
Proof.
  intros lib pedidos dias c Hd Ha H2.
  unfold DataProcessor.calcular_crescimento_vendas, now. cbv zeta.
  rewrite (crescimento_em_overflow _ pedidos dias Hd Ha H2). reflexivity.
Qed.

Lemma X9_crescimento_overflow_witness :
  0 <= 30
  /\ 1 <= toordinal (readings Samples.relogio_ano_um 0) <= MAXORDINAL
  /\ toordinal (readings Samples.relogio_ano_um 0) <= 2 * 30
  /\ DataProcessor.calcular_crescimento_vendas (lib := Reference.lib)
       Samples.tres_pedidos 30 Samples.relogio_ano_um
     = (Raise OverflowError, Spec.depois_de 1 Samples.relogio_ano_um).
Proof.
  split; [lia|]. split; [vm_compute; split; congruence|].
  split; [vm_compute; congruence|].
  apply (X9_crescimento_overflow (lib := Reference.lib) Samples.tres_pedidos
           30 Samples.relogio_ano_um);
    [lia | vm_compute; split; congruence | vm_compute; congruence].
Defined.

(** X10.  With the default window of 30 days and a batch that is not
    empty, the [OverflowError] of the growth rate is passed on by
    [calcular_metricas_principais] and by [gerar_relatorio_completo]:
    both fail after a single reading of the clock, and the report computes
    neither the trend nor the time of generation. *)
Theorem X10_overflow_propaga :
  forall {lib : Lib} (pedidos : list Pedido.t) (c : clock),
    (0 < List.length pedidos)%nat ->
    1 <= toordinal (readings c (reads c)) <= 60 ->
    SaboreAnalytics.calcular_metricas_principais pedidos c
    = (Raise OverflowError, Spec.depois_de 1 c)
    /\ SaboreAnalytics.gerar_relatorio_completo pedidos c
       = (Raise OverflowError, Spec.depois_de 1 c).
Proof.
  intros lib pedidos c Hne Ha.
  assert (Hm : SaboreAnalytics.calcular_metricas_principais pedidos c
               = (Raise OverflowError, Spec.depois_de 1 c)).
  { destruct pedidos as [|p pedidos]; [simpl in Hne; lia|].
    unfold SaboreAnalytics.calcular_metricas_principais,
      SaboreAnalytics.io_bind,
      DataProcessor.calcular_crescimento_vendas, now. cbv zeta.
    rewrite crescimento_em_overflow;
      [reflexivity | unfold DataProcessor.dias_padrao; lia
       | unfold MAXORDINAL; lia | unfold DataProcessor.dias_padrao; lia]. }
  split; [exact Hm|].
  unfold SaboreAnalytics.gerar_relatorio_completo.
  unfold SaboreAnalytics.io_bind at 1. rewrite Hm. reflexivity.
Qed.

Lemma X10_overflow_propaga_witness :
  (0 < List.length Samples.tres_pedidos)%nat
  /\ 1 <= toordinal (readings Samples.relogio_ano_um 0) <= 60
  /\ SaboreAnalytics.gerar_relatorio_completo (lib := Reference.lib)
       Samples.tres_pedidos Samples.relogio_ano_um
     = (Raise OverflowError, Spec.depois_de 1 Samples.relogio_ano_um).
Proof.
  split; [simpl; lia|]. split; [vm_compute; split; congruence|].
  apply (X10_overflow_propaga (lib := Reference.lib) Samples.tres_pedidos
           Samples.relogio_ano_um);
    [simpl; lia | vm_compute; split; congruence].
Defined.

(** ** Orders without a usable timestamp *)

Section Undated.
Context {lib : Lib}.

Lemma for_each_dated_skip_step {S : Type} (body : S -> Pedido.t -> result S)
    (antes depois : list Pedido.t) (p : Pedido.t) (s0 : S) :
  (forall s,
     (if DataProcessor.falsy (Pedido.data_pedido p) then s
      else match body s p with Ok s' => s' | Raise _ => s end) = s) ->
  DataProcessor.for_each_dated body (antes ++ p :: depois) s0
  = DataProcessor.for_each_dated body (antes ++ depois) s0.
Proof.
  intro H. rewrite !for_each_dated_app.
  change (p :: depois) with ([p] ++ depois).
  rewrite for_each_dated_app. f_equal.
  unfold DataProcessor.for_each_dated at 1. simpl. apply H.
Qed.

Lemma keyed_loop_skip {K V : Type} (eqb : K -> K -> bool)
    (chave : datetime -> K) (zero : V) (step : Pedido.t -> V -> V)
    (antes depois : list Pedido.t) (p : Pedido.t)
    (acc0 : dict (K := K) (V := V)) :
  Spec.timestamp p = None ->
  DataProcessor.for_each_dated
    (fun acc pedido =>
       bind (DataProcessor.converter (Pedido.data_pedido pedido)) (fun o =>
       bind (DataProcessor.attr o) (fun data =>
       Ok (dict_accum eqb (chave data) zero (step pedido) acc))))
    (antes ++ p :: depois) acc0
  = DataProcessor.for_each_dated
      (fun acc pedido =>
         bind (DataProcessor.converter (Pedido.data_pedido pedido)) (fun o =>
         bind (DataProcessor.attr o) (fun data =>
         Ok (dict_accum eqb (chave data) zero (step pedido) acc))))
      (antes ++ depois) acc0.
Proof.
  intro Ht. apply for_each_dated_skip_step. intro s.
  rewrite (keyed_loop_step eqb chave zero step s p), Ht. reflexivity.
Qed.

Lemma pedidos_periodo_filter_gen (data_inicio : naive)
    (pedidos xs : list Pedido.t) :
  DataProcessor.for_each_dated
    (fun periodo pedido =>
       bind (DataProcessor.converter (Pedido.data_pedido pedido))
         (fun data_pedido =>
       bind (DataProcessor.ge_bound data_pedido data_inicio) (fun dentro =>
       if dentro then Ok (periodo ++ [pedido]) else Ok periodo)))
    pedidos xs
  = xs ++ filter (Spec.na_janela_atual data_inicio) pedidos.
Proof.
  revert xs. induction pedidos as [|p pedidos IH]; intro xs.
  - simpl. rewrite app_nil_r. reflexivity.
  - unfold DataProcessor.for_each_dated in *. simpl.
    unfold Spec.na_janela_atual, Spec.naive_timestamp, Spec.timestamp.
    destruct (DataProcessor.falsy (Pedido.data_pedido p)); [apply IH|].
    destruct (DataProcessor.converter (Pedido.data_pedido p))
      as [[[t [off|]]|]|e]; simpl; try apply IH.
    unfold ge; simpl. unfold Spec.nao_antes.
    destruct (cmp_naive t data_inicio); simpl;
      rewrite IH, <- ?app_assoc; reflexivity.
Qed.

Lemma pedidos_periodo_filter (data_inicio : naive) (pedidos : list Pedido.t) :
  SaboreAnalytics.pedidos_periodo data_inicio pedidos
  = filter (Spec.na_janela_atual data_inicio) pedidos.
Proof. apply (pedidos_periodo_filter_gen data_inicio pedidos []). Qed.

Lemma sem_timestamp_fora_das_janelas (bound : naive) (p : Pedido.t) :
  Spec.timestamp p = None ->
  Spec.na_janela_atual bound p = false
  /\ forall bound', Spec.na_janela_anterior bound bound' p = false.
Proof.
  intro H. unfold Spec.na_janela_atual, Spec.na_janela_anterior,
    Spec.naive_timestamp. rewrite H. split; reflexivity.
Qed.

End Undated.

(** X11.  An order without a usable timestamp is one whose key
    ['data_pedido'] is missing or holds [None], an empty string, a string
    that does not parse, or an object such as a number or a list, which
    has none of the attributes of a [datetime].  Every computation that
    is keyed by time passes it over: the groupings by period, the peak
    hours, the performance by weekday, the seasonality, the two windows of
    the growth rate and the window of the trend are the same with and
    without it. *)
Theorem X11_sem_timestamp_ignorado :
  forall {lib : Lib} (antes depois : list Pedido.t) (p : Pedido.t),
    Spec.timestamp p = None ->
    (Pedido.data_pedido p = Ausente
     \/ Pedido.data_pedido p = Outro
     \/ exists s,
          Pedido.data_pedido p = Texto s
          /\ (s = EmptyString
              \/ fromisoformat (replace_char "Z" "+00:00" s) = None))
    /\ (forall tipo_periodo,
          DataProcessor.agrupar_por_periodo (antes ++ p :: depois) tipo_periodo
          = DataProcessor.agrupar_por_periodo (antes ++ depois) tipo_periodo)
    /\ DataProcessor.horarios_pico (antes ++ p :: depois)
       = DataProcessor.horarios_pico (antes ++ depois)
    /\ DataProcessor.dias_semana_performance (antes ++ p :: depois)
       = DataProcessor.dias_semana_performance (antes ++ depois)
    /\ (forall meses,
          DataProcessor.analise_sazonalidade (antes ++ p :: depois) meses
          = DataProcessor.analise_sazonalidade (antes ++ depois) meses)
    /\ (forall periodo_atual periodo_anterior,
          DataProcessor.janelas periodo_atual periodo_anterior
            (antes ++ p :: depois)
          = DataProcessor.janelas periodo_atual periodo_anterior
              (antes ++ depois))
    /\ (forall data_inicio,
          SaboreAnalytics.pedidos_periodo data_inicio (antes ++ p :: depois)
          = SaboreAnalytics.pedidos_periodo data_inicio (antes ++ depois)).
Proof.
  intros lib antes depois p Ht.
  split; [|split; [|split; [|split; [|split; [|split]]]]].
  - unfold Spec.timestamp in Ht.
    destruct (Pedido.data_pedido p) as [|s|d|]; [left; reflexivity | | |].
    + right; right. exists s. split; [reflexivity|].
      destruct s as [|a s]; [left; reflexivity|]. right.
      cbn [DataProcessor.falsy DataProcessor.converter] in Ht.
      destruct (fromisoformat (replace_char "Z" "+00:00" (String a s)));
        [discriminate | reflexivity].
    + discriminate.
    + right; left; reflexivity.
  - intro tipo. unfold DataProcessor.agrupar_por_periodo. f_equal.
    apply (keyed_loop_skip String.eqb (DataProcessor.chave_periodo tipo)
             (of_Z 0)
             (fun q v => (v + get (Pedido.valor_total q) (of_Z 0))%Qc)
             antes depois p [] Ht).
  - unfold DataProcessor.horarios_pico. f_equal.
    apply (keyed_loop_skip Z.eqb (fun d => hour (campos d)) 0
             (fun _ n => n + 1) antes depois p [] Ht).
  - apply (keyed_loop_skip String.eqb
             (fun d => day_name (weekday (campos d))) (of_Z 0)
             (fun q v => (v + get (Pedido.valor_total q) (of_Z 0))%Qc)
             antes depois p [] Ht).
  - intro meses.
    apply (keyed_loop_skip String.eqb
             (fun d => month_name (month (campos d))) (of_Z 0)
             (fun q v => (v + get (Pedido.valor_total q) (of_Z 0))%Qc)
             antes depois p [] Ht).
  - intros pa pant. rewrite !janelas_filter, !filter_app. simpl.
    destruct (sem_timestamp_fora_das_janelas pa p Ht) as [H1 H2].
    rewrite H1, H2. reflexivity.
  - intro ini. rewrite !pedidos_periodo_filter, !filter_app. simpl.
    destruct (sem_timestamp_fora_das_janelas ini p Ht) as [H1 _].
    rewrite H1. reflexivity.
Qed.

Lemma X11_sem_timestamp_ignorado_witness :
  let p := Pedido.mk (Some 9) Ausente (Some (of_Z 40)) None in
  Spec.timestamp (lib := Reference.lib) p = None
  /\ DataProcessor.horarios_pico (lib := Reference.lib)
       (Samples.tres_pedidos ++ p :: Samples.dez_dias)
     = DataProcessor.horarios_pico (lib := Reference.lib)
         (Samples.tres_pedidos ++ Samples.dez_dias).
Proof.
  intro p. split; [reflexivity|].
  apply (X11_sem_timestamp_ignorado (lib := Reference.lib)
           Samples.tres_pedidos Samples.dez_dias p); reflexivity.
Defined.

(** ** The trend *)

Section TrendFacts.
Context {lib : Lib}.

Lemma Qc_ltb_lt (x y : Qc) : Qc_ltb x y = true <-> (x < y)%Qc.
Proof.
  unfold Qc_ltb. rewrite Qclt_alt.
  destruct (x ?= y)%Qc; split; congruence.
Qed.

Lemma Qc_ltb_neither (x y : Qc) :
  Qc_ltb x y = false -> Qc_ltb y x = false -> x = y.
Proof.
  intros H1 H2.
  destruct (Qclt_le_dec x y) as [L|L].
  - apply Qc_ltb_lt in L. congruence.
  - apply Qcle_lt_or_eq in L. destruct L as [L|L]; [|congruence].
    apply Qc_ltb_lt in L. congruence.
Qed.

Lemma estavel_coerente : Spec.coerente SaboreAnalytics.estavel.
Proof. right; right. split; reflexivity. Qed.

Lemma regressao_coerente (valores : list Qc) :
  Spec.coerente (SaboreAnalytics.regressao valores).
Proof.
  unfold SaboreAnalytics.regressao.
  destruct (1 <? List.length valores)%nat; [|apply estavel_coerente].
  match goal with
  | |- context [negb (Qc_eqb ?d (of_Z 0))] =>
      destruct (negb (Qc_eqb d (of_Z 0))); [|apply estavel_coerente]
  end.
  match goal with
  | |- context [Qc_ltb (of_Z 0) ?i] => set (incl := i)
  end.
  destruct (Qc_ltb (of_Z 0) incl) eqn:E1.
  - left. cbn. split; [reflexivity|]. split; [|reflexivity].
    apply Qc_ltb_lt; exact E1.
  - destruct (Qc_ltb incl (of_Z 0)) eqn:E2.
    + right; left. cbn. split; [reflexivity|]. split; [|reflexivity].
      apply Qc_ltb_lt; exact E2.
    + right; right. cbn. split; [reflexivity|].
      symmetry. apply Qc_ltb_neither; assumption.
Qed.

Lemma tendencia_em_spec (agora data_inicio : naive) (pedidos : list Pedido.t)
    (dias : Z) :
  sub_days agora dias = Ok data_inicio ->
  let vendas_por_dia :=
    DataProcessor.agrupar_por_periodo
      (filter (Spec.na_janela_atual data_inicio) pedidos) "dia" in
  SaboreAnalytics.tendencia_em agora pedidos dias
  = Ok (if (List.length vendas_por_dia <? 2)%nat then SaboreAnalytics.estavel
        else SaboreAnalytics.regressao (values vendas_por_dia)).
Proof.
  intros H vendas. subst vendas. unfold SaboreAnalytics.tendencia_em.
  rewrite H. cbn [bind]. rewrite pedidos_periodo_filter.
  destruct (filter (Spec.na_janela_atual data_inicio) pedidos) as [|p g];
    [reflexivity|].
  destruct (List.length (DataProcessor.agrupar_por_periodo (p :: g) "dia")
            <? 2)%nat; reflexivity.
Qed.

End TrendFacts.

(** X12.  Whatever [analise_tendencia_vendas] returns, its label says
    the sign of the daily growth: ["crescente"] goes with a positive
    value, ["decrescente"] with a negative one, ["estavel"] with 0; and a
    rising or falling trend carries the same value under ['inclinacao']. *)
Theorem X12_tendencia_coerente :
  forall {lib : Lib} (pedidos : list Pedido.t) (dias : Z) (c : clock)
         (t : SaboreAnalytics.tendencia_vendas),
    fst (SaboreAnalytics.analise_tendencia_vendas pedidos dias c) = Ok t ->
    Spec.coerente t.
Proof.
  intros lib pedidos dias c t.
  unfold SaboreAnalytics.analise_tendencia_vendas, now. cbv zeta. cbn [fst].
  unfold SaboreAnalytics.tendencia_em.
  destruct (sub_days (readings c (reads c)) dias) as [ini|e];
    [|discriminate].
  cbn [bind].
  destruct (SaboreAnalytics.pedidos_periodo ini pedidos) as [|p g].
  - intro H; injection H as <-. apply estavel_coerente.
  - destruct (List.length (DataProcessor.agrupar_por_periodo (p :: g) "dia")
              <? 2)%nat; intro H; injection H as <-.
    + apply estavel_coerente.
    + apply regressao_coerente.
Qed.

Lemma X12_tendencia_coerente_witness :
  exists t : SaboreAnalytics.tendencia_vendas,
    fst (SaboreAnalytics.analise_tendencia_vendas (lib := Reference.lib)
           Samples.dez_dias 120 Samples.relogio_parado) = Ok t
    /\ SaboreAnalytics.tendencia t = "crescente"%string
    /\ Spec.coerente t.
Proof.
  eexists. split; [vm_compute; reflexivity|]. split; [reflexivity|].
  apply (X12_tendencia_coerente (lib := Reference.lib) Samples.dez_dias 120
           Samples.relogio_parado).
  vm_compute; reflexivity.
Defined.

(** ** Least squares *)

Section LeastSquares.

Lemma of_Z_plus (x y : Z) : of_Z (x + y) = (of_Z x + of_Z y)%Qc.
Proof.
  unfold of_Z, Qcplus. apply Q2Qc_eq_iff. cbn [this Q2Qc].
  rewrite !Qred_correct, inject_Z_plus. reflexivity.
Qed.

Lemma of_nat_S (n : nat) : of_nat (S n) = (of_nat n + 1)%Qc.
Proof.
  unfold of_nat. rewrite Nat2Z.inj_succ, <- Z.add_1_r, of_Z_plus.
  reflexivity.
Qed.

Lemma of_Z_inj (x y : Z) : of_Z x = of_Z y -> x = y.
Proof.
  unfold of_Z. intro H. apply Q2Qc_eq_iff in H.
  unfold Qeq in H. simpl in H. lia.
Qed.

Lemma of_nat_neq_0 (n : nat) : (0 < n)%nat -> of_nat n <> 0%Qc.
Proof. intro H. unfold of_nat. apply of_Z_neq_0. lia. Qed.

Lemma Qc_sq_nonneg (x : Qc) : (0 <= x * x)%Qc.
Proof.
  unfold Qcle, Qcmult. cbn [this Q2Qc]. rewrite !Qred_correct.
  destruct (Qlt_le_dec (this x) 0) as [H|H].
  - setoid_replace (this x * this x)%Q with ((- this x) * (- this x))%Q
      by ring.
    apply Qmult_le_0_compat; apply (Qopp_le_compat (this x) 0);
      apply Qlt_le_weak; exact H.
  - apply Qmult_le_0_compat; exact H.
Qed.

Lemma total_nonneg (xs : list Qc) :
  Forall (fun x => (0 <= x)%Qc) xs -> (0 <= Spec.total xs)%Qc.
Proof.
  induction 1 as [|x xs Hx _ IH]; simpl.
  - rewrite of_Z_0. apply Qcle_refl.
  - replace 0%Qc with (0 + 0)%Qc by ring.
    apply Qcplus_le_compat; assumption.
Qed.

Lemma total_zero (xs : list Qc) :
  Forall (fun x => (0 <= x)%Qc) xs ->
  Spec.total xs = 0%Qc -> Forall (fun x => x = 0%Qc) xs.
Proof.
  induction 1 as [|x xs Hx Hxs IH]; simpl; intro Ht; [constructor|].
  pose proof (total_nonneg xs Hxs) as Hn.
  assert (Hx0 : x = 0%Qc).
  { apply Qcle_antisym; [|exact Hx].
    rewrite <- Ht. replace x with (x + 0)%Qc at 1 by ring.
    apply Qcplus_le_compat; [apply Qcle_refl | exact Hn]. }
  constructor; [exact Hx0|]. apply IH. rewrite Hx0 in Ht.
  rewrite <- Ht. ring.
Qed.

Lemma Qc_sq_zero (x : Qc) : (x * x)%Qc = 0%Qc -> x = 0%Qc.
Proof. intro H. apply Qcmult_integral in H. tauto. Qed.

(** The squares of the deviations of 0, 1, ..., n-1 from a common value
    do not add up to 0 when there are at least two of them. *)
Lemma denominador_nao_nulo (n : nat) (m : Qc) :
  (2 <= n)%nat ->
  Spec.total (map (fun x => ((x - m) * (x - m))%Qc)
                (SaboreAnalytics.range n)) <> 0%Qc.
Proof.
  intros Hn H. apply total_zero in H.
  - rewrite Forall_forall in H.
    assert (H0 : ((of_nat 0 - m) * (of_nat 0 - m))%Qc = 0%Qc).
    { apply H. apply in_map_iff. exists (of_nat 0). split; [reflexivity|].
      unfold SaboreAnalytics.range. apply in_map. apply in_seq. lia. }
    assert (H1 : ((of_nat 1 - m) * (of_nat 1 - m))%Qc = 0%Qc).
    { apply H. apply in_map_iff. exists (of_nat 1). split; [reflexivity|].
      unfold SaboreAnalytics.range. apply in_map. apply in_seq. lia. }
    apply Qc_sq_zero in H0, H1.
    assert (E : of_nat 0 = of_nat 1).
    { replace (of_nat 0) with ((of_nat 0 - m) + m)%Qc by ring.
      replace (of_nat 1) with ((of_nat 1 - m) + m)%Qc by ring.
      rewrite H0, H1. reflexivity. }
    unfold of_nat in E. apply of_Z_inj in E. discriminate.
  - rewrite Forall_forall. intros y Hy. apply in_map_iff in Hy.
    destruct Hy as (x & <- & _). apply Qc_sq_nonneg.
Qed.

Lemma total_map_scale {A} (f : A -> Qc) (b : Qc) (l : list A) :
  Spec.total (map (fun i => (b * f i)%Qc) l)
  = (b * Spec.total (map f l))%Qc.
Proof.
  induction l as [|i l IH]; simpl; [rewrite of_Z_0; ring|].
  rewrite IH. ring.
Qed.

Lemma total_map_affine (a b : Qc) (l : list nat) :
  Spec.total (map (fun i => (a + b * of_nat i)%Qc) l)
  = (of_nat (List.length l) * a + b * Spec.total (map of_nat l))%Qc.
Proof.
  induction l as [|i l IH]; simpl List.length; simpl map; simpl Spec.total.
  - rewrite of_Z_0. change (of_nat 0) with 0%Qc. ring.
  - rewrite IH, of_nat_S. ring.
Qed.

Lemma combine_map_same {A B C} (f : A -> B) (g : A -> C) (l : list A) :
  combine (map f l) (map g l) = map (fun i => (f i, g i)) l.
Proof. induction l as [|i l IH]; simpl; [reflexivity | rewrite IH; reflexivity]. Qed.

End LeastSquares.

Lemma regressao_dois_ou_mais (valores : list Qc) :
  (2 <= List.length valores)%nat ->
  let n := List.length valores in
  let xs := SaboreAnalytics.range n in
  let media_x := (Spec.total xs / of_nat n)%Qc in
  let media_y := (Spec.total valores / of_nat n)%Qc in
  let numerador :=
    Spec.total (map (fun xy => ((fst xy - media_x) * (snd xy - media_y))%Qc)
                  (combine xs valores)) in
  let denominador :=
    Spec.total (map (fun x => ((x - media_x) * (x - media_x))%Qc) xs) in
  let inclinacao := (numerador / denominador)%Qc in
  denominador <> 0%Qc
  /\ SaboreAnalytics.regressao valores
     = SaboreAnalytics.mk_tendencia
         (if Qc_ltb (of_Z 0) inclinacao then "crescente"%string
          else if Qc_ltb inclinacao (of_Z 0) then "decrescente"%string
          else "estavel"%string)
         inclinacao (Some inclinacao).
Proof.
  intros Hn n xs media_x media_y numerador denominador inclinacao.
  assert (Hd : denominador <> 0%Qc)
    by (apply denominador_nao_nulo; exact Hn).
  split; [exact Hd|].
  unfold SaboreAnalytics.regressao. fold n.
  replace (1 <? n)%nat with true by (symmetry; apply Nat.ltb_lt; lia).
  rewrite !sum_total. fold xs. fold media_x media_y.
  fold numerador denominador.
  unfold Qc_eqb.
  destruct (Qc_eq_bool denominador (of_Z 0)) eqn:E.
  - apply Qc_eq_bool_correct in E. rewrite of_Z_0 in E. contradiction.
  - reflexivity.
Qed.

(** X14.  With at least two day buckets the regression always finds a
    slope: the sum of the squared deviations of the day indices is not 0,
    so the branch for a zero denominator is never taken.  On values that
    lie on a line, [a + b * i] for the day index [i], the slope found is
    exactly [b]. *)
Theorem X14_regressao_reta :
  (forall valores : list Qc,
     (2 <= List.length valores)%nat ->
     SaboreAnalytics.inclinacao (SaboreAnalytics.regressao valores)
     = Some (SaboreAnalytics.crescimento_diario
               (SaboreAnalytics.regressao valores)))
  /\ (forall (a b : Qc) (n : nat),
        (2 <= n)%nat ->
        SaboreAnalytics.regressao
          (map (fun i => (a + b * of_nat i)%Qc) (seq 0 n))
        = SaboreAnalytics.mk_tendencia
            (if Qc_ltb (of_Z 0) b then "crescente"%string
             else if Qc_ltb b (of_Z 0) then "decrescente"%string
             else "estavel"%string)
            b (Some b)).
Proof.
  split.
  - intros valores Hn.
    destruct (regressao_dois_ou_mais valores Hn) as [_ ->]. reflexivity.
  - intros a b n Hn.
    set (valores := map (fun i => (a + b * of_nat i)%Qc) (seq 0 n)).
    assert (Hlen : List.length valores = n)
      by (unfold valores; rewrite length_map, length_seq; reflexivity).
    destruct (regressao_dois_ou_mais valores) as [Hd ->]; [lia|].
    rewrite Hlen in *.
    set (mx := (Spec.total (SaboreAnalytics.range n) / of_nat n)%Qc) in *.
    set (den := Spec.total
                  (map (fun x => ((x - mx) * (x - mx))%Qc)
                     (SaboreAnalytics.range n))) in *.
    assert (Hn0 : of_nat n <> 0%Qc) by (apply of_nat_neq_0; lia).
    assert (Hmy : (Spec.total valores / of_nat n)%Qc = (a + b * mx)%Qc).
    { unfold valores, mx, SaboreAnalytics.range.
      rewrite total_map_affine, length_seq. field. exact Hn0. }
    rewrite Hmy.
    assert (Hnum :
      Spec.total
        (map (fun xy => ((fst xy - mx) * (snd xy - (a + b * mx)))%Qc)
           (combine (SaboreAnalytics.range n) valores))
      = (b * den)%Qc).
    { unfold den, valores, SaboreAnalytics.range.
      rewrite combine_map_same, !map_map. cbn [fst snd].
      rewrite <- total_map_scale. apply f_equal.
      apply map_ext. intro i. ring. }
    rewrite Hnum.
    replace (b * den / den)%Qc with b by (field; exact Hd).
    reflexivity.
Qed.

Lemma X14_regressao_reta_witness :
  (2 <= 3)%nat
  /\ SaboreAnalytics.regressao
       (map (fun i => (of_Z 5 + of_Z 2 * of_nat i)%Qc) (seq 0 3))
     = SaboreAnalytics.mk_tendencia "crescente" (of_Z 2) (Some (of_Z 2)).
Proof.
  split; [lia|].
  rewrite (proj2 X14_regressao_reta (of_Z 5) (of_Z 2) 3%nat); [|lia].
  reflexivity.
Defined.

(** X13.  When the start of the window is a date of the years 1 to
    9999, [analise_tendencia_vendas] reads the clock once and returns a
    trend whose label says the sign of the slope it returns.  It keeps
    the orders whose timestamp is naive and not before the start, and
    groups them by day.  With fewer than two day buckets the trend is
    ["estavel"] with growth 0.  With two or more, the trend carries its
    slope under ['inclinacao'] too, and the slope solves the equation of
    least squares over the values of the day buckets in ascending order
    of the day, the [i]-th bucket standing at [x = i]: the slope times
    the sum of the squared deviations of [x] is the sum of the products
    of the deviations of [x] and of the value. *)
Theorem X13_tendencia_por_dia :
  forall {lib : Lib} (pedidos : list Pedido.t) (dias : Z) (c : clock),
    -999999999 <= dias <= 999999999 ->
    0 < toordinal (readings c (reads c)) - dias <= MAXORDINAL ->
    exists (data_inicio : naive) (t : SaboreAnalytics.tendencia_vendas),
      sub_days (readings c (reads c)) dias = Ok data_inicio
      /\ toordinal data_inicio = toordinal (readings c (reads c)) - dias
      /\ SaboreAnalytics.analise_tendencia_vendas pedidos dias c
         = (Ok t, Spec.depois_de 1 c)
      /\ Spec.coerente t
      /\ let valores :=
           values
             (DataProcessor.agrupar_por_periodo
                (filter (Spec.na_janela_atual data_inicio) pedidos) "dia") in
         let n := List.length valores in
         let xs := SaboreAnalytics.range n in
         let media_x := (Spec.total xs / of_nat n)%Qc in
         let media_y := (Spec.total valores / of_nat n)%Qc in
         ((n < 2)%nat -> t = SaboreAnalytics.estavel)
         /\ ((2 <= n)%nat ->
             SaboreAnalytics.inclinacao t
             = Some (SaboreAnalytics.crescimento_diario t)
             /\ (SaboreAnalytics.crescimento_diario t
                 * Spec.total
                     (map (fun x => ((x - media_x) * (x - media_x))%Qc) xs))%Qc
                = Spec.total
                    (map (fun xy =>
                            ((fst xy - media_x) * (snd xy - media_y))%Qc)
                       (combine xs valores))).
Proof.
  intros lib pedidos dias c Hd Ho.
  destruct (sub_days_Ok (readings c (reads c)) dias Hd Ho) as (ini & Hi & Hord).
  pose proof (tendencia_em_spec (readings c (reads c)) ini pedidos dias Hi)
    as Hs. cbv zeta in Hs.
  set (vendas := DataProcessor.agrupar_por_periodo
                   (filter (Spec.na_janela_atual ini) pedidos) "dia") in *.
  exists ini.
  exists (if (List.length vendas <? 2)%nat then SaboreAnalytics.estavel
          else SaboreAnalytics.regressao (values vendas)).
  split; [exact Hi|]. split; [exact Hord|].
  split.
  { unfold SaboreAnalytics.analise_tendencia_vendas, now. cbv zeta.
    rewrite Hs. reflexivity. }
  split.
  { destruct (List.length vendas <? 2)%nat;
      [apply estavel_coerente | apply regressao_coerente]. }
  intros valores n xs media_x media_y.
  assert (Hn : n = List.length vendas)
    by (unfold n, valores, values; apply length_map).
  split.
  - intro Hlt.
    replace (List.length vendas <? 2)%nat with true
      by (symmetry; apply Nat.ltb_lt; lia).
    reflexivity.
  - intro Hge.
    replace (List.length vendas <? 2)%nat with false
      by (symmetry; apply Nat.ltb_ge; lia).
    destruct (regressao_dois_ou_mais (values vendas) Hge) as [Hden ->].
    cbn [SaboreAnalytics.inclinacao SaboreAnalytics.crescimento_diario].
    split; [reflexivity|].
    subst media_y media_x xs n valores. fold vendas.
    field. exact Hden.
Qed.

Lemma X13_tendencia_por_dia_witness :
  -999999999 <= 120 <= 999999999
  /\ 0 < toordinal (readings Samples.relogio_parado 0) - 120 <= MAXORDINAL
  /\ exists (data_inicio : naive) (t : SaboreAnalytics.tendencia_vendas),
       sub_days (readings Samples.relogio_parado 0) 120 = Ok data_inicio
       /\ SaboreAnalytics.analise_tendencia_vendas (lib := Reference.lib)
            Samples.dez_dias 120 Samples.relogio_parado
          = (Ok t, Spec.depois_de 1 Samples.relogio_parado)
       /\ Spec.coerente t.
Proof.
  split; [lia|]. split; [vm_compute; split; congruence|].
  destruct (X13_tendencia_por_dia (lib := Reference.lib) Samples.dez_dias 120
              Samples.relogio_parado)
    as (ini & t & Hi & _ & Hr & Hc & _);
    [lia | vm_compute; split; congruence |].
  exists ini, t. split; [exact Hi|]. split; [exact Hr|]. exact Hc.
Defined.

(** ** The advanced statistics *)

Section Extremes.
Context {A : Type} (key : A -> Qc).

Lemma max_by_spec (xs pre1 pre2 : list A) (best : A) :
  (forall p, In p pre1 -> (key p < key best)%Qc) ->
  (forall p, In p pre2 -> (key p <= key best)%Qc) ->
  exists l1 l2,
    pre1 ++ best :: pre2 ++ xs
    = l1 ++ SaboreAnalytics.max_by key best xs :: l2
    /\ (forall p, In p l1 ->
          (key p < key (SaboreAnalytics.max_by key best xs))%Qc)
    /\ (forall p, In p l2 ->
          (key p <= key (SaboreAnalytics.max_by key best xs))%Qc).
Proof.
  revert pre1 pre2 best. unfold SaboreAnalytics.max_by.
  induction xs as [|y xs IH]; intros pre1 pre2 best H1 H2; simpl.
  - exists pre1, pre2. rewrite app_nil_r. auto.
  - destruct (Qc_ltb (key best) (key y)) eqn:E.
    + apply Qc_ltb_lt in E.
      destruct (IH (pre1 ++ best :: pre2) [] y) as (l1 & l2 & Heq & Hl1 & Hl2).
      * intros p Hp. apply in_app_or in Hp. destruct Hp as [Hp|[<-|Hp]].
        -- eapply Qclt_trans; [apply H1; exact Hp | exact E].
        -- exact E.
        -- eapply Qcle_lt_trans; [apply H2; exact Hp | exact E].
      * intros p [].
      * exists l1, l2. split; [|split; assumption].
        rewrite <- Heq, <- app_assoc. reflexivity.
    + assert (Hy : (key y <= key best)%Qc).
      { apply Qcnot_lt_le. intro H. apply Qc_ltb_lt in H. congruence. }
      destruct (IH pre1 (pre2 ++ [y]) best H1) as (l1 & l2 & Heq & Hl1 & Hl2).
      * intros p Hp. apply in_app_or in Hp. destruct Hp as [Hp|[<-|[]]].
        -- apply H2; exact Hp.
        -- exact Hy.
      * exists l1, l2. split; [|split; assumption].
        rewrite <- Heq, <- app_assoc. reflexivity.
Qed.

Lemma min_by_spec (xs pre1 pre2 : list A) (best : A) :
  (forall p, In p pre1 -> (key best < key p)%Qc) ->
  (forall p, In p pre2 -> (key best <= key p)%Qc) ->
  exists l1 l2,
    pre1 ++ best :: pre2 ++ xs
    = l1 ++ SaboreAnalytics.min_by key best xs :: l2
    /\ (forall p, In p l1 ->
          (key (SaboreAnalytics.min_by key best xs) < key p)%Qc)
    /\ (forall p, In p l2 ->
          (key (SaboreAnalytics.min_by key best xs) <= key p)%Qc).
Proof.
  revert pre1 pre2 best. unfold SaboreAnalytics.min_by.
  induction xs as [|y xs IH]; intros pre1 pre2 best H1 H2; simpl.
  - exists pre1, pre2. rewrite app_nil_r. auto.
  - destruct (Qc_ltb (key y) (key best)) eqn:E.
    + apply Qc_ltb_lt in E.
      destruct (IH (pre1 ++ best :: pre2) [] y) as (l1 & l2 & Heq & Hl1 & Hl2).
      * intros p Hp. apply in_app_or in Hp. destruct Hp as [Hp|[<-|Hp]].
        -- eapply Qclt_trans; [exact E | apply H1; exact Hp].
        -- exact E.
        -- eapply Qclt_le_trans; [exact E | apply H2; exact Hp].
      * intros p [].
      * exists l1, l2. split; [|split; assumption].
        rewrite <- Heq, <- app_assoc. reflexivity.
    + assert (Hy : (key best <= key y)%Qc).
      { apply Qcnot_lt_le. intro H. apply Qc_ltb_lt in H. congruence. }
      destruct (IH pre1 (pre2 ++ [y]) best H1) as (l1 & l2 & Heq & Hl1 & Hl2).
      * intros p Hp. apply in_app_or in Hp. destruct Hp as [Hp|[<-|[]]].
        -- apply H2; exact Hp.
        -- exact Hy.
      * exists l1, l2. split; [|split; assumption].
        rewrite <- Heq, <- app_assoc. reflexivity.
Qed.

End Extremes.

(** X15.  [calcular_estatisticas_avancadas] returns nothing for an empty
    batch and only then.  Otherwise ['maior_pedido'] describes (id, value
    and date of) the first order of the batch whose [valor_total] no
    other order exceeds, and ['menor_pedido'] the first order whose
    [valor_total] is below or equal to that of every other order. *)
Theorem X15_maior_e_menor_pedido :
  forall {lib : Lib} (pedidos : list Pedido.t),
    (SaboreAnalytics.calcular_estatisticas_avancadas pedidos = None
     <-> pedidos = [])
    /\ forall e : SaboreAnalytics.estatisticas,
         SaboreAnalytics.calcular_estatisticas_avancadas pedidos = Some e ->
         (exists (maior : Pedido.t) (l1 l2 : list Pedido.t),
            pedidos = l1 ++ maior :: l2
            /\ SaboreAnalytics.maior_pedido e = SaboreAnalytics.descrever maior
            /\ (forall p, In p l1 ->
                  (Spec.valor_total p < Spec.valor_total maior)%Qc)
            /\ (forall p, In p l2 ->
                  (Spec.valor_total p <= Spec.valor_total maior)%Qc))
         /\ (exists (menor : Pedido.t) (l1 l2 : list Pedido.t),
               pedidos = l1 ++ menor :: l2
               /\ SaboreAnalytics.menor_pedido e
                  = SaboreAnalytics.descrever menor
               /\ (forall p, In p l1 ->
                     (Spec.valor_total menor < Spec.valor_total p)%Qc)
               /\ (forall p, In p l2 ->
                     (Spec.valor_total menor <= Spec.valor_total p)%Qc)).
Proof.
  intros lib pedidos. split.
  - destruct pedidos; simpl; split; congruence.
  - intros e He. destruct pedidos as [|x xs]; [discriminate|].
    simpl in He. injection He as <-.
    cbn [SaboreAnalytics.maior_pedido SaboreAnalytics.menor_pedido].
    split.
    + destruct (max_by_spec SaboreAnalytics.valor_do_pedido xs [] [] x)
        as (l1 & l2 & Heq & H1 & H2); [intros p [] | intros p [] |].
      exists (SaboreAnalytics.max_by SaboreAnalytics.valor_do_pedido x xs),
        l1, l2.
      split; [exact Heq|]. split; [reflexivity|]. split; assumption.
    + destruct (min_by_spec SaboreAnalytics.valor_do_pedido xs [] [] x)
        as (l1 & l2 & Heq & H1 & H2); [intros p [] | intros p [] |].
      exists (SaboreAnalytics.min_by SaboreAnalytics.valor_do_pedido x xs),
        l1, l2.
      split; [exact Heq|]. split; [reflexivity|]. split; assumption.
Qed.

Section Averages.

Lemma of_Z_pos (z : Z) : 0 < z -> (0 < of_Z z)%Qc.
Proof.
  intro H. unfold Qclt, of_Z. cbn [this Q2Qc]. rewrite !Qred_correct.
  unfold Qlt. simpl. lia.
Qed.

Lemma of_nat_pos (n : nat) : (0 < n)%nat -> (0 < of_nat n)%Qc.
Proof. intro H. apply of_Z_pos. lia. Qed.

Lemma total_le_upper (xs : list Qc) (M : Qc) :
  Forall (fun v => (v <= M)%Qc) xs ->
  (Spec.total xs <= of_nat (List.length xs) * M)%Qc.
Proof.
  induction 1 as [|x xs Hx _ IH]; simpl List.length; simpl Spec.total.
  - rewrite of_Z_0. change (of_nat 0) with 0%Qc.
    replace (0 * M)%Qc with 0%Qc by ring. apply Qcle_refl.
  - rewrite of_nat_S.
    replace ((of_nat (List.length xs) + 1) * M)%Qc
      with (M + of_nat (List.length xs) * M)%Qc by ring.
    apply Qcplus_le_compat; assumption.
Qed.

Lemma total_ge_lower (xs : list Qc) (m : Qc) :
  Forall (fun v => (m <= v)%Qc) xs ->
  (of_nat (List.length xs) * m <= Spec.total xs)%Qc.
Proof.
  induction 1 as [|x xs Hx _ IH]; simpl List.length; simpl Spec.total.
  - rewrite of_Z_0. change (of_nat 0) with 0%Qc.
    replace (0 * m)%Qc with 0%Qc by ring. apply Qcle_refl.
  - rewrite of_nat_S.
    replace ((of_nat (List.length xs) + 1) * m)%Qc
      with (m + of_nat (List.length xs) * m)%Qc by ring.
    apply Qcplus_le_compat; assumption.
Qed.

Lemma mean_times_n (xs : list Qc) :
  (0 < List.length xs)%nat ->
  (SaboreAnalytics.mean xs * of_nat (List.length xs))%Qc = Spec.total xs.
Proof.
  intro H. unfold SaboreAnalytics.mean. rewrite sum_total.
  field. apply of_nat_neq_0; exact H.
Qed.

Lemma mean_bounds (xs : list Qc) (m M : Qc) :
  (0 < List.length xs)%nat ->
  Forall (fun v => (m <= v)%Qc) xs ->
  Forall (fun v => (v <= M)%Qc) xs ->
  (m <= SaboreAnalytics.mean xs <= M)%Qc.
Proof.
  intros Hn Hm HM. pose proof (of_nat_pos _ Hn) as Hpos.
  split; apply (Qcmult_lt_0_le_reg_r _ _ (of_nat (List.length xs)) Hpos);
    rewrite (mean_times_n xs Hn).
  - rewrite Qcmult_comm. apply total_ge_lower; exact Hm.
  - rewrite (Qcmult_comm M). apply total_le_upper; exact HM.
Qed.

Lemma half_bounds (a b m M : Qc) :
  (m <= a <= M)%Qc -> (m <= b <= M)%Qc ->
  (m <= (a + b) / of_Z 2 <= M)%Qc.
Proof.
  intros [Ha1 Ha2] [Hb1 Hb2].
  assert (H2 : (0 < of_Z 2)%Qc) by (apply of_Z_pos; lia).
  assert (E : ((a + b) / of_Z 2 * of_Z 2)%Qc = (a + b)%Qc).
  { field. apply of_Z_neq_0. lia. }
  split; apply (Qcmult_lt_0_le_reg_r _ _ (of_Z 2) H2); rewrite E.
  - replace (m * of_Z 2)%Qc with (m + m)%Qc
      by (change (of_Z 2) with (1 + 1)%Qc; ring).
    apply Qcplus_le_compat; assumption.
  - replace (M * of_Z 2)%Qc with (M + M)%Qc
      by (change (of_Z 2) with (1 + 1)%Qc; ring).
    apply Qcplus_le_compat; assumption.
Qed.

Lemma median_bounds (xs : list Qc) (m M : Qc) :
  (0 < List.length xs)%nat ->
  Forall (fun v => (m <= v)%Qc) xs ->
  Forall (fun v => (v <= M)%Qc) xs ->
  (m <= SaboreAnalytics.median xs <= M)%Qc.
Proof.
  intros Hn Hm HM. unfold SaboreAnalytics.median.
  assert (Hnth : forall k, (k < List.length xs)%nat ->
            (m <= nth k (sorted Qc_ltb xs) (of_Z 0) <= M)%Qc).
  { intros k Hk.
    assert (Hin : In (nth k (sorted Qc_ltb xs) (of_Z 0)) xs).
    { eapply Permutation_in; [apply sorted_Permutation|].
      apply nth_In. rewrite sorted_length. exact Hk. }
    rewrite Forall_forall in Hm, HM. split; [apply Hm | apply HM]; exact Hin. }
  assert (Hhalf : (List.length xs / 2 < List.length xs)%nat)
    by (apply Nat.div_lt; lia).
  destruct (Nat.odd (List.length xs)).
  - apply Hnth; exact Hhalf.
  - apply half_bounds; apply Hnth; lia.
Qed.

End Averages.

(** X16.  In the advanced statistics of a batch that is not empty, the
    mean times the number of orders is the sum of the [valor_total]; the
    mean and the median both lie between the values reported for the
    smallest and the largest order; and for a single order the standard
    deviation is 0 (the square root is not taken) while the mean and the
    median are the value of that order. *)
Theorem X16_media_mediana_desvio :
  forall {lib : Lib} (pedidos : list Pedido.t)
         (e : SaboreAnalytics.estatisticas),
    SaboreAnalytics.calcular_estatisticas_avancadas pedidos = Some e ->
    let menor := SaboreAnalytics.valor (SaboreAnalytics.menor_pedido e) in
    let maior := SaboreAnalytics.valor (SaboreAnalytics.maior_pedido e) in
    (SaboreAnalytics.media_valor_pedido e * of_nat (List.length pedidos))%Qc
    = Spec.total (map Spec.valor_total pedidos)
    /\ (menor <= SaboreAnalytics.media_valor_pedido e <= maior)%Qc
    /\ (menor <= SaboreAnalytics.mediana_valor_pedido e <= maior)%Qc
    /\ (forall p, pedidos = [p] ->
          SaboreAnalytics.desvio_padrao_valor e = of_Z 0
          /\ SaboreAnalytics.media_valor_pedido e = Spec.valor_total p
          /\ SaboreAnalytics.mediana_valor_pedido e = Spec.valor_total p).
Proof.
  intros lib pedidos e He menor maior.
  destruct pedidos as [|x xs]; [discriminate|].
  simpl in He. injection He as <-. subst menor maior.
  cbn [SaboreAnalytics.media_valor_pedido SaboreAnalytics.mediana_valor_pedido
       SaboreAnalytics.desvio_padrao_valor SaboreAnalytics.maior_pedido
       SaboreAnalytics.menor_pedido SaboreAnalytics.descrever
       SaboreAnalytics.valor].
  set (valores := SaboreAnalytics.valor_do_pedido x
                  :: map SaboreAnalytics.valor_do_pedido xs).
  assert (Hlen : List.length valores = List.length (x :: xs))
    by (unfold valores; simpl; rewrite length_map; reflexivity).
  assert (Hpos : (0 < List.length valores)%nat) by (rewrite Hlen; simpl; lia).
  assert (HM : Forall
                 (fun v => (v <= SaboreAnalytics.valor_do_pedido
                                   (SaboreAnalytics.max_by
                                      SaboreAnalytics.valor_do_pedido x xs))%Qc)
                 valores).
  { destruct (max_by_spec SaboreAnalytics.valor_do_pedido xs [] [] x)
      as (l1 & l2 & Heq & H1 & H2); [intros p [] | intros p [] |].
    change valores with (map SaboreAnalytics.valor_do_pedido (x :: xs)).
    rewrite Forall_forall. intros v Hv. apply in_map_iff in Hv.
    destruct Hv as (p & <- & Hp).
    change (x :: xs) with ([] ++ x :: [] ++ xs) in Hp. rewrite Heq in Hp.
    apply in_app_or in Hp. destruct Hp as [Hp|[<-|Hp]].
    - apply Qclt_le_weak, H1, Hp.
    - apply Qcle_refl.
    - apply H2, Hp. }
  assert (Hm : Forall
                 (fun v => (SaboreAnalytics.valor_do_pedido
                              (SaboreAnalytics.min_by
                                 SaboreAnalytics.valor_do_pedido x xs) <= v)%Qc)
                 valores).
  { destruct (min_by_spec SaboreAnalytics.valor_do_pedido xs [] [] x)
      as (l1 & l2 & Heq & H1 & H2); [intros p [] | intros p [] |].
    change valores with (map SaboreAnalytics.valor_do_pedido (x :: xs)).
    rewrite Forall_forall. intros v Hv. apply in_map_iff in Hv.
    destruct Hv as (p & <- & Hp).
    change (x :: xs) with ([] ++ x :: [] ++ xs) in Hp. rewrite Heq in Hp.
    apply in_app_or in Hp. destruct Hp as [Hp|[<-|Hp]].
    - apply Qclt_le_weak, H1, Hp.
    - apply Qcle_refl.
    - apply H2, Hp. }
  split; [|split; [|split]].
  - rewrite <- Hlen. apply (mean_times_n valores Hpos).
  - apply mean_bounds; assumption.
  - apply median_bounds; assumption.
  - intros p Hp. injection Hp as -> ->. subst valores. simpl.
    split; [reflexivity|]. split.
    + unfold SaboreAnalytics.mean, sum. simpl. unfold Spec.valor_total,
        SaboreAnalytics.valor_do_pedido.
      change (of_nat 1) with 1%Qc. rewrite of_Z_0. field.
      discriminate.
    + reflexivity.
Qed.

Lemma X16_media_mediana_desvio_witness :
  exists e : SaboreAnalytics.estatisticas,
    SaboreAnalytics.calcular_estatisticas_avancadas (lib := Reference.lib)
      Samples.tres_pedidos = Some e
    /\ (SaboreAnalytics.media_valor_pedido e
        * of_nat (List.length Samples.tres_pedidos))%Qc
       = Spec.total (map Spec.valor_total Samples.tres_pedidos)
    /\ SaboreAnalytics.mediana_valor_pedido e = of_Z 100.
Proof.
  eexists. split; [vm_compute; reflexivity|].
  split; [|qc_eq].
  match goal with
  | |- (SaboreAnalytics.media_valor_pedido ?e * _)%Qc = _ =>
      destruct (X16_media_mediana_desvio (lib := Reference.lib)
                  Samples.tres_pedidos e ltac:(vm_compute; reflexivity))
        as (H & _)
  end.
  exact H.
Defined.

(** ** The report as a whole *)

Section WholeReport.
Context {lib : Lib}.

Lemma gerar_relatorio_completo_clock (pedidos : list Pedido.t) (c : clock)
    (r : SaboreAnalytics.relatorio) :
  fst (SaboreAnalytics.gerar_relatorio_completo pedidos c) = Ok r ->
  snd (SaboreAnalytics.gerar_relatorio_completo pedidos c)
  = Spec.depois_de (2 + Spec.leituras_antes pedidos) c.
Proof.
  unfold SaboreAnalytics.gerar_relatorio_completo,
    SaboreAnalytics.calcular_metricas_principais,
    SaboreAnalytics.analise_tendencia_vendas,
    DataProcessor.calcular_crescimento_vendas,
    SaboreAnalytics.io_bind, SaboreAnalytics.io_ret, now.
  destruct pedidos as [|p pedidos]; cbn [Spec.leituras_antes].
  - cbn [reads readings].
    destruct (SaboreAnalytics.tendencia_em (readings c (reads c)) []
                DataProcessor.dias_padrao); cbn [fst snd];
      [reflexivity | discriminate].
  - cbn [reads readings].
    destruct (DataProcessor.crescimento_em (readings c (reads c))
                (p :: pedidos) DataProcessor.dias_padrao);
      cbn [fst snd readings reads]; [|discriminate].
    destruct (SaboreAnalytics.tendencia_em (readings c (S (reads c)))
                (p :: pedidos) DataProcessor.dias_padrao);
      cbn [fst snd]; [reflexivity | discriminate].
Qed.

Lemma tendencia_em_Ok (agora : naive) (pedidos : list Pedido.t) :
  30 < toordinal agora <= MAXORDINAL ->
  exists t, SaboreAnalytics.tendencia_em agora pedidos DataProcessor.dias_padrao
            = Ok t.
Proof.
  intro H. unfold DataProcessor.dias_padrao.
  destruct (sub_days_Ok agora 30) as (ini & Hi & _); [lia | lia |].
  eexists. apply (tendencia_em_spec agora ini pedidos 30 Hi).
Qed.

Lemma relatorio_de_Ok (pedidos : list Pedido.t) (t1 t2 t3 : naive) :
  60 < toordinal t1 <= MAXORDINAL ->
  30 < toordinal t2 <= MAXORDINAL ->
  exists r, Spec.relatorio_de pedidos t1 t2 t3 = Ok r.
Proof.
  intros H1 H2. unfold Spec.relatorio_de.
  assert (Hm : exists m, Spec.metricas_de pedidos t1 = Ok m).
  { unfold Spec.metricas_de. destruct pedidos as [|p pedidos].
    - eexists; reflexivity.
    - destruct (crescimento_em_Ok t1 (p :: pedidos) H1) as [g Hg].
      unfold DataProcessor.dias_padrao. rewrite Hg. eexists; reflexivity. }
  destruct Hm as [m ->]. cbn [bind].
  destruct (tendencia_em_Ok t2 pedidos H2) as [t ->]. cbn [bind].
  eexists; reflexivity.
Qed.

End WholeReport.

(** X17.  A report that [gerar_relatorio_completo] returns is made of the
    results of the single operations on the same batch with their default
    parameters (forecast for 7 days, the 10 most sold items, the three
    groupings by period), its metrics carry the total of sales, the
    average ticket and the number of orders of the batch, its trend label
    agrees with the sign of the growth, and its time of generation is the
    last reading of the clock, the third for a batch that is not empty
    and the second for an empty one. *)
Theorem X17_relatorio_composto :
  forall {lib : Lib} (pedidos : list Pedido.t) (c c' : clock)
         (r : SaboreAnalytics.relatorio),
    SaboreAnalytics.gerar_relatorio_completo pedidos c = (Ok r, c') ->
    c' = Spec.depois_de (2 + Spec.leituras_antes pedidos) c
    /\ SaboreAnalytics.vendas_totais (SaboreAnalytics.r_metricas_principais r)
       = DataProcessor.calcular_vendas_totais pedidos
    /\ SaboreAnalytics.ticket_medio (SaboreAnalytics.r_metricas_principais r)
       = DataProcessor.calcular_ticket_medio pedidos
    /\ SaboreAnalytics.total_pedidos (SaboreAnalytics.r_metricas_principais r)
       = Z.of_nat (List.length pedidos)
    /\ SaboreAnalytics.r_estatisticas_avancadas r
       = SaboreAnalytics.calcular_estatisticas_avancadas pedidos
    /\ Spec.coerente (SaboreAnalytics.r_tendencia_vendas r)
    /\ SaboreAnalytics.r_previsao_vendas r
       = SaboreAnalytics.previsao_vendas_simples pedidos 7
    /\ SaboreAnalytics.r_horarios_pico r = DataProcessor.horarios_pico pedidos
    /\ SaboreAnalytics.r_dias_semana_performance r
       = DataProcessor.dias_semana_performance pedidos
    /\ SaboreAnalytics.r_itens_mais_vendidos r
       = DataProcessor.itens_mais_populares pedidos 10
    /\ SaboreAnalytics.r_vendas_por_dia r
       = DataProcessor.agrupar_por_periodo pedidos "dia"
    /\ SaboreAnalytics.r_vendas_por_semana r
       = DataProcessor.agrupar_por_periodo pedidos "semana"
    /\ SaboreAnalytics.r_vendas_por_mes r
       = DataProcessor.agrupar_por_periodo pedidos "mes"
    /\ SaboreAnalytics.r_data_geracao r
       = isoformat
           (readings c (reads c + Spec.leituras_antes pedidos + 1)).
Proof.
  intros lib pedidos c c' r H.
  assert (H1 : fst (SaboreAnalytics.gerar_relatorio_completo pedidos c) = Ok r)
    by (rewrite H; reflexivity).
  assert (H2 : snd (SaboreAnalytics.gerar_relatorio_completo pedidos c) = c')
    by (rewrite H; reflexivity).
  split; [rewrite <- H2; apply (gerar_relatorio_completo_clock pedidos c r H1)|].
  rewrite gerar_relatorio_completo_run in H1. cbv zeta in H1.
  pose proof H1 as Hrun.
  apply relatorio_de_inv in H1. destruct H1 as (m & t & Hm & ->).
  apply metricas_de_inv in Hm. destruct Hm as (A & B & C).
  cbn [SaboreAnalytics.r_metricas_principais
       SaboreAnalytics.r_estatisticas_avancadas
       SaboreAnalytics.r_tendencia_vendas SaboreAnalytics.r_previsao_vendas
       SaboreAnalytics.r_horarios_pico
       SaboreAnalytics.r_dias_semana_performance
       SaboreAnalytics.r_itens_mais_vendidos SaboreAnalytics.r_vendas_por_dia
       SaboreAnalytics.r_vendas_por_semana SaboreAnalytics.r_vendas_por_mes
       SaboreAnalytics.r_data_geracao].
  repeat (split; [first [assumption | reflexivity]|]).
  split; [|repeat (split; [reflexivity|]); reflexivity].
  (* the trend *)
  unfold Spec.relatorio_de in Hrun.
  destruct (Spec.metricas_de pedidos (readings c (reads c))); [|discriminate].
  cbn [bind] in Hrun.
  destruct (SaboreAnalytics.tendencia_em
              (readings c (reads c + Spec.leituras_antes pedidos)) pedidos
              DataProcessor.dias_padrao) as [t'|] eqn:Et; [|discriminate].
  cbn [bind] in Hrun. injection Hrun as _ Ht. subst t'.
  unfold SaboreAnalytics.tendencia_em in Et.
  destruct (sub_days _ DataProcessor.dias_padrao) as [ini|]; [|discriminate].
  cbn [bind] in Et.
  destruct (SaboreAnalytics.pedidos_periodo ini pedidos) as [|p g].
  - injection Et as <-. apply estavel_coerente.
  - destruct (List.length (DataProcessor.agrupar_por_periodo (p :: g) "dia")
              <? 2)%nat; injection Et as <-.
    + apply estavel_coerente.
    + apply regressao_coerente.
Qed.

Lemma X17_relatorio_composto_witness :
  exists r : SaboreAnalytics.relatorio,
    SaboreAnalytics.gerar_relatorio_completo (lib := Reference.lib)
      Samples.tres_pedidos Samples.relogio_parado
    = (Ok r, Spec.depois_de 3 Samples.relogio_parado)
    /\ SaboreAnalytics.r_vendas_por_dia r
       = DataProcessor.agrupar_por_periodo (lib := Reference.lib)
           Samples.tres_pedidos "dia"
    /\ SaboreAnalytics.r_data_geracao r = "2024-06-15T00:00:00"%string.
Proof.
  eexists. split; [vm_compute; reflexivity|].
  match goal with
  | |- SaboreAnalytics.r_vendas_por_dia ?r = _ /\ _ =>
      pose proof (X17_relatorio_composto (lib := Reference.lib)
                    Samples.tres_pedidos Samples.relogio_parado
                    (Spec.depois_de 3 Samples.relogio_parado) r
                    ltac:(vm_compute; reflexivity)) as H
  end.
  destruct H as (_ & _ & _ & _ & _ & _ & _ & _ & _ & _ & Hd & _).
  split; [exact Hd | reflexivity].
Defined.

(** X18.  When the three readings of the clock are dates after the
    first sixty days of year 1, [gerar_relatorio_completo] returns a
    report for every batch, after three readings of the clock for a batch
    that is not empty and two for an empty one. *)
Theorem X18_relatorio_retorna :
  forall {lib : Lib} (pedidos : list Pedido.t) (c : clock),
    (forall i : nat,
       (i < 3)%nat ->
       60 < toordinal (readings c (reads c + i)) <= MAXORDINAL) ->
    exists r : SaboreAnalytics.relatorio,
      SaboreAnalytics.gerar_relatorio_completo pedidos c
      = (Ok r, Spec.depois_de (2 + Spec.leituras_antes pedidos) c).
Proof.
  intros lib pedidos c Hc.
  assert (Hk : (Spec.leituras_antes pedidos < 2)%nat)
    by (destruct pedidos; simpl; lia).
  pose proof (Hc 0%nat ltac:(lia)) as H0. rewrite Nat.add_0_r in H0.
  pose proof (Hc (Spec.leituras_antes pedidos) ltac:(lia)) as H1.
  destruct (relatorio_de_Ok pedidos
              (readings c (reads c))
              (readings c (reads c + Spec.leituras_antes pedidos))
              (readings c (reads c + Spec.leituras_antes pedidos + 1))
              H0 ltac:(lia)) as [r Hr].
  exists r.
  pose proof (gerar_relatorio_completo_run pedidos c) as Hrun.
  cbv zeta in Hrun. rewrite Hr in Hrun.
  pose proof (gerar_relatorio_completo_clock pedidos c r Hrun) as Hclk.
  destruct (SaboreAnalytics.gerar_relatorio_completo pedidos c) as [res c'].
  simpl in Hrun, Hclk. subst. reflexivity.
Qed.

Lemma X18_relatorio_retorna_witness :
  (forall i : nat,
     (i < 3)%nat ->
     60 < toordinal (readings Samples.relogio_que_avanca
                       (reads Samples.relogio_que_avanca + i)) <= MAXORDINAL)
  /\ exists r : SaboreAnalytics.relatorio,
       SaboreAnalytics.gerar_relatorio_completo (lib := Reference.lib)
         Samples.dez_dias Samples.relogio_que_avanca
       = (Ok r, Spec.depois_de 3 Samples.relogio_que_avanca).
Proof.
  assert (H : forall i : nat,
            (i < 3)%nat ->
            60 < toordinal (readings Samples.relogio_que_avanca
                              (reads Samples.relogio_que_avanca + i))
            <= MAXORDINAL).
  { intros i Hi. destruct i as [|[|[|i]]]; try lia;
      vm_compute; split; congruence. }
  split; [exact H|].
  apply (X18_relatorio_retorna (lib := Reference.lib) Samples.dez_dias
           Samples.relogio_que_avanca H).
Defined.

(** X19.  For an empty batch the report still reads the clock for the
    trend and subtracts the 30 days; when that date exists, the report
    has metrics that are all 0, no advanced statistics, a stable trend
    with growth 0, a forecast of seven zeros and empty peak hours,
    weekday performance, ranking and groupings, and it is generated at the
    second reading of the clock. *)
Theorem X19_relatorio_do_lote_vazio :
  forall {lib : Lib} (c : clock),
    30 < toordinal (readings c (reads c)) <= MAXORDINAL ->
    SaboreAnalytics.gerar_relatorio_completo [] c
    = (Ok (SaboreAnalytics.mk_relatorio
             (SaboreAnalytics.mk_metricas (of_Z 0) (of_Z 0) 0 (of_Z 0))
             None
             (SaboreAnalytics.mk_tendencia "estavel" (of_Z 0) None)
             [of_Z 0; of_Z 0; of_Z 0; of_Z 0; of_Z 0; of_Z 0; of_Z 0]
             [] [] [] [] [] []
             (isoformat (readings c (S (reads c))))),
       Spec.depois_de 2 c).
Proof.
  intros lib c Hc.
  unfold SaboreAnalytics.gerar_relatorio_completo,
    SaboreAnalytics.calcular_metricas_principais,
    SaboreAnalytics.analise_tendencia_vendas,
    SaboreAnalytics.io_bind, SaboreAnalytics.io_ret, now.
  cbn [reads readings].
  destruct (sub_days_Ok (readings c (reads c)) 30) as (ini & Hi & _);
    [lia | lia |].
  rewrite (tendencia_em_spec _ ini [] DataProcessor.dias_padrao Hi).
  reflexivity.
Qed.

Lemma X19_relatorio_do_lote_vazio_witness :
  30 < toordinal (readings Samples.relogio_parado 0) <= MAXORDINAL
  /\ fst (SaboreAnalytics.gerar_relatorio_completo (lib := Reference.lib) []
            Samples.relogio_parado)
     = Ok (SaboreAnalytics.mk_relatorio
             (SaboreAnalytics.mk_metricas (of_Z 0) (of_Z 0) 0 (of_Z 0))
             None
             (SaboreAnalytics.mk_tendencia "estavel" (of_Z 0) None)
             [of_Z 0; of_Z 0; of_Z 0; of_Z 0; of_Z 0; of_Z 0; of_Z 0]
             [] [] [] [] [] []
             "2024-06-15T00:00:00"%string).
Proof.
  split; [vm_compute; split; congruence|].
  rewrite (X19_relatorio_do_lote_vazio (lib := Reference.lib)
             Samples.relogio_parado);
    [reflexivity | vm_compute; split; congruence].
Defined.

(** X20.  [calcular_metricas_principais] answers an empty batch with
    metrics that are all 0 and does not read the clock; for any other
    batch it reads the clock exactly once, whether the growth rate is
    computed or raises. *)
Theorem X20_metricas_e_relogio :
  forall {lib : Lib} (c : clock),
    SaboreAnalytics.calcular_metricas_principais [] c
    = (Ok (SaboreAnalytics.mk_metricas (of_Z 0) (of_Z 0) 0 (of_Z 0)), c)
    /\ forall (p : Pedido.t) (pedidos : list Pedido.t),
         snd (SaboreAnalytics.calcular_metricas_principais (p :: pedidos) c)
         = Spec.depois_de 1 c.
Proof.
  intros lib c. split; [reflexivity|]. intros p pedidos.
  unfold SaboreAnalytics.calcular_metricas_principais,
    SaboreAnalytics.io_bind, SaboreAnalytics.io_ret,
    DataProcessor.calcular_crescimento_vendas, now.
  cbn [reads readings].
  destruct (DataProcessor.crescimento_em (readings c (reads c)) (p :: pedidos)
              DataProcessor.dias_padrao); reflexivity.
Qed.

(** X21.  [calcular_ticket_medio] is 0 for an empty batch (nothing is
    divided) and otherwise the number that, multiplied by the number of
    orders, gives [calcular_vendas_totais]; the metrics that
    [calcular_metricas_principais] returns and the metrics of the report
    that [gerar_relatorio_completo] returns carry the same number under
    ['ticket_medio']. *)
Theorem X21_calcular_ticket_medio :
  forall {lib : Lib} (pedidos : list Pedido.t),
    DataProcessor.calcular_ticket_medio [] = of_Z 0
    /\ ((0 < List.length pedidos)%nat ->
        (DataProcessor.calcular_ticket_medio pedidos
         * of_nat (List.length pedidos))%Qc
        = DataProcessor.calcular_vendas_totais pedidos)
    /\ (forall (c c' : clock) (m : SaboreAnalytics.metricas),
          SaboreAnalytics.calcular_metricas_principais pedidos c = (Ok m, c') ->
          SaboreAnalytics.ticket_medio m
          = DataProcessor.calcular_ticket_medio pedidos)
    /\ (forall (c c' : clock) (r : SaboreAnalytics.relatorio),
          SaboreAnalytics.gerar_relatorio_completo pedidos c = (Ok r, c') ->
          SaboreAnalytics.ticket_medio
            (SaboreAnalytics.r_metricas_principais r)
          = DataProcessor.calcular_ticket_medio pedidos).
Proof.
  intros lib pedidos. split; [reflexivity|]. split; [|split].
  - intro H. destruct pedidos as [|p pedidos]; [simpl in H; lia|].
    unfold DataProcessor.calcular_ticket_medio.
    field. apply of_nat_neq_0. exact H.
  - intros c c' m H. destruct pedidos as [|p pedidos].
    + injection H as <- _. reflexivity.
    + unfold SaboreAnalytics.calcular_metricas_principais,
        SaboreAnalytics.io_bind, SaboreAnalytics.io_ret,
        DataProcessor.calcular_crescimento_vendas, now in H.
      cbn [reads readings] in H.
      destruct (DataProcessor.crescimento_em (readings c (reads c))
                  (p :: pedidos) DataProcessor.dias_padrao);
        [|discriminate].
      injection H as <- _. cbn [SaboreAnalytics.ticket_medio].
      unfold DataProcessor.calcular_ticket_medio, of_nat.
      replace (0 <? Z.of_nat (List.length (p :: pedidos))) with true
        by (symmetry; apply Z.ltb_lt; simpl List.length; lia).
      reflexivity.
  - intros c c' r H.
    assert (Hf : fst (SaboreAnalytics.gerar_relatorio_completo pedidos c)
                 = Ok r) by (rewrite H; reflexivity).
    rewrite gerar_relatorio_completo_run in Hf.
    apply relatorio_de_inv in Hf. destruct Hf as (m & t & Hm & ->).
    cbn [SaboreAnalytics.r_metricas_principais].
    apply (metricas_de_inv pedidos _ m Hm).
Qed.

(** ** Edges of the forecast, the ranking and the total *)

Section Edges.
Context {lib : Lib}.

Lemma previsao_shape (pedidos : list Pedido.t) (n : Z) :
  let valores := values (DataProcessor.agrupar_por_periodo pedidos "dia") in
  SaboreAnalytics.previsao_vendas_simples pedidos n
  = replicate
      (match valores with
       | [] => of_Z 0
       | _ => if (7 <=? List.length valores)%nat
              then SaboreAnalytics.mean (slice_last valores 7)
              else SaboreAnalytics.mean valores
       end) n.
Proof.
  intro valores. subst valores.
  unfold SaboreAnalytics.previsao_vendas_simples.
  destruct pedidos as [|p pedidos]; [reflexivity|].
  destruct (DataProcessor.agrupar_por_periodo (p :: pedidos) "dia")
    as [|b bs] eqn:E; [reflexivity|].
  set (valores := values (b :: bs)).
  change (values (b :: bs)) with valores.
  assert (Hv : valores = snd b :: values bs) by reflexivity.
  rewrite Hv at 3. cbv iota.
  destruct (7 <=? List.length valores)%nat eqn:E7; [|reflexivity].
  apply Nat.leb_le in E7.
  unfold SaboreAnalytics.mean.
  rewrite (slice_last_length valores 7 E7). reflexivity.
Qed.

End Edges.

(** ** The days that the forecast reads *)

Section ForecastWindow.
Context {lib : Lib}.

Lemma agrupar_get (pedidos : list Pedido.t) (tipo k : string) :
  dict_get String.eqb k (DataProcessor.agrupar_por_periodo pedidos tipo)
  = match Spec.com_chave String.eqb
            (DataProcessor.chave_periodo tipo) k pedidos with
    | [] => None
    | grupo => Some (sum (map Spec.valor_total grupo))
    end.
Proof.
  unfold DataProcessor.agrupar_por_periodo.
  rewrite (dict_get_Permutation String.eqb String.eqb_spec k _ _
             (keyed_loop_NoDup String.eqb String.eqb_spec
                (DataProcessor.chave_periodo tipo) (of_Z 0)
                (fun p v => (v + get (Pedido.valor_total p) (of_Z 0))%Qc)
                pedidos [] (NoDup_nil _))
             (Permutation_sym (sorted_Permutation _ _))).
  rewrite (keyed_loop_get String.eqb String.eqb_spec
             (DataProcessor.chave_periodo tipo) (of_Z 0)
             (fun p v => (v + get (Pedido.valor_total p) (of_Z 0))%Qc)).
  destruct (Spec.com_chave String.eqb (DataProcessor.chave_periodo tipo) k
              pedidos) as [|p g]; [reflexivity|].
  simpl dict_get. unfold get at 1. rewrite fold_left_add_valor. reflexivity.
Qed.

Lemma com_chave_dos_dias (dias : list string) (k : string)
    (pedidos : list Pedido.t) :
  Spec.com_chave String.eqb (DataProcessor.chave_periodo "dia") k
    (Spec.dos_dias dias pedidos)
  = if existsb (String.eqb k) dias
    then Spec.com_chave String.eqb (DataProcessor.chave_periodo "dia") k
           pedidos
    else [].
Proof.
  unfold Spec.com_chave, Spec.dos_dias.
  induction pedidos as [|p pedidos IH]; simpl.
  - destruct (existsb (String.eqb k) dias); reflexivity.
  - destruct (Spec.timestamp p) as [d|] eqn:Et; [|exact IH].
    destruct (String.eqb_spec (DataProcessor.chave_periodo "dia" d) k)
      as [E|E].
    + rewrite E.
      destruct (existsb (String.eqb k) dias) eqn:Ex; simpl.
      * rewrite Et, E, String.eqb_refl.
        rewrite IH. reflexivity.
      * exact IH.
    + destruct (existsb
                  (String.eqb (DataProcessor.chave_periodo "dia" d)) dias);
        simpl; [|exact IH].
      rewrite Et.
      destruct (String.eqb_spec (DataProcessor.chave_periodo "dia" d) k);
        [contradiction | exact IH].
Qed.

Lemma dict_get_filter_keys {V : Type} (P : string -> bool) (k : string)
    (d : dict (K := string) (V := V)) :
  dict_get String.eqb k (filter (fun kv => P (fst kv)) d)
  = if P k then dict_get String.eqb k d else None.
Proof.
  induction d as [|[k' v] d IH]; simpl.
  - destruct (P k); reflexivity.
  - destruct (String.eqb_spec k k') as [->|Hne].
    + destruct (P k') eqn:E; simpl.
      * rewrite String.eqb_refl. reflexivity.
      * rewrite IH. rewrite ?E. reflexivity.
    + destruct (P k') eqn:E; simpl.
      * destruct (String.eqb_spec k k'); [contradiction | exact IH].
      * exact IH.
Qed.

Lemma keys_filter {V : Type} (P : string -> bool)
    (d : dict (K := string) (V := V)) :
  keys (filter (fun kv => P (fst kv)) d) = filter P (keys d).
Proof.
  unfold keys. induction d as [|[k v] d IH]; simpl; [reflexivity|].
  destruct (P k); simpl; rewrite IH; reflexivity.
Qed.

Lemma StronglySorted_filter {A : Type} (R : A -> A -> Prop) (P : A -> bool)
    (l : list A) :
  StronglySorted R l -> StronglySorted R (filter P l).
Proof.
  induction 1 as [|a l Hs IH Hf]; simpl; [constructor|].
  destruct (P a); [|exact IH].
  constructor; [exact IH|].
  rewrite Forall_forall in *. intros x Hx.
  apply filter_In in Hx. apply Hf. tauto.
Qed.

Lemma dict_get_fora {V : Type} (k : string)
    (d : dict (K := string) (V := V)) :
  Forall (fun k' => String.ltb k k' = true) (keys d) ->
  dict_get String.eqb k d = None.
Proof.
  induction d as [|[k' v] d IH]; simpl; intro H; [reflexivity|].
  inversion H as [|? ? Hk Hd]; subst.
  destruct (String.eqb_spec k k') as [->|_].
  - rewrite string_ltb_irrefl in Hk. discriminate.
  - apply IH. exact Hd.
Qed.

(** Two dictionaries whose keys ascend and that answer every lookup
    alike are the same list. *)
Lemma sorted_dict_ext {V : Type} (d1 d2 : dict (K := string) (V := V)) :
  StronglySorted (fun a b => String.ltb a b = true) (keys d1) ->
  StronglySorted (fun a b => String.ltb a b = true) (keys d2) ->
  (forall k, dict_get String.eqb k d1 = dict_get String.eqb k d2) ->
  d1 = d2.
Proof.
  revert d2. induction d1 as [|[k1 v1] d1 IH]; intros [|[k2 v2] d2] S1 S2 H.
  - reflexivity.
  - specialize (H k2). simpl in H. rewrite String.eqb_refl in H.
    discriminate.
  - specialize (H k1). simpl in H. rewrite String.eqb_refl in H.
    discriminate.
  - simpl in S1, S2.
    inversion S1 as [|? ? S1' F1]; subst.
    inversion S2 as [|? ? S2' F2]; subst.
    assert (Hk : k1 = k2).
    { destruct (String.eqb_spec k1 k2) as [E|Hne]; [exact E|]. exfalso.
      destruct (String.ltb k2 k1) eqn:L.
      - pose proof (H k2) as H2. simpl in H2.
        rewrite String.eqb_refl in H2.
        destruct (String.eqb_spec k2 k1) as [E|_]; [congruence|].
        rewrite dict_get_fora in H2; [discriminate|].
        rewrite Forall_forall in *. intros x Hx.
        apply (string_ltb_trans k2 k1 x L). apply F1. exact Hx.
      - pose proof (string_ltb_total k1 k2 L Hne) as L'.
        pose proof (H k1) as H1. simpl in H1.
        rewrite String.eqb_refl in H1.
        destruct (String.eqb_spec k1 k2) as [E|_]; [congruence|].
        rewrite dict_get_fora in H1; [discriminate|].
        rewrite Forall_forall in *. intros x Hx.
        apply (string_ltb_trans k1 k2 x L'). apply F2. exact Hx. }
    subst k2.
    pose proof (H k1) as Hv. simpl in Hv. rewrite String.eqb_refl in Hv.
    injection Hv as ->.
    f_equal. apply IH; [exact S1' | exact S2' |].
    intro k. specialize (H k). simpl in H.
    destruct (String.eqb_spec k k1) as [E|_]; [|exact H].
    rewrite E, !dict_get_fora by assumption. reflexivity.
Qed.

Lemma agrupar_dos_dias (dias : list string) (pedidos : list Pedido.t) :
  DataProcessor.agrupar_por_periodo (Spec.dos_dias dias pedidos) "dia"
  = filter (fun kv => existsb (String.eqb (fst kv)) dias)
      (DataProcessor.agrupar_por_periodo pedidos "dia").
Proof.
  apply sorted_dict_ext.
  - apply agrupar_sorted_keys.
  - rewrite (keys_filter (fun k => existsb (String.eqb k) dias)).
    apply StronglySorted_filter, agrupar_sorted_keys.
  - intro k.
    rewrite (dict_get_filter_keys (fun k => existsb (String.eqb k) dias)).
    rewrite !agrupar_get, com_chave_dos_dias.
    destruct (existsb (String.eqb k) dias); reflexivity.
Qed.

Lemma filter_todos {A : Type} (f : A -> bool) (l : list A) :
  (forall x, In x l -> f x = true) -> filter f l = l.
Proof.
  induction l as [|a l IH]; simpl; intro H; [reflexivity|].
  rewrite (H a) by (left; reflexivity).
  rewrite IH; [reflexivity|]. intros x Hx. apply H. right; exact Hx.
Qed.

Lemma filter_nenhum {A : Type} (f : A -> bool) (l : list A) :
  (forall x, In x l -> f x = false) -> filter f l = [].
Proof.
  induction l as [|a l IH]; simpl; intro H; [reflexivity|].
  rewrite (H a) by (left; reflexivity).
  apply IH. intros x Hx. apply H. right; exact Hx.
Qed.

Lemma existsb_eqb_In (k : string) (l : list string) :
  existsb (String.eqb k) l = true <-> In k l.
Proof.
  rewrite existsb_exists. split.
  - intros (x & Hx & E). apply String.eqb_eq in E. subst x. exact Hx.
  - intro H. exists k. split; [exact H | apply String.eqb_refl].
Qed.

(** Filtering a dictionary by the keys of one of its tails gives that
    tail. *)
Lemma filter_chaves_do_fim {V : Type} (a b : dict (K := string) (V := V)) :
  NoDup (keys (a ++ b)) ->
  filter (fun kv => existsb (String.eqb (fst kv)) (keys b)) (a ++ b) = b.
Proof.
  intro Hn. rewrite filter_app.
  rewrite (filter_nenhum _ a), (filter_todos _ b); [reflexivity | |].
  - intros [k v] Hx. apply existsb_eqb_In. unfold keys.
    apply (in_map fst) in Hx. exact Hx.
  - intros [k v] Hx. cbn [fst].
    destruct (existsb (String.eqb k) (keys b)) eqn:E; [|reflexivity].
    exfalso. apply existsb_eqb_In in E.
    unfold keys in Hn. rewrite map_app in Hn.
    revert Hn Hx E. clear. induction a as [|[k' v'] a IH]; simpl.
    + tauto.
    + intros Hn [H|H] E.
      * injection H as -> ->. inversion Hn as [|? ? Hk _]; subst.
        apply Hk. apply in_or_app. right. exact E.
      * inversion Hn as [|? ? _ Hn']; subst. apply (IH Hn' H E).
Qed.

Lemma agrupar_NoDup_keys (pedidos : list Pedido.t) (tipo : string) :
  NoDup (keys (DataProcessor.agrupar_por_periodo pedidos tipo)).
Proof.
  unfold DataProcessor.agrupar_por_periodo.
  eapply Permutation_NoDup.
  - apply Permutation_map. apply Permutation_sym, sorted_Permutation.
  - apply (por_chave_inv (DataProcessor.chave_periodo tipo) pedidos []).
    constructor.
Qed.

Lemma agrupar_ultimos_dias (pedidos : list Pedido.t) :
  DataProcessor.agrupar_por_periodo
    (Spec.dos_dias (Spec.ultimos_dias pedidos) pedidos) "dia"
  = slice_last (DataProcessor.agrupar_por_periodo pedidos "dia") 7.
Proof.
  rewrite agrupar_dos_dias. unfold Spec.ultimos_dias, slice_last.
  set (d := DataProcessor.agrupar_por_periodo pedidos "dia").
  set (m := (List.length d - 7)%nat).
  transitivity
    (filter (fun kv => existsb (String.eqb (fst kv)) (keys (skipn m d)))
       (firstn m d ++ skipn m d)).
  { rewrite firstn_skipn. reflexivity. }
  apply filter_chaves_do_fim. rewrite firstn_skipn.
  apply agrupar_NoDup_keys.
Qed.

End ForecastWindow.

(** X22.  A forecast for a number of days that is 0 or negative is the
    empty list.  The forecast reads the batch only through its last seven
    day buckets (through all of them when there are fewer): the orders of
    those days alone give the same forecast, whatever the batch holds for
    earlier days and whatever orders it holds without a usable
    timestamp. *)
Theorem X22_previsao_dias_recentes :
  forall {lib : Lib} (pedidos : list Pedido.t) (dias_futuros : Z),
    (dias_futuros <= 0 ->
     SaboreAnalytics.previsao_vendas_simples pedidos dias_futuros = [])
    /\ DataProcessor.agrupar_por_periodo
         (Spec.dos_dias (Spec.ultimos_dias pedidos) pedidos) "dia"
       = slice_last (DataProcessor.agrupar_por_periodo pedidos "dia") 7
    /\ SaboreAnalytics.previsao_vendas_simples
         (Spec.dos_dias (Spec.ultimos_dias pedidos) pedidos) dias_futuros
       = SaboreAnalytics.previsao_vendas_simples pedidos dias_futuros.
Proof.
  intros lib pedidos n. split; [|split].
  - intro Hn. rewrite previsao_shape. cbv zeta. unfold replicate.
    replace (Z.to_nat n) with 0%nat by lia. reflexivity.
  - apply agrupar_ultimos_dias.
  - rewrite !previsao_shape. cbv zeta. rewrite agrupar_ultimos_dias.
    set (d := DataProcessor.agrupar_por_periodo pedidos "dia").
    f_equal.
    assert (Hv : values (slice_last d 7) = slice_last (values d) 7).
    { unfold slice_last, values. rewrite length_map. symmetry. apply skipn_map. }
    rewrite Hv.
    destruct (Nat.le_gt_cases 7 (List.length (values d))) as [H7|H7].
    + assert (Hl : List.length (slice_last (values d) 7) = 7%nat)
        by (apply slice_last_length; exact H7).
      replace (7 <=? List.length (values d))%nat with true
        by (symmetry; apply Nat.leb_le; exact H7).
      rewrite Hl. cbn [Nat.leb].
      destruct (slice_last (values d) 7) as [|x xs] eqn:E;
        [simpl in Hl; lia|].
      destruct (values d) as [|y ys] eqn:Ey; [simpl in H7; lia|].
      unfold slice_last. rewrite Hl. reflexivity.
    + assert (Hs : slice_last (values d) 7 = values d).
      { unfold slice_last.
        replace (List.length (values d) - 7)%nat with 0%nat by lia.
        reflexivity. }
      rewrite Hs.
      replace (7 <=? List.length (values d))%nat with false
        by (symmetry; apply Nat.leb_gt; exact H7).
      reflexivity.
Qed.

(** X23.  [itens_mais_populares] does not read a negative limit as "no
    entries": the slice then drops as many entries from the end of the
    ranking of all item names as the limit says.  The ranking of all
    names has one entry for each key of the counting dictionary; with
    limit [-k] the result is that ranking without its last [k] entries,
    so it is empty exactly when [k] is at least the number of names.
    With limit 0 the ranking is empty. *)
Theorem X23_limite_negativo :
  forall (pedidos : list Pedido.t) (limite : Z),
    limite < 0 ->
    let todos := DataProcessor.itens_mais_populares pedidos
                   (Z.of_nat (List.length
                                (DataProcessor.contador_itens pedidos))) in
    let cortado := DataProcessor.itens_mais_populares pedidos limite in
    List.length todos = List.length (DataProcessor.contador_itens pedidos)
    /\ cortado = firstn (List.length todos - Z.to_nat (- limite)) todos
    /\ List.length cortado = (List.length todos - Z.to_nat (- limite))%nat
    /\ (cortado = [] <-> Z.of_nat (List.length todos) <= - limite)
    /\ DataProcessor.itens_mais_populares pedidos 0 = [].
Proof.
  intros pedidos limite Hl todos cortado. subst todos cortado.
  unfold DataProcessor.itens_mais_populares.
  set (l := sorted DataProcessor.gt_quantidade
              (values (DataProcessor.contador_itens pedidos))).
  assert (Hlen : List.length l
                 = List.length (DataProcessor.contador_itens pedidos)).
  { unfold l. rewrite sorted_length. unfold values. apply length_map. }
  assert (Hall : slice_to l (Z.of_nat (List.length
                                         (DataProcessor.contador_itens pedidos)))
                 = l).
  { rewrite slice_to_firstn by lia. rewrite Nat2Z.id, <- Hlen.
    apply firstn_all. }
  rewrite Hall.
  assert (Hcut : slice_to l limite
                 = firstn (List.length l - Z.to_nat (- limite)) l).
  { unfold slice_to.
    replace (limite <? 0) with true by (symmetry; apply Z.ltb_lt; exact Hl).
    f_equal. lia. }
  assert (Hn : List.length (slice_to l limite)
               = (List.length l - Z.to_nat (- limite))%nat).
  { rewrite Hcut, length_firstn. lia. }
  split; [exact Hlen|]. split; [exact Hcut|]. split; [exact Hn|].
  split; [|reflexivity].
  split.
  - intro E. rewrite E in Hn. simpl in Hn. lia.
  - intro H. apply length_zero_iff_nil. rewrite Hn. lia.
Qed.

Lemma X23_limite_negativo_witness :
  -1 < 0
  /\ DataProcessor.itens_mais_populares Samples.com_itens (-1)
     = [ Entrada.mk 3 (of_Z 90) "Pizza"; Entrada.mk 2 (of_Z 20) "Suco" ].
Proof.
  split; [lia|].
  destruct (X23_limite_negativo Samples.com_itens (-1) ltac:(lia))
    as (_ & H & _).
  rewrite H. qc_eq.
Defined.

(** X24.  [calcular_vendas_totais] of two batches put together is the
    sum of their totals, and the total does not depend on the order of the
    orders in the batch (in exact arithmetic). *)
Theorem X24_vendas_totais_compoe :
  forall xs ys : list Pedido.t,
    DataProcessor.calcular_vendas_totais (xs ++ ys)
    = (DataProcessor.calcular_vendas_totais xs
       + DataProcessor.calcular_vendas_totais ys)%Qc
    /\ (Permutation xs ys ->
        DataProcessor.calcular_vendas_totais xs
        = DataProcessor.calcular_vendas_totais ys).
Proof.
  intros xs ys. split; [apply vendas_totais_app|].
  intro H. rewrite !vendas_totais_total.
  apply total_Permutation, Permutation_map, H.
Qed.
